(** * Payroll automation: payment scheduling and transfer orchestration

    A shallow embedding of the payment core of the payroll system:
    - [backend/services/Payment_scheduler.py]: the daily check
      ([check_pending_payments]), the per-worker scheduled payment
      ([process_scheduled_payment]) and [calculate_next_payment_date];
    - [backend/services/paystack.py]: [process_worker_payment],
      [get_transaction_fee] and [calculate_net_amount];
    - [backend/routes/payment.py]: the manual [process_payment] endpoint.

    Amounts typed [float] in the source are IEEE binary64 numbers
    ([PrimFloat]); tables with an integer primary key are finite maps or
    row lists; the system clock and the payment provider are an explicit
    environment; exceptions are an explicit outcome of a small state and
    exception monad. *)

From Stdlib Require Import ZArith Floats Uint63 Lia Bool.
From stdpp Require Import gmap strings list.

Local Open Scope Z_scope.

(** ** Calendar dates, as Python's [datetime.date] *)

Record date := Date { year : Z; month : Z; day : Z }.

Definition MINYEAR : Z := 1.
Definition MAXYEAR : Z := 9999.

Definition is_leap (y : Z) : bool :=
  (y mod 4 =? 0) && (negb (y mod 100 =? 0) || (y mod 400 =? 0)).

Definition days_in_month (y m : Z) : Z :=
  if m =? 2 then (if is_leap y then 29 else 28)
  else if (m =? 4) || (m =? 6) || (m =? 9) || (m =? 11) then 30
  else 31.

Definition valid_date (d : date) : bool :=
  (MINYEAR <=? year d) && (year d <=? MAXYEAR) &&
  (1 <=? month d) && (month d <=? 12) &&
  (1 <=? day d) && (day d <=? days_in_month (year d) (month d)).

(** [date(y, m, d)]: [None] stands for the [ValueError] of an argument out
    of range. *)
Definition new_date (y m d : Z) : option date :=
  if valid_date (Date y m d) then Some (Date y m d) else None.

(** [d.replace(year=..., month=..., day=...)], each keyword optional. *)
Definition replace (d : date) (y m dd : option Z) : option date :=
  new_date (default (year d) y) (default (month d) m) (default (day d) dd).

(** The day after and the day before; [None] is the [OverflowError] past
    [date.max] or before [date.min]. *)
Definition next_day (d : date) : option date :=
  if day d <? days_in_month (year d) (month d) then
    Some (Date (year d) (month d) (day d + 1))
  else if month d <? 12 then Some (Date (year d) (month d + 1) 1)
  else if year d <? MAXYEAR then Some (Date (year d + 1) 1 1)
  else None.

Definition prev_day (d : date) : option date :=
  if 1 <? day d then Some (Date (year d) (month d) (day d - 1))
  else if 1 <? month d then
    Some (Date (year d) (month d - 1) (days_in_month (year d) (month d - 1)))
  else if MINYEAR <? year d then Some (Date (year d - 1) 12 31)
  else None.

Fixpoint iter_day (step : date -> option date) (n : nat) (d : date)
  : option date :=
  match n with
  | O => Some d
  | S k => match step d with
           | Some d' => iter_day step k d'
           | None => None
           end
  end.

(** [d + timedelta(days=n)] and [d - timedelta(days=n)] for [n >= 0]. *)
Definition add_days (d : date) (n : nat) : option date := iter_day next_day n d.
Definition sub_days (d : date) (n : nat) : option date := iter_day prev_day n d.

(** ** Timestamps, as naive [datetime.datetime] values

    The time of day is counted in microseconds since midnight. *)

Record datetime := DateTime { dt_date : date; dt_time : Z }.

Definition min_time : Z := 0.
Definition max_time : Z := 86399999999.

(** [datetime.combine(d, t)] *)
Definition combine (d : date) (t : Z) : datetime := DateTime d t.

Definition date_compare (a b : date) : comparison :=
  match year a ?= year b with
  | Eq => match month a ?= month b with
          | Eq => day a ?= day b
          | c => c
          end
  | c => c
  end.

Definition datetime_compare (a b : datetime) : comparison :=
  match date_compare (dt_date a) (dt_date b) with
  | Eq => dt_time a ?= dt_time b
  | c => c
  end.

Definition datetime_leb (a b : datetime) : bool :=
  match datetime_compare a b with Gt => false | _ => true end.

(** ** The due-date calculator

    The source has three textually identical copies of
    [calculate_next_payment_date] (the scheduler method, and the helpers of
    [routes/payment.py] and [routes/worker.py]).  Each reads the local
    clock itself, [today = datetime.now().date()]; the function below is
    the body after that read.  [None] is the exception that escapes it. *)

Definition calculate_next_payment_date_from
    (today : date) (payment_frequency : string) : option datetime :=
  next_date ←
    (if String.eqb payment_frequency "weekly" then add_days today 7
     else if String.eqb payment_frequency "bi-weekly" then add_days today 14
     else
       next_month ←
         (if month today =? 12
          then replace today (Some (year today + 1)) (Some 1) (Some 1)
          else replace today None (Some (month today + 1)) (Some 1));
       match replace next_month None None (Some (day today)) with
       | Some next_date => Some next_date
       | None => (* except ValueError *)
           first_after ←
             (if month next_month =? 12
              then replace next_month (Some (year next_month + 1)) (Some 1) (Some 1)
              else replace next_month None (Some (month next_month + 1)) (Some 1));
           sub_days first_after 1
       end);
  Some (combine next_date min_time).

(** ** Numbers

    [Numeric(10, 2)] columns hold a decimal with two places, kept here as
    the integer count of hundredths; Python [float] is [PrimFloat.float]. *)

Definition Z_to_float (z : Z) : float :=
  match z with
  | Z0 => 0%float
  | Zpos _ => PrimFloat.of_uint63 (Uint63.of_Z z)
  | Zneg _ => PrimFloat.opp (PrimFloat.of_uint63 (Uint63.of_Z (- z)))
  end.

(** [float(d)] for a two-place decimal [d] of at most ten digits: the
    double nearest to [hundredths / 100]. *)
Definition decimal_to_float (hundredths : Z) : float :=
  PrimFloat.div (Z_to_float hundredths) 100%float.

(** [int(x)]: truncation toward zero; [inl text] is the [ValueError] of a
    NaN or the [OverflowError] of an infinity, with its message. *)
Definition float_to_int (x : float) : string + Z :=
  match Prim2SF x with
  | S754_zero _ => inr 0
  | S754_finite s m e =>
      let magnitude :=
        if 0 <=? e then Z.pos m * 2 ^ e else Z.pos m / 2 ^ (- e) in
      inr (if s then - magnitude else magnitude)
  | S754_infinity _ => inl "cannot convert float infinity to integer"
  | S754_nan => inl "cannot convert float NaN to integer"
  end.

(** Truth value of a Python float: false exactly for [0.0] and [-0.0]. *)
Definition float_truthy (x : float) : bool := negb (PrimFloat.eqb x 0%float).

(** [x != x]: true exactly for a NaN. *)
Definition is_nan (x : float) : bool := negb (PrimFloat.eqb x x).

(** The value read from an [amount] column: a [Decimal] with two places,
    or, for a float that is not a number of hundredths (an infinity), the
    special value the float gives. *)
Inductive amount_value :=
| AmountDecimal (hundredths : Z)
| AmountFloat (f : float).

(** [n / d] rounded to the nearest integer, a tie to the even one
    ([0 < d]). *)
Definition round_half_even (n d : Z) : Z :=
  let q := n / d in
  let r := n mod d in
  if 2 * r <? d then q
  else if d <? 2 * r then q + 1
  else if Z.even q then q else q + 1.

(** What a [Numeric(10, 2)] column yields for a float written to it:
    SQLite keeps the float and the column type reads it back as
    [Decimal("%.2f" % x)], the exact binary value rounded to two places,
    half to even. *)
Definition numeric_2 (x : float) : amount_value :=
  match Prim2SF x with
  | S754_zero _ => AmountDecimal 0
  | S754_finite s m e =>
      let hundredths :=
        if 0 <=? e then Z.pos m * 100 * 2 ^ e
        else round_half_even (Z.pos m * 100) (2 ^ (- e)) in
      AmountDecimal (if s then - hundredths else hundredths)
  | S754_infinity _ => AmountFloat x
  | S754_nan => AmountFloat x
  end.

(** ** Rows of the database ([backend/database.py]) *)

Module Worker.
(** The primary key [id] is the key of the [workers] map below. *)
Record t := Make {
  name : string;
  account_number : string;
  bank_code : string;
  salary_amount : Z;
  payment_frequency : string;
  last_paid : option datetime;
  next_payment_date : option datetime;
  is_active : bool
}.

Definition set_last_paid (v : option datetime) (w : t) : t :=
  Make (name w) (account_number w) (bank_code w) (salary_amount w)
       (payment_frequency w) v (next_payment_date w) (is_active w).

Definition set_next_payment_date (v : option datetime) (w : t) : t :=
  Make (name w) (account_number w) (bank_code w) (salary_amount w)
       (payment_frequency w) (last_paid w) v (is_active w).
End Worker.

Module PaymentHistory.
Record t := Make {
  id : Z;
  worker_id : Z;
  amount : amount_value;
  status : string;
  transaction_reference : option string;
  paystack_reference : option string;
  approved_by : option Z;
  paid_at : option datetime;
  created_at : datetime
}.

Definition set_status (v : string) (p : t) : t :=
  Make (id p) (worker_id p) (amount p) v (transaction_reference p)
       (paystack_reference p) (approved_by p) (paid_at p) (created_at p).

Definition set_transaction_reference (v : option string) (p : t) : t :=
  Make (id p) (worker_id p) (amount p) (status p) v
       (paystack_reference p) (approved_by p) (paid_at p) (created_at p).

Definition set_paystack_reference (v : option string) (p : t) : t :=
  Make (id p) (worker_id p) (amount p) (status p) (transaction_reference p)
       v (approved_by p) (paid_at p) (created_at p).

Definition set_paid_at (v : option datetime) (p : t) : t :=
  Make (id p) (worker_id p) (amount p) (status p) (transaction_reference p)
       (paystack_reference p) (approved_by p) v (created_at p).
End PaymentHistory.

Module AuditLog.
Record t := Make {
  user_id : Z;
  action : string;
  details : string
}.
End AuditLog.

(** ** The payment provider

    Every call is an HTTP request.  It either raises
    [requests.exceptions.RequestException] ([RequestException], with the
    text of the exception) or yields the decoded JSON object.  A decoded reply is
    represented by what the callers read from it: the truth value of
    [reply.get("status")], and the value under each subscript path the code
    follows: [inl text] when following the path raises ([KeyError],
    [TypeError], [IndexError], ...) with [str(e) = text], and [inr v] for
    the Python value found ([None] for JSON [null]). *)

Inductive ProviderCall :=
| GetBalance
| CreateTransferRecipient (name account_number bank_code : string)
| InitiateTransfer (recipient : option string) (amount_kobo : Z) (reason : string).

Record BalanceData := {
  balance_status : bool;           (* balance_data.get("status") *)
  balance_has_data : bool;         (* balance_data.get("data") *)
  balance_first : string + float   (* float(balance_data["data"][0]["balance"]) *)
}.

Record RecipientData := {
  recipient_status : bool;                   (* recipient_data.get("status") *)
  recipient_code : string + option string    (* recipient_data["data"]["recipient_code"] *)
}.

Record TransferData := {
  transfer_status : bool;                       (* transfer_data.get("status") *)
  transfer_reference : string + option string;  (* transfer_data["data"]["reference"] *)
  transfer_code : string + option string        (* transfer_data["data"]["transfer_code"] *)
}.

Inductive response (A : Type) :=
| RequestException (text : string)
| Json (a : A).
Arguments RequestException {A} text.
Arguments Json {A} a.

(** ** Environment and state

    The environment fixes what the outside world answers: the reading of
    each clock at every tick, and the provider's reply to a request given
    the requests sent before it.  [format_2f] is Python's [f"{x:.2f}"]. *)

Record Env := {
  utcnow_at : nat -> datetime;     (* datetime.utcnow() *)
  now_at : nat -> datetime;        (* datetime.now(), local time *)
  db_now_at : nat -> datetime;     (* func.now(), evaluated by the database *)
  balance_reply : list ProviderCall -> response BalanceData;
  recipient_reply : list ProviderCall -> string -> string -> string -> response RecipientData;
  transfer_reply : list ProviderCall -> option string -> Z -> string -> response TransferData;
  format_2f : float -> string
}.

Record Tables := {
  workers : gmap Z Worker.t;                    (* table workers, by id *)
  payment_history : list PaymentHistory.t;      (* table payment_history, in insertion order *)
  audit_logs : list AuditLog.t                  (* table audit_logs, in insertion order *)
}.

(** [session] is what the open SQLAlchemy session holds (rows loaded,
    changed and added); [database] is what has been committed. *)
Record State := {
  tick : nat;                      (* clock reads so far *)
  session : Tables;
  database : Tables;
  calls : list ProviderCall        (* provider requests sent, oldest first *)
}.

Definition set_workers (v : gmap Z Worker.t) (t : Tables) : Tables :=
  Build_Tables v (payment_history t) (audit_logs t).
Definition set_payment_history (v : list PaymentHistory.t) (t : Tables) : Tables :=
  Build_Tables (workers t) v (audit_logs t).
Definition set_audit_logs (v : list AuditLog.t) (t : Tables) : Tables :=
  Build_Tables (workers t) (payment_history t) v.

Definition set_tick (v : nat) (s : State) : State :=
  Build_State v (session s) (database s) (calls s).
Definition set_session (v : Tables) (s : State) : State :=
  Build_State (tick s) v (database s) (calls s).
Definition set_database (v : Tables) (s : State) : State :=
  Build_State (tick s) (session s) v (calls s).
Definition set_calls (v : list ProviderCall) (s : State) : State :=
  Build_State (tick s) (session s) (database s) v.

(** ** Exceptions and the monad of effects *)

Inductive exn :=
| HTTPException (status_code : Z) (detail : string)
| PyException (text : string).          (* any other [Exception]; [text] is [str(e)] *)

Definition exn_text (e : exn) : string :=
  match e with
  | HTTPException _ d => d
  | PyException t => t
  end.

Inductive outcome (A : Type) :=
| Return (a : A)
| Raise (e : exn).
Arguments Return {A} a.
Arguments Raise {A} e.

Definition M (A : Type) : Type := State -> outcome A * State.

Definition ret {A} (a : A) : M A := fun s => (Return a, s).
Definition raise {A} (e : exn) : M A := fun s => (Raise e, s).
Definition bind {A B} (m : M A) (k : A -> M B) : M B :=
  fun s => match m s with
           | (Return a, s') => k a s'
           | (Raise e, s') => (Raise e, s')
           end.
(** [try: m  finally: f] *)
Definition try_finally {A} (m : M A) (f : M unit) : M A :=
  fun s => let '(o, s') := m s in (o, snd (f s')).
(** [try: m  except <any>: h] *)
Definition try_except {A} (m : M A) (h : exn -> M A) : M A :=
  fun s => match m s with
           | (Return a, s') => (Return a, s')
           | (Raise e, s') => h e s'
           end.
Definition get : M State := fun s => (Return s, s).
Definition modify (f : State -> State) : M unit := fun s => (Return tt, f s).

Declare Scope eff_scope.
Delimit Scope eff_scope with eff.
Notation "'let*' x ':=' m 'in' k" := (bind m (fun x => k))
  (at level 10, x name, m at level 200, k at level 200, only parsing) : eff_scope.
Notation "'perform' m 'in' k" := (bind m (fun _ => k))
  (at level 10, m at level 200, k at level 200, only parsing) : eff_scope.

Local Open Scope eff_scope.

(** *** Reading the clocks and calling the provider *)

Definition read_clock (clock : nat -> datetime) : M datetime :=
  fun s => (Return (clock (tick s)), set_tick (S (tick s)) s).

Definition utcnow (env : Env) : M datetime := read_clock (utcnow_at env).
Definition now (env : Env) : M datetime := read_clock (now_at env).
Definition db_now (env : Env) : M datetime := read_clock (db_now_at env).

Definition send {A} (c : ProviderCall)
    (reply : list ProviderCall -> response A) : M (response A) :=
  fun s => (Return (reply (calls s)), set_calls (calls s ++ [c]) s).

(** *** The SQLAlchemy session *)

(** [db = next(get_db())]: a new session over the committed rows. *)
Definition open_session : M unit :=
  modify (fun s => set_session (database s) s).
(** [db.commit()] *)
Definition commit : M unit :=
  modify (fun s => set_database (session s) s).
(** [db.close()]: what was not committed is dropped. *)
Definition close : M unit :=
  modify (fun s => set_session (database s) s).

(** SQLite integers have 64 bits. *)
Definition sqlite_integer (z : Z) : bool :=
  (- 9223372036854775808 <=? z) && (z <? 9223372036854775808).

(** [db.query(Worker).filter(Worker.id == worker_id).first()].  A stored
    id is a SQLite integer, so a [worker_id] outside that range finds no
    row in the table: binding it to the statement raises
    [OverflowError]. *)
Definition query_worker (worker_id : Z) : M (option Worker.t) :=
  let* s := get in
  match workers (session s) !! worker_id with
  | Some worker => ret (Some worker)
  | None =>
      if sqlite_integer worker_id then ret None
      else raise (PyException "Python int too large to convert to SQLite INTEGER")
  end.

(** The next value of an autoincrement primary key. *)
Definition next_id (rows : list PaymentHistory.t) : Z :=
  1 + foldr (fun p acc => Z.max (PaymentHistory.id p) acc) 0 rows.

(** [db.add(PaymentHistory(...))]; the result is the position of the new
    row, by which the code's [payment_record] object is found again, and
    the row as inserted. *)
Definition add_payment (row : Z -> PaymentHistory.t)
  : M (nat * PaymentHistory.t) :=
  fun s =>
    let rows := payment_history (session s) in
    let new_row := row (next_id rows) in
    (Return (length rows, new_row),
     set_session (set_payment_history (rows ++ [new_row]) (session s)) s).

(** An attribute assignment on [payment_record]. *)
Definition update_payment (i : nat) (f : PaymentHistory.t -> PaymentHistory.t)
  : M unit :=
  modify (fun s =>
    set_session (set_payment_history
                   (alter f i (payment_history (session s))) (session s)) s).

(** An attribute assignment on [worker]. *)
Definition update_worker (wid : Z) (f : Worker.t -> Worker.t) : M unit :=
  modify (fun s =>
    set_session (set_workers (alter f wid (workers (session s))) (session s)) s).

(** [db.add(AuditLog(...))] *)
Definition add_audit_log (entry : AuditLog.t) : M unit :=
  modify (fun s =>
    set_session (set_audit_logs (audit_logs (session s) ++ [entry]) (session s)) s).

(** [calculate_next_payment_date(payment_frequency)]: reads the local clock
    and computes from today's date.  What escapes is the [OverflowError] of
    [today + timedelta(...)] in the two week branches and, in the month
    branch, the [ValueError] of [today.replace(year=today.year + 1, ...)]
    in December of the year 9999. *)
Definition calculate_next_payment_date (env : Env) (payment_frequency : string)
  : M datetime :=
  let* t := now env in
  match calculate_next_payment_date_from (dt_date t) payment_frequency with
  | Some d => ret d
  | None =>
      raise (PyException
               (if String.eqb payment_frequency "weekly" then "date value out of range"
                else if String.eqb payment_frequency "bi-weekly"
                     then "date value out of range"
                     else "year 10000 is out of range"))
  end.

(** ** [backend/services/paystack.py]: class [PaystackService] *)

Module PaystackService.

(** Each method wraps a [RequestException] into a plain [Exception]. *)
Definition create_transfer_recipient (env : Env)
    (name account_number bank_code : string) : M RecipientData :=
  let* r := send (CreateTransferRecipient name account_number bank_code)
                 (fun sent => recipient_reply env sent name account_number bank_code) in
  match r with
  | Json d => ret d
  | RequestException e =>
      raise (PyException ("Transfer recipient creation failed: " +:+ e))
  end.

Definition initiate_transfer (env : Env)
    (recipient : option string) (amount_kobo : Z) (reason : string)
  : M TransferData :=
  let* r := send (InitiateTransfer recipient amount_kobo reason)
                 (fun sent => transfer_reply env sent recipient amount_kobo reason) in
  match r with
  | Json d => ret d
  | RequestException e =>
      raise (PyException ("Transfer initiation failed: " +:+ e))
  end.

Definition get_balance (env : Env) : M BalanceData :=
  let* r := send GetBalance (balance_reply env) in
  match r with
  | Json d => ret d
  | RequestException e =>
      raise (PyException ("Unable to retrieve balance: " +:+ e))
  end.

Definition process_worker_payment (env : Env)
    (worker_name account_number bank_code : string) (amount : float)
    (reason : string) : M (bool * string * option string) :=
  try_except
    ((* Step 1: Create transfer recipient *)
     let* recipient_data :=
       create_transfer_recipient env worker_name account_number bank_code in
     if negb (recipient_status recipient_data) then
       ret (false, "Failed to create transfer recipient", None)
     else
       match recipient_code recipient_data with
       | inl e => raise (PyException e)
       | inr recipient_code =>
           (* Step 2: Initiate transfer (amount in kobo) *)
           match float_to_int (PrimFloat.mul amount 100%float) with
           | inl e => raise (PyException e)
           | inr amount_kobo =>
               let* transfer_data :=
                 initiate_transfer env recipient_code amount_kobo reason in
               if negb (transfer_status transfer_data) then
                 ret (false, "Failed to initiate transfer", None)
               else
                 match transfer_reference transfer_data with
                 | inl e => raise (PyException e)
                 | inr reference =>
                     ret (true, "Payment processed successfully", reference)
                 end
           end
       end)
    (fun e => ret (false, exn_text e, None)).

Definition get_transaction_fee (amount : float) : float :=
  if PrimFloat.ltb amount 5000%float then 10%float
  else if PrimFloat.leb amount 50000%float then 25%float
  else 50%float.

Definition calculate_net_amount (gross_amount : float) : float * float :=
  let fee := get_transaction_fee gross_amount in
  let net_amount := PrimFloat.sub gross_amount fee in
  (net_amount, fee).

End PaystackService.

(** A [for] loop over a list. *)
Fixpoint for_each {A} (l : list A) (body : A -> M unit) : M unit :=
  match l with
  | [] => ret tt
  | x :: rest => perform body x in for_each rest body
  end.

(** A [for] loop that appends one value per element to a list; building
    the value may raise. *)
Fixpoint collect {A B} (l : list A) (f : A -> M B) : M (list B) :=
  match l with
  | [] => ret []
  | x :: rest =>
      let* y := f x in
      let* ys := collect rest f in
      ret (y :: ys)
  end.

(** ** [backend/services/Payment_scheduler.py]: class [PaymentScheduler] *)

Module PaymentScheduler.

(** The query of [check_pending_payments]: active workers whose
    [next_payment_date] is at most the last instant of [today].  In SQL a
    comparison with NULL is not true, so a worker without a
    [next_payment_date] is not selected. *)
Definition workers_due (today : date) (t : Tables) : list (Z * Worker.t) :=
  List.filter
    (fun kw =>
       Worker.is_active (snd kw) &&
       match Worker.next_payment_date (snd kw) with
       | Some d => datetime_leb d (combine today max_time)
       | None => false
       end)
    (map_to_list (workers t)).

(** The query for a pending payment of the worker created today or later;
    [.first()] gives a row or [None]. *)
Definition existing_payment (today : date) (worker_id : Z)
    (rows : list PaymentHistory.t) : option PaymentHistory.t :=
  List.find
    (fun p =>
       (PaymentHistory.worker_id p =? worker_id) &&
       String.eqb (PaymentHistory.status p) "pending" &&
       datetime_leb (combine today min_time) (PaymentHistory.created_at p))
    rows.

(** The body of the loop over [workers_due].  The session is created with
    [autoflush=False]: the query reads the committed rows, not the rows
    added since. *)
Definition open_if_none (env : Env) (today : date) (kw : Z * Worker.t) : M unit :=
  let worker_id := fst kw in
  let worker := snd kw in
  let* s := get in
  match existing_payment today worker_id (payment_history (database s)) with
  | Some _ => ret tt
  | None =>
      (* Create pending payment record *)
      let* created := utcnow env in
      let* _ := add_payment (fun id =>
        PaymentHistory.Make id worker_id
          (AmountDecimal (Worker.salary_amount worker)) "pending"
          None None None None created) in
      ret tt
  end.

Definition check_pending_payments (env : Env) : M unit :=
  perform open_session in
  let* t := now env in
  let today := dt_date t in
  let* s := get in
  perform for_each (workers_due today (database s)) (open_if_none env today) in
  perform commit in
  close.

(** [not existing_payment], for the worker [kw]. *)
Definition no_existing (today : date) (rows : list PaymentHistory.t)
    (kw : Z * Worker.t) : bool :=
  match existing_payment today (fst kw) rows with
  | Some _ => false
  | None => true
  end.

(** The workers for whom the daily check opens a payment: those of
    [workers_due] for whom the query [existing_payment] finds no row. *)
Definition list_due (today : date) (t : Tables) : list (Z * Worker.t) :=
  List.filter (no_existing today (payment_history t)) (workers_due today t).

(** The success branch of [process_scheduled_payment]: "Update payment
    record" and "Update worker".  Nothing in it looks at the status the row
    has. *)
Definition close_success (env : Env) (payment_record : nat) (worker_id : Z)
    (worker : Worker.t) (reference : option string) : M unit :=
  perform update_payment payment_record (PaymentHistory.set_status "success") in
  perform update_payment payment_record
            (PaymentHistory.set_transaction_reference reference) in
  let* paid := utcnow env in
  perform update_payment payment_record (PaymentHistory.set_paid_at (Some paid)) in
  let* last := utcnow env in
  perform update_worker worker_id (Worker.set_last_paid (Some last)) in
  let* next := calculate_next_payment_date env (Worker.payment_frequency worker) in
  update_worker worker_id (Worker.set_next_payment_date (Some next)).

(** The failure branch: "Payment failed". *)
Definition close_failed (payment_record : nat) : M unit :=
  update_payment payment_record (PaymentHistory.set_status "failed").

Definition process_scheduled_payment (env : Env) (worker_id : Z) : M unit :=
  perform
    try_except
      (perform open_session in
       (* Get worker *)
       let* found := query_worker worker_id in
       match found with
       | None => ret tt
       | Some worker =>
           if negb (Worker.is_active worker) then ret tt
           else
             (* Create payment record *)
             let* created := utcnow env in
             let* added := add_payment (fun id =>
               PaymentHistory.Make id worker_id
                 (AmountDecimal (Worker.salary_amount worker)) "pending"
                 None None None None created) in
             let payment_record := fst added in
             perform commit in
             (* Process payment via Paystack *)
             let* result :=
               PaystackService.process_worker_payment env
                 (Worker.name worker) (Worker.account_number worker)
                 (Worker.bank_code worker)
                 (decimal_to_float (Worker.salary_amount worker))
                 ("Automated salary payment for " +:+ Worker.name worker) in
             let '(success, message, reference) := result in
             perform
               (if success : bool
                then close_success env payment_record worker_id worker reference
                else close_failed payment_record) in
             perform commit in
             (* Create audit log *)
             perform add_audit_log
               (AuditLog.Make 0 "scheduled_payment_processed"
                  ("Scheduled payment for " +:+ Worker.name worker +:+ ": "
                   +:+ (if success then "Success" else "Failed")
                   +:+ " - " +:+ message)) in
             commit
       end)
      (fun _ => ret tt) in
  close.

End PaymentScheduler.

(** ** [backend/routes/payment.py] *)

Module PaymentProcessRequest.
Record t := Make {
  worker_id : Z;
  amount : option float       (* If None, use worker's salary *)
}.
End PaymentProcessRequest.

Module PaymentHistoryResponse.
Record t := Make {
  id : Z;
  worker_id : Z;
  worker_name : string;
  amount : float;
  status : string;
  transaction_reference : option string;
  paystack_reference : option string;
  paid_at : option datetime;
  created_at : datetime
}.
End PaymentHistoryResponse.

Module PendingPayment.
Record t := Make {
  id : Z;
  worker_id : Z;
  worker_name : string;
  amount : float;
  due_date : datetime;
  status : string
}.
End PendingPayment.

(** [str(v)] of a value that is a string or [None]. *)
Definition py_str (v : option string) : string := default "None" v.

(** Class [PaystackBalance]: each method turns a [RequestException] into an
    [HTTPException] with status 503. *)
Module PaystackBalance.

Definition get_balance (env : Env) : M BalanceData :=
  let* r := send GetBalance (balance_reply env) in
  match r with
  | Json d => ret d
  | RequestException e =>
      raise (HTTPException 503 ("Paystack API error: " +:+ e))
  end.

Definition create_transfer_recipient (env : Env)
    (name account_number bank_code : string) : M RecipientData :=
  let* r := send (CreateTransferRecipient name account_number bank_code)
                 (fun sent => recipient_reply env sent name account_number bank_code) in
  match r with
  | Json d => ret d
  | RequestException e =>
      raise (HTTPException 503 ("Transfer recipient creation failed: " +:+ e))
  end.

Definition initiate_transfer (env : Env)
    (recipient : option string) (amount : Z) (reason : string)
  : M TransferData :=
  let* r := send (InitiateTransfer recipient amount reason)
                 (fun sent => transfer_reply env sent recipient amount reason) in
  match r with
  | Json d => ret d
  | RequestException e =>
      raise (HTTPException 503 ("Transfer initiation failed: " +:+ e))
  end.

End PaystackBalance.

Module PaymentRoutes.

Definition create_audit_log (user_id : Z) (action details : string) : M unit :=
  perform add_audit_log (AuditLog.Make user_id action details) in
  commit.

(** [amount = payment_request.amount or float(worker.salary_amount)] *)
Definition requested_amount (payment_request : PaymentProcessRequest.t)
    (worker : Worker.t) : float :=
  match PaymentProcessRequest.amount payment_request with
  | Some a =>
      if float_truthy a then a
      else decimal_to_float (Worker.salary_amount worker)
  | None => decimal_to_float (Worker.salary_amount worker)
  end.

(** The block "Check Paystack balance first". *)
Definition check_balance (env : Env) (amount : float) : M unit :=
  try_except
    (let* balance_data := PaystackBalance.get_balance env in
     if balance_status balance_data && balance_has_data balance_data then
       match balance_first balance_data with
       | inl e => raise (PyException e)
       | inr balance =>
           let available_balance := PrimFloat.div balance 100%float in
           let required_amount := amount in
           if PrimFloat.ltb available_balance required_amount then
             raise (HTTPException 400
                      ("Insufficient balance. Available: "
                       +:+ format_2f env available_balance
                       +:+ ", Required: " +:+ format_2f env required_amount))
           else ret tt
       end
     else ret tt)
    (fun e =>
       match e with
       | HTTPException _ _ => raise e
       | PyException _ => ret tt   (* Continue anyway *)
       end).

(** The [try] block of [process_payment]: the transfer and, on success, the
    update of the payment record and of the worker. *)
Definition transfer_and_close (env : Env) (current_user : Z)
    (worker_id : Z) (worker : Worker.t) (amount : float)
    (payment_record : nat) (row : PaymentHistory.t)
  : M PaymentHistoryResponse.t :=
  (* Step 1: Create transfer recipient *)
  let* recipient_data :=
    PaystackBalance.create_transfer_recipient env (Worker.name worker)
      (Worker.account_number worker) (Worker.bank_code worker) in
  if negb (recipient_status recipient_data) then
    raise (PyException "Failed to create transfer recipient")
  else
  match recipient_code recipient_data with
  | inl e => raise (PyException e)
  | inr recipient_code =>
  (* Step 2: Initiate transfer (amount in kobo) *)
  match float_to_int (PrimFloat.mul amount 100%float) with
  | inl e => raise (PyException e)
  | inr amount_kobo =>
  let* transfer_data :=
    PaystackBalance.initiate_transfer env recipient_code amount_kobo
      ("Salary payment for " +:+ Worker.name worker) in
  if negb (transfer_status transfer_data) then
    raise (PyException "Failed to initiate transfer")
  else
  (* Update payment record with Paystack reference *)
  perform update_payment payment_record (PaymentHistory.set_status "success") in
  match transfer_reference transfer_data with
  | inl e => raise (PyException e)
  | inr reference =>
  perform update_payment payment_record
            (PaymentHistory.set_transaction_reference reference) in
  match transfer_code transfer_data with
  | inl e => raise (PyException e)
  | inr code =>
  perform update_payment payment_record
            (PaymentHistory.set_paystack_reference code) in
  let* paid := utcnow env in
  perform update_payment payment_record (PaymentHistory.set_paid_at (Some paid)) in
  (* Update worker last paid date *)
  let* last := utcnow env in
  perform update_worker worker_id (Worker.set_last_paid (Some last)) in
  (* Calculate next payment date *)
  let* next := calculate_next_payment_date env (Worker.payment_frequency worker) in
  perform update_worker worker_id (Worker.set_next_payment_date (Some next)) in
  perform commit in
  perform create_audit_log current_user "payment_processed"
            ("Processed payment of " +:+ format_2f env amount +:+ " to "
             +:+ Worker.name worker +:+ " (Ref: " +:+ py_str reference +:+ ")") in
  ret (PaymentHistoryResponse.Make (PaymentHistory.id row) worker_id
         (Worker.name worker) amount "success" reference code (Some paid)
         (PaymentHistory.created_at row))
  end end end end.

(** "Create payment record" and the [try] ... [except] that follows it.
    The insert is outside the [try].  The column [amount] is NOT NULL and
    SQLite stores a NaN as NULL: for a NaN the commit raises
    [IntegrityError] (the text is the driver's message, with which [str(e)]
    begins) and the row is not written.  Any other float is stored, and
    read back by [db.refresh] as the column type yields it. *)
Definition record_and_transfer (env : Env) (current_user : Z)
    (worker_id : Z) (worker : Worker.t) (amount : float)
  : M PaymentHistoryResponse.t :=
  let* created := db_now env in
  let* added := add_payment (fun id =>
    PaymentHistory.Make id worker_id (numeric_2 amount) "pending"
      None None (Some current_user) None created) in
  let payment_record := fst added in
  perform
    (if is_nan amount then
       raise (PyException
                ("(sqlite3.IntegrityError) NOT NULL constraint failed: "
                 +:+ "payment_history.amount"))
     else commit) in
  try_except
    (transfer_and_close env current_user worker_id worker amount
       payment_record (snd added))
    (fun e =>
       (* Update payment status to failed *)
       perform update_payment payment_record
                 (PaymentHistory.set_status "failed") in
       perform commit in
       match e with
       | HTTPException _ _ => raise e
       | PyException text =>
           perform create_audit_log current_user "payment_failed"
                     ("Payment failed for " +:+ Worker.name worker
                      +:+ ": " +:+ text) in
           raise (HTTPException 500
                    ("Payment processing failed: " +:+ text))
       end).

Definition process_payment (env : Env)
    (payment_request : PaymentProcessRequest.t) (current_user : Z)
  : M PaymentHistoryResponse.t :=
  perform open_session in
  try_finally
    (let worker_id := PaymentProcessRequest.worker_id payment_request in
     (* Get worker *)
     let* found := query_worker worker_id in
     match found with
     | None => raise (HTTPException 404 "Worker not found")
     | Some worker =>
         if negb (Worker.is_active worker) then
           raise (HTTPException 400 "Worker is not active")
         else
           (* Determine amount (use provided amount or worker's salary) *)
           let amount := requested_amount payment_request worker in
           if PrimFloat.leb amount 0%float then
             raise (HTTPException 400 "Amount must be positive")
           else
             (* Check Paystack balance first *)
             perform check_balance env amount in
             record_and_transfer env current_user worker_id worker amount
     end)
    close.


(** The query of [get_pending_payments]: active workers whose
    [next_payment_date] is at most [now]; a NULL date is not selected. *)
Definition workers_due (now : datetime) (t : Tables) : list (Z * Worker.t) :=
  List.filter
    (fun kw =>
       Worker.is_active (snd kw) &&
       match Worker.next_payment_date (snd kw) with
       | Some d => datetime_leb d now
       | None => false
       end)
    (map_to_list (workers t)).

(** [PendingPayment(...)] for one worker of the query.  [due_date] is a
    required [datetime]: without a date the constructor raises pydantic's
    [ValidationError]. *)
Definition pending_payment (kw : Z * Worker.t) : M PendingPayment.t :=
  match Worker.next_payment_date (snd kw) with
  | Some due =>
      ret (PendingPayment.Make 0 (fst kw) (Worker.name (snd kw))
             (decimal_to_float (Worker.salary_amount (snd kw))) due
             "pending_approval")
  | None => raise (PyException "1 validation error for PendingPayment")
  end.

Definition get_pending_payments (env : Env) : M (list PendingPayment.t) :=
  perform open_session in
  try_finally
    (let* t := utcnow env in
     let* s := get in
     collect (workers_due t (session s)) pending_payment)
    close.

End PaymentRoutes.

(** * Reference notions used in the statements *)

(** The month after [today]: December rolls the year forward. *)
Definition following_year (today : date) : Z :=
  if month today =? 12 then year today + 1 else year today.
Definition following_month (today : date) : Z :=
  if month today =? 12 then 1 else month today + 1.

(** What the daily check records for a due worker: a pending row for the
    salary, with no reference and no payment time. *)
Definition opened_for (kw : Z * Worker.t) (p : PaymentHistory.t) : Prop :=
  PaymentHistory.worker_id p = fst kw /\
  PaymentHistory.amount p = AmountDecimal (Worker.salary_amount (snd kw)) /\
  PaymentHistory.status p = "pending" /\
  PaymentHistory.transaction_reference p = None /\
  PaymentHistory.paystack_reference p = None /\
  PaymentHistory.paid_at p = None.

(** A pending row of the worker created at or after the first instant of
    [today]: what the duplicate check of the daily check looks for. *)
Definition pending_today (today : date) (worker_id : Z) (p : PaymentHistory.t)
  : Prop :=
  PaymentHistory.worker_id p = worker_id /\
  PaymentHistory.status p = "pending" /\
  datetime_leb (combine today min_time) (PaymentHistory.created_at p) = true.

(** [row] is the one payment row a call has added. *)
Definition added_row (s s' : State) (row : PaymentHistory.t) : Prop :=
  payment_history (database s') = payment_history (database s) ++ [row].

(** What a call that started in [s] and closed [row] as success has
    written: [paid_at] is the clock read after the one taken at the start
    of the call, the worker's [last_paid] is the read after that one, and
    [next_payment_date] is computed from the local date of the read after
    that. *)
Definition closed_as_success (env : Env) (s s' : State) (wid : Z)
    (row : PaymentHistory.t) : Prop :=
  PaymentHistory.status row = "success" /\
  PaymentHistory.paid_at row = Some (utcnow_at env (tick s + 1)%nat) /\
  exists w next,
    workers (database s) !! wid = Some w /\
    calculate_next_payment_date_from (dt_date (now_at env (tick s + 3)%nat))
      (Worker.payment_frequency w) = Some next /\
    workers (database s') =
      alter (Worker.set_next_payment_date (Some next)) wid
        (alter (Worker.set_last_paid (Some (utcnow_at env (tick s + 2)%nat)))
           wid (workers (database s))).

(** The same, as read from the rows of the record and of the worker. *)
Definition stamped_by_success (env : Env) (s s' : State) (wid : Z)
    (row : PaymentHistory.t) : Prop :=
  PaymentHistory.paid_at row = Some (utcnow_at env (tick s + 1)%nat) /\
  exists w w' next,
    workers (database s) !! wid = Some w /\
    workers (database s') !! wid = Some w' /\
    Worker.last_paid w' = Some (utcnow_at env (tick s + 2)%nat) /\
    calculate_next_payment_date_from (dt_date (now_at env (tick s + 3)%nat))
      (Worker.payment_frequency w) = Some next /\
    Worker.next_payment_date w' = Some next.

(** The scheduled payment was interrupted by the date computation after the
    transfer: the row it had committed as pending is all that remains. *)
Definition left_pending (env : Env) (s : State) (wid : Z)
    (row : PaymentHistory.t) : Prop :=
  PaymentHistory.status row = "pending" /\
  exists w,
    workers (database s) !! wid = Some w /\
    calculate_next_payment_date_from (dt_date (now_at env (tick s + 3)%nat))
      (Worker.payment_frequency w) = None.

(** Days of the proleptic Gregorian calendar, as [date.toordinal()]:
    1 January of year 1 is day 1, and [max_ordinal] is 31 December 9999.
    The difference of two ordinals is the number of days between two
    dates. *)
Definition days_before_year (y : Z) : Z :=
  (y - 1) * 365 + (y - 1) / 4 - (y - 1) / 100 + (y - 1) / 400.

Definition days_before_month (y m : Z) : Z :=
  (if m =? 1 then 0 else if m =? 2 then 31 else if m =? 3 then 59
   else if m =? 4 then 90 else if m =? 5 then 120 else if m =? 6 then 151
   else if m =? 7 then 181 else if m =? 8 then 212 else if m =? 9 then 243
   else if m =? 10 then 273 else if m =? 11 then 304 else 334)
  + (if (2 <? m) && is_leap y then 1 else 0).

Definition toordinal (d : date) : Z :=
  days_before_year (year d) + days_before_month (year d) (month d) + day d.

Definition max_ordinal : Z := 3652059.

(** What one run of a transfer pipeline has sent to the provider, given the
    requests [before] it: the recipient request alone, and then no success
    is reported; or the recipient request, answered with a recipient code,
    followed by one transfer request to that code for [int(amount * 100)]
    kobo. *)
Definition pipeline_requests (env : Env) (before : list ProviderCall)
    (name account_number bank_code : string) (amount : float) (reason : string)
    (success : bool) (sent : list ProviderCall) : Prop :=
  (sent = [CreateTransferRecipient name account_number bank_code] /\
   success = false) \/
  exists rd code kobo,
    recipient_reply env before name account_number bank_code = Json rd /\
    recipient_status rd = true /\
    recipient_code rd = inr code /\
    float_to_int (PrimFloat.mul amount 100%float) = inr kobo /\
    sent = [CreateTransferRecipient name account_number bank_code;
            InitiateTransfer code kobo reason].

(** The columns of a worker that describe the person and the contract. *)
Definition profile (w : Worker.t) : string * string * string * Z * string * bool :=
  (Worker.name w, Worker.account_number w, Worker.bank_code w,
   Worker.salary_amount w, Worker.payment_frequency w, Worker.is_active w).

(** The pending row a scheduled payment starts from. *)
Definition scheduled_row (env : Env) (s : State) (wid : Z) (w : Worker.t)
  : PaymentHistory.t :=
  PaymentHistory.Make (next_id (payment_history (database s))) wid
    (AmountDecimal (Worker.salary_amount w)) "pending" None None None None
    (utcnow_at env (tick s)).

(** The state in which a scheduled payment of the worker calls the
    transfer pipeline: one clock read is spent and the pending row is
    committed.  [scheduled_pipeline] is that call. *)
Definition opened (env : Env) (s : State) (wid : Z) (w : Worker.t) : State :=
  let t :=
    set_payment_history
      (payment_history (database s) ++ [scheduled_row env s wid w])
      (database s) in
  Build_State (S (tick s)) t t (calls s).

Definition scheduled_pipeline (env : Env) (w : Worker.t)
  : M (bool * string * option string) :=
  PaystackService.process_worker_payment env (Worker.name w)
    (Worker.account_number w) (Worker.bank_code w)
    (decimal_to_float (Worker.salary_amount w))
    ("Automated salary payment for " +:+ Worker.name w).

(** The audit entry of a scheduled payment. *)
Definition scheduled_audit (w : Worker.t) (success : bool) (message : string)
  : AuditLog.t :=
  AuditLog.Make 0 "scheduled_payment_processed"
    ("Scheduled payment for " +:+ Worker.name w +:+ ": "
     +:+ (if success then "Success" else "Failed") +:+ " - " +:+ message).

(** The pending row a manual payment starts from. *)
Definition manual_row (env : Env) (s : State) (user wid : Z) (amount : float)
  : PaymentHistory.t :=
  PaymentHistory.Make (next_id (payment_history (database s))) wid
    (numeric_2 amount) "pending" None None (Some user) None
    (db_now_at env (tick s)).

(** Two rows that differ at most in what closing a payment assigns. *)
Definition same_payment (p q : PaymentHistory.t) : Prop :=
  PaymentHistory.id p = PaymentHistory.id q /\
  PaymentHistory.worker_id p = PaymentHistory.worker_id q /\
  PaymentHistory.amount p = PaymentHistory.amount q /\
  PaymentHistory.approved_by p = PaymentHistory.approved_by q /\
  PaymentHistory.created_at p = PaymentHistory.created_at q.

(** The audit entries of a manual payment. *)
Definition processed_audit (env : Env) (user : Z) (w : Worker.t) (amount : float)
    (reference : option string) : AuditLog.t :=
  AuditLog.Make user "payment_processed"
    ("Processed payment of " +:+ format_2f env amount +:+ " to "
     +:+ Worker.name w +:+ " (Ref: " +:+ py_str reference +:+ ")").
Definition failed_audit (user : Z) (w : Worker.t) (text : string) : AuditLog.t :=
  AuditLog.Make user "payment_failed"
    ("Payment failed for " +:+ Worker.name w +:+ ": " +:+ text).

(** The entry [get_pending_payments] lists for a worker due on [due]. *)
Definition pending_entry (wid : Z) (w : Worker.t) (due : datetime)
  : PendingPayment.t :=
  PendingPayment.Make 0 wid (Worker.name w)
    (decimal_to_float (Worker.salary_amount w)) due "pending_approval".

(** * Example data *)

Module Examples.

(** Two settings of the clocks, for a server in Lagos (UTC+1); every clock
    read comes one microsecond after the one before.  In the morning
    setting it is 08:00 UTC and 09:00 local time on 31 January 2024; in the
    midnight setting it is 23:30 UTC on 30 January and 00:30 local time on
    31 January. *)
Definition ticking (d : date) (t : Z) (n : nat) : datetime :=
  DateTime d (t + Z.of_nat n).

(** A provider that accepts every request; the balance is given in kobo. *)
Definition provider_env (utc local : nat -> datetime) (balance_kobo : float)
    (reference : option string) : Env := {|
  utcnow_at := utc;
  now_at := local;
  db_now_at := utc;
  balance_reply _ := Json (Build_BalanceData true true (inr balance_kobo));
  recipient_reply _ _ _ _ :=
    Json (Build_RecipientData true (inr (Some "RCP_1")));
  transfer_reply _ _ _ _ :=
    Json (Build_TransferData true (inr reference) (inr (Some "TRF_1")));
  format_2f _ := "#.##"
|}.

Definition morning_utc : nat -> datetime := ticking (Date 2024 1 31) 28800000000.
Definition morning_local : nat -> datetime := ticking (Date 2024 1 31) 32400000000.
Definition midnight_utc : nat -> datetime := ticking (Date 2024 1 30) 84600000000.
Definition midnight_local : nat -> datetime := ticking (Date 2024 1 31) 1800000000.

(** Balance 100,000,000.00. *)
Definition morning_env : Env :=
  provider_env morning_utc morning_local 10000000000%float (Some "TRX123").
Definition midnight_env : Env :=
  provider_env midnight_utc midnight_local 10000000000%float (Some "TRX123").
(** Balance 1000.00, against a salary of 50000.00. *)
Definition poor_env : Env :=
  provider_env morning_utc morning_local 100000%float (Some "TRX123").
(** The provider accepts the transfer and sends a null reference. *)
Definition null_reference_env : Env :=
  provider_env morning_utc morning_local 10000000000%float None.

Definition due_date : datetime := DateTime (Date 2024 1 31) 0.

Definition alice : Worker.t :=
  Worker.Make "Alice" "0123456789" "058" 5000000 "monthly" None (Some due_date) true.
Definition bob : Worker.t :=
  Worker.Make "Bob" "0123456780" "044" 2000000 "weekly" None (Some due_date) true.
(** An active worker without a next payment date. *)
Definition carol : Worker.t :=
  Worker.Make "Carol" "0123456781" "011" 3000000 "monthly" None None true.

Definition tables (ws : gmap Z Worker.t) : Tables := Build_Tables ws [] [].
Definition start (t : Tables) : State := Build_State 0 t t [].

Definition only_alice : Tables := tables (<[1 := alice]> ∅).
Definition only_bob : Tables := tables (<[2 := bob]> ∅).
Definition only_carol : Tables := tables (<[3 := carol]> ∅).

(** The row of Bob's scheduled payment in the midnight setting. *)
Definition bob_paid : PaymentHistory.t :=
  PaymentHistory.Make 1 2 (AmountDecimal 2000000) "success" (Some "TRX123") None
    None (Some (midnight_utc 1)) (midnight_utc 0).

(** What identifies a payment row in the examples. *)
Definition brief (p : PaymentHistory.t) : Z * string * date :=
  (PaymentHistory.worker_id p, PaymentHistory.status p,
   dt_date (PaymentHistory.created_at p)).


(** The provider answers the balance request with an entry that has no
    balance; it accepts every transfer. *)
Definition unreadable_balance_env : Env := {|
  utcnow_at := morning_utc;
  now_at := morning_local;
  db_now_at := morning_utc;
  balance_reply _ := Json (Build_BalanceData true true (inl "'balance'"));
  recipient_reply _ _ _ _ :=
    Json (Build_RecipientData true (inr (Some "RCP_1")));
  transfer_reply _ _ _ _ :=
    Json (Build_TransferData true (inr (Some "TRX123")) (inr (Some "TRF_1")));
  format_2f _ := "#.##"
|}.

End Examples.

(** * Properties *)

Import Examples.

(** ** Calendar facts *)

Lemma valid_date_spec (d : date) :
  valid_date d = true <->
  MINYEAR <= year d <= MAXYEAR /\ 1 <= month d <= 12 /\
  1 <= day d <= days_in_month (year d) (month d).
Proof.
  unfold valid_date. rewrite !andb_true_iff, !Z.leb_le. tauto.
Qed.

Lemma new_date_valid (y m d : Z) :
  valid_date (Date y m d) = true -> new_date y m d = Some (Date y m d).
Proof. unfold new_date. now intros ->. Qed.

Lemma new_date_invalid (y m d : Z) :
  valid_date (Date y m d) = false -> new_date y m d = None.
Proof. unfold new_date. now intros ->. Qed.

Lemma days_in_month_bounds (y m : Z) : 28 <= days_in_month y m <= 31.
Proof.
  unfold days_in_month.
  repeat match goal with |- context [if ?b then _ else _] => destruct b end; lia.
Qed.

(** The first day of a month exists whenever the year and month do. *)
Lemma first_of_month_valid (y m : Z) :
  MINYEAR <= y <= MAXYEAR -> 1 <= m <= 12 -> valid_date (Date y m 1) = true.
Proof.
  intros Hy Hm. apply valid_date_spec; simpl.
  pose proof (days_in_month_bounds y m). lia.
Qed.

(** The day before the first of a month is the last day of the month
    before it. *)
Lemma prev_day_first_of_month (y m : Z) :
  1 < m -> prev_day (Date y m 1) = Some (Date y (m - 1) (days_in_month y (m - 1))).
Proof.
  intros Hm. unfold prev_day; simpl.
  destruct (Z.ltb_spec 1 m); [reflexivity | lia].
Qed.

Lemma monthly_next_month (today : date) :
  valid_date today = true ->
  (month today = 12 -> year today < MAXYEAR) ->
  (if month today =? 12
   then replace today (Some (year today + 1)) (Some 1) (Some 1)
   else replace today None (Some (month today + 1)) (Some 1))
  = Some (Date (following_year today) (following_month today) 1).
Proof.
  intros Hv Hdec. apply valid_date_spec in Hv as (Hy & Hm & Hd).
  unfold following_year, following_month, replace, MINYEAR, MAXYEAR in *; simpl.
  destruct (Z.eqb_spec (month today) 12) as [E|E].
  - apply new_date_valid, first_of_month_valid; unfold MINYEAR, MAXYEAR; lia.
  - apply new_date_valid, first_of_month_valid; unfold MINYEAR, MAXYEAR; lia.
Qed.

Lemma following_valid (today : date) :
  valid_date today = true ->
  (month today = 12 -> year today < MAXYEAR) ->
  MINYEAR <= following_year today <= MAXYEAR /\ 1 <= following_month today <= 12.
Proof.
  intros Hv Hdec. apply valid_date_spec in Hv as (Hy & Hm & Hd).
  unfold following_year, following_month, MINYEAR, MAXYEAR in *.
  destruct (Z.eqb_spec (month today) 12); lia.
Qed.

(** In December of the last year of the calendar there is no following
    month: the first [replace] raises. *)
Lemma monthly_last_december_raises :
  calculate_next_payment_date_from (Date 9999 12 15) "monthly" = None.
Proof. reflexivity. Qed.

(** The reference date is the local date at the moment of the call. *)
Lemma calculate_next_payment_date_run (env : Env) (frequency : string) (s : State) :
  calculate_next_payment_date env frequency s =
  (match calculate_next_payment_date_from (dt_date (now_at env (tick s))) frequency with
   | Some d => Return d
   | None =>
       Raise (PyException
                (if String.eqb frequency "weekly" then "date value out of range"
                 else if String.eqb frequency "bi-weekly"
                      then "date value out of range"
                      else "year 10000 is out of range"))
   end,
   set_tick (S (tick s)) s).
Proof.
  unfold calculate_next_payment_date, now, read_clock, bind, ret, raise.
  destruct (calculate_next_payment_date_from _ _); reflexivity.
Qed.

(** C8. For a monthly frequency and a reference date whose following month
    exists as a date, the next due date is the same day of the following
    month (December rolling into January of the next year), or the last
    day of the following month when that month is too short for the day;
    the result is stamped at midnight. *)
Theorem monthly_next_due_date (today : date) :
  valid_date today = true ->
  (month today = 12 -> year today < MAXYEAR) ->
  let y' := following_year today in
  let m' := following_month today in
  calculate_next_payment_date_from today "monthly" =
    Some (combine
            (Date y' m' (if days_in_month y' m' <? day today
                         then days_in_month y' m' else day today))
            min_time).
Proof.
  intros Hv Hdec y' m'.
  unfold calculate_next_payment_date_from.
  replace (String.eqb "monthly" "weekly") with false by reflexivity.
  replace (String.eqb "monthly" "bi-weekly") with false by reflexivity.
  cbv beta iota.
  rewrite (monthly_next_month today Hv Hdec). fold y' m'.
  destruct (following_valid today Hv Hdec) as [Hy' Hm']. fold y' m' in Hy', Hm'.
  pose proof Hv as Hv'. apply valid_date_spec in Hv' as (Hy & Hm & Hd).
  simpl. unfold replace; simpl.
  destruct (Z.ltb_spec (days_in_month y' m') (day today)) as [Hshort|Hfits].
  - (* the day does not exist in the following month *)
    rewrite new_date_invalid.
    2:{ apply not_true_is_false. rewrite valid_date_spec; simpl. lia. }
    assert (Hne : m' <> 12).
    { intros E. rewrite E in Hshort. unfold days_in_month in Hshort; simpl in Hshort.
      pose proof (days_in_month_bounds (year today) (month today)). lia. }
    destruct (Z.eqb_spec m' 12) as [E|_]; [contradiction|].
    rewrite new_date_valid.
    2:{ apply first_of_month_valid; lia. }
    unfold sub_days, iter_day, mbind, option_bind.
    rewrite prev_day_first_of_month by lia.
    replace (m' + 1 - 1) with m' by lia. reflexivity.
  - rewrite new_date_valid; [reflexivity|].
    apply valid_date_spec; simpl. lia.
Qed.

Lemma monthly_next_due_date_witness :
  calculate_next_payment_date_from (Date 2023 1 31) "monthly"
    = Some (combine (Date 2023 2 28) min_time) /\
  calculate_next_payment_date_from (Date 2024 1 31) "monthly"
    = Some (combine (Date 2024 2 29) min_time) /\
  calculate_next_payment_date_from (Date 2024 10 31) "monthly"
    = Some (combine (Date 2024 11 30) min_time) /\
  calculate_next_payment_date_from (Date 2024 12 15) "monthly"
    = Some (combine (Date 2025 1 15) min_time).
Proof.
  exact
    (conj (monthly_next_due_date (Date 2023 1 31) eq_refl ltac:(discriminate))
    (conj (monthly_next_due_date (Date 2024 1 31) eq_refl ltac:(discriminate))
    (conj (monthly_next_due_date (Date 2024 10 31) eq_refl ltac:(discriminate))
          (monthly_next_due_date (Date 2024 12 15) eq_refl (fun _ => eq_refl))))).
Defined.

(** ** Running the monad *)

(** Unfolds the monad, the primitive effects and the state accessors, so
    that a computation applied to an explicit state reduces to its
    result. *)
Tactic Notation "run_eff" :=
  cbv [bind ret raise try_except try_finally get modify send read_clock
       utcnow now db_now open_session commit close
       add_payment update_payment update_worker add_audit_log query_worker
       tick session database calls
       set_tick set_session set_database set_calls
       workers payment_history audit_logs
       set_workers set_payment_history set_audit_logs
       negb andb fst snd].
Tactic Notation "run_eff" "in" hyp(H) :=
  cbv [bind ret raise try_except try_finally get modify send read_clock
       utcnow now db_now open_session commit close
       add_payment update_payment update_worker add_audit_log query_worker
       tick session database calls
       set_tick set_session set_database set_calls
       workers payment_history audit_logs
       set_workers set_payment_history set_audit_logs
       negb andb fst snd] in H.

Lemma alter_snoc {A} (f : A -> A) (l : list A) (x : A) :
  alter f (length l) (l ++ [x]) = l ++ [f x].
Proof.
  induction l as [|y l IH]; [reflexivity|].
  cbn. f_equal. exact IH.
Qed.

Lemma for_each_cons {A} (x : A) (l : list A) (body : A -> M unit) (s : State) :
  for_each (x :: l) body s =
  match body x s with
  | (Return _, s') => for_each l body s'
  | (Raise e, s') => (Raise e, s')
  end.
Proof. reflexivity. Qed.

(** ** The transfer pipeline of [PaystackService] *)

Section ProcessWorkerPayment.
Import PaystackService.

Variable env : Env.
Variables worker_name account_number bank_code reason : string.
Variable amount : float.

(** A network failure of the first step is reported, not raised. *)
Lemma recipient_unreachable (s : State) (e : string) :
  recipient_reply env (calls s) worker_name account_number bank_code
    = RequestException e ->
  fst (process_worker_payment env worker_name account_number bank_code amount reason s)
  = Return (false, "Transfer recipient creation failed: " +:+ e, None).
Proof.
  destruct s as [tk se db cs]. cbn [calls]. intros Hr.
  cbv [process_worker_payment create_transfer_recipient]. run_eff.
  rewrite Hr. reflexivity.
Qed.

(** A network failure of the second step is reported, not raised. *)
Lemma transfer_unreachable (s : State) (d : RecipientData)
    (code : option string) (kobo : Z) (e : string) :
  recipient_reply env (calls s) worker_name account_number bank_code = Json d ->
  recipient_status d = true ->
  recipient_code d = inr code ->
  float_to_int (PrimFloat.mul amount 100%float) = inr kobo ->
  transfer_reply env
    (calls s ++ [CreateTransferRecipient worker_name account_number bank_code])
    code kobo reason = RequestException e ->
  fst (process_worker_payment env worker_name account_number bank_code amount reason s)
  = Return (false, "Transfer initiation failed: " +:+ e, None).
Proof.
  destruct s as [tk se db cs]. cbn [calls]. intros Hr Hs Hc Hk Ht.
  cbv [process_worker_payment create_transfer_recipient initiate_transfer].
  run_eff. rewrite Hr. run_eff. rewrite Hs, Hc, Hk. run_eff.
  rewrite Ht. reflexivity.
Qed.

End ProcessWorkerPayment.

Ltac pipeline_leaf :=
  cbn [exn_text app];
  repeat first [split | intro];
  try congruence; try discriminate; eauto 12.

(** C9 (as amended).  [process_worker_payment] never raises: on every
    environment, input and state it returns a triple (success, message,
    reference), having changed nothing but the list of requests sent.
    When success is false the reference is [None].  Every provider error
    is reported as a failure with its message: a request that raises, a
    reply without status, a reply in which the recipient code or the
    reference cannot be read, and an amount that has no integer value, at
    the recipient step and at the transfer step.  Success is reported in
    one case only: the recipient reply to the request sent has a status and
    a recipient code, and the transfer reply to the request sent next, to
    that code for [int(amount * 100)] kobo, has a status and a readable
    reference.  The reference returned is then the value that reply holds
    under data.reference, so it is non-None exactly when the provider did
    not answer with a null reference. *)
Theorem process_worker_payment_returns
    (env : Env) (worker_name account_number bank_code : string)
    (amount : float) (reason : string) (s : State) :
  let first := CreateTransferRecipient worker_name account_number bank_code in
  exists success message reference sent,
    PaystackService.process_worker_payment env worker_name account_number
      bank_code amount reason s
    = (Return (success, message, reference), set_calls (calls s ++ sent) s)
    /\ (success = false -> reference = None)
    /\ (forall e,
          recipient_reply env (calls s) worker_name account_number bank_code
            = RequestException e ->
          success = false /\
          message = "Transfer recipient creation failed: " +:+ e /\
          sent = [first])
    /\ (forall rd,
          recipient_reply env (calls s) worker_name account_number bank_code
            = Json rd ->
          (recipient_status rd = false ->
           success = false /\
           message = "Failed to create transfer recipient" /\
           sent = [first]) /\
          (forall e,
             recipient_status rd = true -> recipient_code rd = inl e ->
             success = false /\ message = e /\ sent = [first]) /\
          (forall code,
             recipient_status rd = true -> recipient_code rd = inr code ->
             (forall e,
                float_to_int (PrimFloat.mul amount 100%float) = inl e ->
                success = false /\ message = e /\ sent = [first]) /\
             (forall kobo,
                float_to_int (PrimFloat.mul amount 100%float) = inr kobo ->
                sent = [first; InitiateTransfer code kobo reason] /\
                (forall e,
                   transfer_reply env (calls s ++ [first]) code kobo reason
                     = RequestException e ->
                   success = false /\
                   message = "Transfer initiation failed: " +:+ e) /\
                (forall td,
                   transfer_reply env (calls s ++ [first]) code kobo reason
                     = Json td ->
                   (transfer_status td = false ->
                    success = false /\
                    message = "Failed to initiate transfer") /\
                   (forall e,
                      transfer_status td = true ->
                      transfer_reference td = inl e ->
                      success = false /\ message = e) /\
                   (forall value,
                      transfer_status td = true ->
                      transfer_reference td = inr value ->
                      success = true /\
                      message = "Payment processed successfully" /\
                      reference = value)))))
    /\ (success = true ->
        exists rd code kobo td,
          recipient_reply env (calls s) worker_name account_number bank_code
            = Json rd /\
          recipient_status rd = true /\
          recipient_code rd = inr code /\
          float_to_int (PrimFloat.mul amount 100%float) = inr kobo /\
          transfer_reply env (calls s ++ [first]) code kobo reason = Json td /\
          transfer_status td = true /\
          transfer_reference td = inr reference)
    /\ ((forall sent recipient kobo td,
           transfer_reply env sent recipient kobo reason = Json td ->
           transfer_reference td <> inr None) ->
        (reference <> None <-> success = true)).
Proof.
  destruct s as [tk se db cs]. cbv zeta. cbn [calls set_calls tick session database].
  cbv [PaystackService.process_worker_payment
       PaystackService.create_transfer_recipient
       PaystackService.initiate_transfer].
  run_eff.
  destruct (recipient_reply env cs worker_name account_number bank_code)
    as [e|rd] eqn:Hr; run_eff;
    [do 4 eexists; split; [reflexivity|pipeline_leaf]|].
  destruct (recipient_status rd) eqn:Hrs; run_eff;
    [|do 4 eexists; split; [reflexivity|pipeline_leaf]].
  destruct (recipient_code rd) as [e|code] eqn:Hrc; run_eff;
    [do 4 eexists; split; [reflexivity|pipeline_leaf]|].
  destruct (float_to_int (PrimFloat.mul amount 100%float)) as [e|kobo] eqn:Hk;
    run_eff; [do 4 eexists; split; [reflexivity|pipeline_leaf]|].
  destruct (transfer_reply env _ code kobo reason) as [e|td] eqn:Ht; run_eff;
    [do 4 eexists; split; [rewrite <- app_assoc; reflexivity|pipeline_leaf]|].
  destruct (transfer_status td) eqn:Hst; run_eff;
    [|do 4 eexists; split; [rewrite <- app_assoc; reflexivity|pipeline_leaf]].
  destruct (transfer_reference td) as [e|reference] eqn:Href; run_eff;
    [do 4 eexists; split; [rewrite <- app_assoc; reflexivity|pipeline_leaf]|].
  do 4 eexists; split; [rewrite <- app_assoc; reflexivity|].
  split; [discriminate|].
  split; [pipeline_leaf|]. split; [pipeline_leaf|]. split; [pipeline_leaf|].
  intros Hnonnull. split; [reflexivity|].
  intros _ ->. exact (Hnonnull _ _ _ _ Ht Href).
Qed.

(** C9, counterexample.  The provider accepts the transfer and answers with
    a null reference: the result is a success whose reference is [None]. *)
Lemma null_reference_success :
  fst (PaystackService.process_worker_payment null_reference_env
         "Alice" "0123456789" "058" 50000%float "Salary payment"
         (start only_alice))
  = Return (true, "Payment processed successfully", None).
Proof. vm_compute. reflexivity. Qed.

(** ** Fees

    The sign of [gross - 10] for a positive [gross] below 10 is read from
    the specification of binary64 subtraction: the exact difference is a
    negative integer multiple of a power of two, and rounding a number that
    is not zero never gives zero. *)

Section FloatSign.

(** [iter_pos] is iteration. *)

Lemma iter_pos_nat {A} (f : A -> A) (k : positive) :
  forall x, SpecFloat.iter_pos f k x = Nat.iter (Pos.to_nat k) f x.
Proof.
  induction k as [k IH|k IH|]; intros x; cbn [SpecFloat.iter_pos].
  - rewrite !IH, Pos2Nat.inj_xI, Nat.iter_succ_r.
    replace (2 * Pos.to_nat k)%nat with (Pos.to_nat k + Pos.to_nat k)%nat by lia.
    now rewrite Nat.iter_add.
  - rewrite !IH, Pos2Nat.inj_xO.
    replace (2 * Pos.to_nat k)%nat with (Pos.to_nat k + Pos.to_nat k)%nat by lia.
    now rewrite Nat.iter_add.
  - reflexivity.
Qed.

Lemma digits2_pos_bound (m : positive) : Z.pos m < 2 ^ Z.pos (digits2_pos m).
Proof.
  induction m as [m IH|m IH|]; cbn [digits2_pos].
  - rewrite Pos2Z.inj_succ, Z.pow_succ_r by lia. lia.
  - rewrite Pos2Z.inj_succ, Z.pow_succ_r by lia. lia.
  - reflexivity.
Qed.

(** One shift to the right of a mantissa of at least two digits leaves a
    positive mantissa with one digit less. *)
Lemma shr_1_pos (m : positive) (r s : bool) :
  1 < Z.pos (digits2_pos m) ->
  exists q r' s',
    shr_1 (Build_shr_record (Z.pos m) r s) = Build_shr_record (Z.pos q) r' s' /\
    Z.pos (digits2_pos q) = Z.pos (digits2_pos m) - 1.
Proof.
  destruct m as [m|m|]; cbn [shr_1 digits2_pos]; intros H.
  - do 3 eexists. split; [reflexivity|]. lia.
  - do 3 eexists. split; [reflexivity|]. lia.
  - lia.
Qed.

Lemma iter_shr_1_pos (n : nat) :
  forall (m : positive) (r s : bool),
    Z.of_nat n < Z.pos (digits2_pos m) ->
    exists q r' s',
      Nat.iter n shr_1 (Build_shr_record (Z.pos m) r s)
      = Build_shr_record (Z.pos q) r' s'.
Proof.
  induction n as [|n IH]; intros m r s H.
  - do 3 eexists. reflexivity.
  - rewrite Nat.iter_succ_r.
    destruct (shr_1_pos m r s) as (q & r' & s' & -> & Hq); [lia|].
    apply IH. lia.
Qed.

(** Shifting a positive mantissa to its canonical exponent keeps it
    positive, provided the exponent is not below the least one. *)
Lemma shr_fexp_pos (m : positive) (e : Z) (l : location) :
  emin <= e ->
  exists q r s e',
    shr_fexp prec emax (Z.pos m) e l = (Build_shr_record (Z.pos q) r s, e') /\
    emin <= e'.
Proof.
  intros He. unfold shr_fexp, shr. cbn [Zdigits2].
  assert (Hrec : exists r s, shr_record_of_loc (Z.pos m) l
                             = Build_shr_record (Z.pos m) r s).
  { destruct l as [|[]]; do 2 eexists; reflexivity. }
  destruct Hrec as (r & s & ->).
  destruct (fexp prec emax (Z.pos (digits2_pos m) + e) - e) as [|k|k] eqn:Hk.
  - do 4 eexists. split; [reflexivity|exact He].
  - rewrite iter_pos_nat.
    assert (Hlt : Z.of_nat (Pos.to_nat k) < Z.pos (digits2_pos m)).
    { rewrite positive_nat_Z. unfold fexp in Hk. fold emin in Hk.
      unfold prec in *. lia. }
    destruct (iter_shr_1_pos _ m r s Hlt) as (q & r' & s' & ->).
    do 4 eexists. split; [reflexivity|]. lia.
  - do 4 eexists. split; [reflexivity|exact He].
Qed.

Lemma round_nearest_even_pos (q : positive) (l : location) :
  exists q', round_nearest_even (Z.pos q) l = Z.pos q'.
Proof.
  destruct l as [|[]]; cbn [round_nearest_even]; eauto.
  destruct (Z.even (Z.pos q)); eauto.
Qed.

(** Rounding a positive mantissa never gives a zero or a NaN. *)
Lemma binary_round_aux_sign (sx : bool) (m : positive) (e : Z) (l : location) :
  emin <= e ->
  (exists m' e', binary_round_aux prec emax sx (Z.pos m) e l = S754_finite sx m' e') \/
  binary_round_aux prec emax sx (Z.pos m) e l = S754_infinity sx.
Proof.
  intros He. unfold binary_round_aux.
  destruct (shr_fexp_pos m e l He) as (q & r & s & e' & -> & He').
  cbn [shr_m].
  destruct (round_nearest_even_pos q (loc_of_shr_record (Build_shr_record (Z.pos q) r s)))
    as (q' & ->).
  destruct (shr_fexp_pos q' e' loc_Exact He') as (q'' & r'' & s'' & e'' & -> & _).
  cbn [shr_m]. destruct (e'' <=? emax - prec); eauto.
Qed.

Lemma binary_round_sign (sx : bool) (m : positive) (e : Z) :
  emin <= e ->
  (exists m' e', binary_round prec emax sx m e = S754_finite sx m' e') \/
  binary_round prec emax sx m e = S754_infinity sx.
Proof.
  intros He. unfold binary_round, shl_align.
  destruct (fexp prec emax (Z.pos (digits2_pos m) + e) - e) as [|k|k] eqn:Hk;
    apply binary_round_aux_sign; try exact He.
  unfold fexp. fold emin. lia.
Qed.

Lemma iter_xO_ge (p d : positive) : 2 * Z.pos p <= Z.pos (Pos.iter xO p d).
Proof.
  induction d as [|d IH] using Pos.peano_ind.
  - cbn. lia.
  - rewrite Pos.iter_succ. lia.
Qed.

(** A valid finite number has a mantissa of at most [prec] digits and an
    exponent of at least [emin]. *)
Lemma valid_finite_bounds (s : bool) (m : positive) (e : Z) :
  valid_binary (S754_finite s m e) = true ->
  Z.pos m < 2 ^ 53 /\ emin <= e.
Proof.
  cbn [SpecFloat.valid_binary]. unfold bounded, canonical_mantissa, fexp. fold emin.
  rewrite andb_true_iff, Z.eqb_eq. intros [Hc _].
  pose proof (digits2_pos_bound m) as Hm. unfold prec in *.
  split; [|lia].
  apply Z.lt_le_trans with (1 := Hm). apply Z.pow_le_mono_r; lia.
Qed.

(** A positive number below 10, as a specification float. *)
Lemma below_ten_finite (g : float) :
  PrimFloat.ltb 0%float g = true ->
  PrimFloat.ltb g 10%float = true ->
  exists m e,
    Prim2SF g = S754_finite false m e /\
    Z.pos m < 2 ^ 53 /\ emin <= e /\
    (e < -49 \/ (e = -49 /\ Z.pos m < 5629499534213120)).
Proof.
  rewrite !FloatAxioms.ltb_spec.
  pose proof (Prim2SF_valid g) as Hv.
  replace (Prim2SF 0%float) with (S754_zero false) by (vm_compute; reflexivity).
  replace (Prim2SF 10%float) with (S754_finite false 5629499534213120 (-49))
    by (vm_compute; reflexivity).
  destruct (Prim2SF g) as [s|s| |s m e]; try discriminate.
  - destruct s; discriminate.
  - destruct s; [discriminate|]. intros _ Hlt.
    apply valid_finite_bounds in Hv as [Hm He].
    exists m, e. split; [reflexivity|]. split; [exact Hm|]. split; [exact He|].
    unfold SFltb, SFcompare in Hlt.
    destruct (Z.compare_spec e (-49)) as [->| |]; try discriminate; [right|left; lia].
    split; [reflexivity|].
    rewrite Pos.compare_cont_spec in Hlt.
    destruct (Pos.compare_spec m 5629499534213120) as [Hc|Hc|Hc].
    + cbn [Pos.switch_Eq] in Hlt. discriminate.
    + apply Pos2Z.pos_lt_pos. exact Hc.
    + cbn [Pos.switch_Eq] in Hlt. discriminate.
Qed.

(** Such an amount is in the lowest tier of the fee schedule. *)
Lemma below_ten_lowest_tier (g : float) :
  PrimFloat.ltb 0%float g = true ->
  PrimFloat.ltb g 10%float = true ->
  PaystackService.get_transaction_fee g = 10%float.
Proof.
  intros Hpos Hlt.
  destruct (below_ten_finite g Hpos Hlt) as (m & e & Hg & _ & _ & Hcmp).
  unfold PaystackService.get_transaction_fee.
  rewrite FloatAxioms.ltb_spec, Hg.
  replace (Prim2SF 5000%float) with (S754_finite false 5497558138880000 (-40))
    by (vm_compute; reflexivity).
  unfold SFltb, SFcompare.
  destruct (Z.compare_spec e (-40)) as [| |]; [lia|reflexivity|lia].
Qed.

(** A positive amount below 10 minus 10 is negative. *)
Lemma sub_ten_negative (g : float) :
  PrimFloat.ltb 0%float g = true ->
  PrimFloat.ltb g 10%float = true ->
  PrimFloat.ltb (PrimFloat.sub g 10%float) 0%float = true.
Proof.
  intros Hpos Hlt.
  destruct (below_ten_finite g Hpos Hlt) as (m & e & Hg & Hm & He & Hcmp).
  rewrite FloatAxioms.ltb_spec, FloatAxioms.sub_spec, Hg.
  replace (Prim2SF 0%float) with (S754_zero false) by (vm_compute; reflexivity).
  replace (Prim2SF 10%float) with (S754_finite false 5629499534213120 (-49))
    by (vm_compute; reflexivity).
  change (2 ^ 53) with 9007199254740992 in Hm.
  unfold SF64sub, SFsub. cbn [cond_Zopp].
  replace (Z.min e (-49)) with e by lia.
  assert (Hdiff : exists p,
            Z.pos (fst (shl_align m e e)) -
            Z.pos (fst (shl_align 5629499534213120 (-49) e)) = Z.neg p).
  { unfold shl_align. rewrite Z.sub_diag. cbn [fst].
    destruct (e - -49) as [|k|k] eqn:Hk; cbn [fst].
    - destruct (Z.pos m - 5629499534213120) as [|p|p] eqn:Hd; [lia|lia|eauto].
    - lia.
    - pose proof (iter_xO_ge 5629499534213120 k) as Hge.
      destruct (Z.pos m - Z.pos (Pos.iter xO 5629499534213120%positive k))
        as [|p|p] eqn:Hd; [lia|lia|eauto]. }
  destruct Hdiff as (p & ->). cbn [binary_normalize].
  destruct (binary_round_sign true p e He) as [(m' & e' & ->)| ->]; reflexivity.
Qed.

End FloatSign.

(** C10.  [calculate_net_amount] returns the gross amount minus the fee of
    its tier, and the fee; nothing bounds the result from below: for every
    positive gross amount below the lowest fee, 10, the net amount is
    negative, and there are such amounts. *)
Theorem calculate_net_amount_unbounded_below :
  (forall gross : float,
     PaystackService.calculate_net_amount gross =
       (PrimFloat.sub gross (PaystackService.get_transaction_fee gross),
        PaystackService.get_transaction_fee gross)) /\
  (forall gross : float,
     PaystackService.get_transaction_fee gross =
       if PrimFloat.ltb gross 5000%float then 10%float
       else if PrimFloat.leb gross 50000%float then 25%float
       else 50%float) /\
  (forall gross : float,
     PrimFloat.ltb 0%float gross = true ->
     PrimFloat.ltb gross 10%float = true ->
     PrimFloat.ltb (fst (PaystackService.calculate_net_amount gross)) 0%float
     = true) /\
  (exists gross : float,
     PrimFloat.ltb 0%float gross = true /\
     PrimFloat.ltb gross 10%float = true /\
     PaystackService.calculate_net_amount gross = ((-5)%float, 10%float)).
Proof.
  split; [reflexivity|]. split; [reflexivity|]. split.
  - intros gross Hpos Hlt. unfold PaystackService.calculate_net_amount.
    cbn [fst]. rewrite (below_ten_lowest_tier gross Hpos Hlt).
    exact (sub_ten_negative gross Hpos Hlt).
  - exists 5%float. vm_compute. auto.
Qed.

(** ** The daily check *)

Section DailyCheck.
Import PaymentScheduler.

Lemma open_if_none_run (env : Env) (today : date) (kw : Z * Worker.t)
    (tk : nat) (se db : Tables) (cs : list ProviderCall) :
  open_if_none env today kw (Build_State tk se db cs) =
  (Return tt,
   if no_existing today (payment_history db) kw then
     Build_State (S tk)
       (set_payment_history
          (payment_history se ++
           [PaymentHistory.Make (next_id (payment_history se)) (fst kw)
              (AmountDecimal (Worker.salary_amount (snd kw))) "pending"
              None None None None (utcnow_at env tk)]) se)
       db cs
   else Build_State tk se db cs).
Proof.
  unfold open_if_none, no_existing. run_eff.
  destruct (existing_payment today _ _); reflexivity.
Qed.

(** The loop adds one pending row per worker of the list without an
    existing payment, in order, and touches nothing else. *)
Lemma sweep_loop (env : Env) (today : date) (l : list (Z * Worker.t)) :
  forall tk se db cs,
  exists new,
    for_each l (open_if_none env today) (Build_State tk se db cs) =
      (Return tt,
       Build_State (tk + length new)%nat
         (set_payment_history (payment_history se ++ new) se) db cs) /\
    Forall2 opened_for
      (List.filter (no_existing today (payment_history db)) l) new.
Proof.
  induction l as [|kw rest IH]; intros tk se db cs.
  - exists []. split; [|constructor].
    cbn [for_each]. unfold ret. rewrite app_nil_r, Nat.add_0_r.
    destruct se; reflexivity.
  - rewrite for_each_cons, open_if_none_run. cbn [List.filter].
    destruct (no_existing today (payment_history db) kw) eqn:Hex.
    + edestruct IH as (new & Hrun & Hnew). rewrite Hrun.
      eexists (_ :: new). split.
      * cbn [length]. rewrite Nat.add_succ_r. simpl.
        rewrite <- app_assoc. reflexivity.
      * constructor; [|exact Hnew]. repeat split.
    + apply IH.
Qed.

Lemma check_pending_payments_run (env : Env) (s : State) :
  exists new,
    let t' :=
      set_payment_history (payment_history (database s) ++ new) (database s) in
    check_pending_payments env s =
      (Return tt, Build_State (S (tick s) + length new)%nat t' t' (calls s)) /\
    Forall2 opened_for
      (list_due (dt_date (now_at env (tick s))) (database s)) new.
Proof.
  destruct s as [tk se db cs]. cbn [tick database calls].
  destruct (sweep_loop env (dt_date (now_at env tk))
              (workers_due (dt_date (now_at env tk)) db) (S tk) db db cs)
    as (new & Hrun & Hnew).
  exists new. split; [|exact Hnew].
  unfold check_pending_payments. run_eff. rewrite Hrun. reflexivity.
Qed.

Lemma no_existing_spec (today : date) (rows : list PaymentHistory.t)
    (kw : Z * Worker.t) :
  no_existing today rows kw = true <->
  forall p, In p rows -> ~ pending_today today (fst kw) p.
Proof.
  unfold no_existing, existing_payment, pending_today. split.
  - destruct (List.find _ rows) as [q|] eqn:Hfind; [discriminate|].
    intros _ p Hin (Hw & Hs & Hc).
    pose proof (List.find_none _ _ Hfind p Hin) as Hp. cbv beta in Hp.
    rewrite Hw, Z.eqb_refl, Hs, Hc in Hp. discriminate.
  - intros Hnone.
    destruct (List.find _ rows) as [q|] eqn:Hfind; [|reflexivity].
    apply List.find_some in Hfind as [Hin Hq].
    rewrite !andb_true_iff in Hq. destruct Hq as [[Hw Hs] Hc].
    exfalso. apply (Hnone q Hin). repeat split.
    + now apply Z.eqb_eq.
    + now apply String.eqb_eq.
    + exact Hc.
Qed.

Lemma workers_due_spec (today : date) (t : Tables) (wid : Z) (w : Worker.t) :
  In (wid, w) (workers_due today t) <->
  workers t !! wid = Some w /\ Worker.is_active w = true /\
  exists d, Worker.next_payment_date w = Some d /\
            datetime_leb d (combine today max_time) = true.
Proof.
  unfold workers_due. rewrite List.filter_In, <- list_elem_of_In,
    elem_of_map_to_list, andb_true_iff. cbn [fst snd].
  split.
  - intros (Hw & Ha & Hd). repeat split; try assumption.
    destruct (Worker.next_payment_date w) as [d|]; [eauto|discriminate].
  - intros (Hw & Ha & d & Hd & Hle). rewrite Hd. auto.
Qed.

End DailyCheck.

(** C2 (as amended).  The daily check only opens payments: for every
    worker of [list_due], in order, it adds one pending row for the salary,
    without reference or payment time; it sends no request to the provider,
    changes no worker and no earlier row, and closes nothing. *)
Theorem daily_check_only_opens (env : Env) (s : State) :
  exists new s',
    PaymentScheduler.check_pending_payments env s = (Return tt, s') /\
    calls s' = calls s /\
    workers (database s') = workers (database s) /\
    audit_logs (database s') = audit_logs (database s) /\
    payment_history (database s') = payment_history (database s) ++ new /\
    Forall2 opened_for
      (PaymentScheduler.list_due (dt_date (now_at env (tick s))) (database s))
      new.
Proof.
  destruct (check_pending_payments_run env s) as (new & Hrun & Hnew).
  exists new. eexists. split; [exact Hrun|].
  destruct s as [tk se [ws rows logs] cs]. cbn. auto.
Qed.

(** C2, counterexample.  Alice is due; after the daily check her row is
    pending, no request has gone to the provider, and no row is closed as
    success or failed. *)
Lemma daily_check_closes_nothing :
  let s := Examples.start Examples.only_alice in
  let s' := snd (PaymentScheduler.check_pending_payments Examples.morning_env s) in
  PaymentScheduler.list_due (Date 2024 1 31) (database s) = [(1, Examples.alice)] /\
  calls s' = [] /\
  map PaymentHistory.status (payment_history (database s')) = ["pending"] /\
  ~ (exists p, In p (payment_history (database s')) /\
               PaymentHistory.worker_id p = 1 /\
               (PaymentHistory.status p = "success" \/
                PaymentHistory.status p = "failed")).
Proof.
  cbv zeta. split; [vm_compute; reflexivity|].
  split; [vm_compute; reflexivity|].
  split; [vm_compute; reflexivity|].
  intros (p & Hin & _ & Hst).
  assert (Hrows : Forall (fun p => PaymentHistory.status p = "pending")
            (payment_history (database
               (snd (PaymentScheduler.check_pending_payments Examples.morning_env
                       (Examples.start Examples.only_alice)))))).
  { vm_compute. repeat constructor. }
  rewrite Forall_forall in Hrows. apply list_elem_of_In in Hin.
  specialize (Hrows p Hin). destruct Hst as [H|H]; congruence.
Qed.

(** C6 (as amended).  The workers the daily check opens a payment for are
    exactly, each once, the active workers that have a next payment date,
    at most the last instant of the current local day, and no pending row
    created at or after the first instant of that day. *)
Theorem list_due_exactly (today : date) (t : Tables) :
  NoDup (PaymentScheduler.list_due today t) /\
  forall (wid : Z) (w : Worker.t),
    In (wid, w) (PaymentScheduler.list_due today t) <->
    workers t !! wid = Some w /\
    Worker.is_active w = true /\
    (exists d, Worker.next_payment_date w = Some d /\
               datetime_leb d (combine today max_time) = true) /\
    (forall p, In p (payment_history t) -> ~ pending_today today wid p).
Proof.
  split.
  - unfold PaymentScheduler.list_due, PaymentScheduler.workers_due.
    apply base.NoDup_ListNoDup.
    do 2 apply List.NoDup_filter. apply base.NoDup_ListNoDup, NoDup_map_to_list.
  - intros wid w. unfold PaymentScheduler.list_due.
    rewrite List.filter_In, workers_due_spec, no_existing_spec. cbn [fst].
    tauto.
Qed.

(** C6, counterexample.  Carol is active and has no next payment date; she
    is not among the due workers and the daily check opens nothing for
    her. *)
Lemma null_next_payment_date_not_due :
  let s := Examples.start Examples.only_carol in
  workers (database s) !! 3 = Some Examples.carol /\
  Worker.is_active Examples.carol = true /\
  Worker.next_payment_date Examples.carol = None /\
  PaymentScheduler.list_due (Date 2024 1 31) (database s) = [] /\
  payment_history
    (database (snd (PaymentScheduler.check_pending_payments Examples.morning_env s)))
  = [].
Proof. vm_compute. repeat split. Qed.

(** ** The scheduled payment *)

Section ScheduledPayment.
Import PaymentScheduler.

(** The pipeline changes nothing but the list of requests sent. *)
Lemma process_worker_payment_frame (env : Env) (n a b : string) (amt : float)
    (r : string) (tk : nat) (se db : Tables) (cs : list ProviderCall) :
  exists success message reference cs',
    PaystackService.process_worker_payment env n a b amt r (Build_State tk se db cs)
    = (Return (success, message, reference), Build_State tk se db cs').
Proof.
  cbv [PaystackService.process_worker_payment
       PaystackService.create_transfer_recipient
       PaystackService.initiate_transfer].
  run_eff.
  destruct (recipient_reply env cs n a b) as [e|rd]; run_eff; [eauto 6|].
  destruct (recipient_status rd); run_eff; [|eauto 6].
  destruct (recipient_code rd) as [e|code]; run_eff; [eauto 6|].
  destruct (float_to_int (PrimFloat.mul amt 100%float)) as [e|kobo]; run_eff;
    [eauto 6|].
  destruct (transfer_reply env _ code kobo r) as [e|td]; run_eff; [eauto 6|].
  destruct (transfer_status td); run_eff; [|eauto 6].
  destruct (transfer_reference td) as [e|reference]; run_eff; eauto 6.
Qed.

(** A scheduled payment adds at most one row, which it leaves failed,
    closed as success, or, when the date computation raises after the
    transfer, pending. *)
Lemma process_scheduled_payment_rows (env : Env) (wid : Z) (s : State) :
  let s' := snd (process_scheduled_payment env wid s) in
  payment_history (database s') = payment_history (database s) \/
  exists row,
    added_row s s' row /\
    PaymentHistory.worker_id row = wid /\
    (PaymentHistory.status row = "failed" \/
     closed_as_success env s s' wid row \/
     left_pending env s wid row).
Proof.
  destruct s as [tk se [ws rows logs] cs].
  cbv zeta. unfold added_row, closed_as_success, left_pending.
  unfold process_scheduled_payment. run_eff.
  destruct (ws !! wid) as [w|] eqn:Hw; run_eff;
    [|destruct (sqlite_integer wid); left; reflexivity].
  destruct (Worker.is_active w) eqn:Ha; run_eff; [|left; reflexivity].
  match goal with
  | |- context [PaystackService.process_worker_payment
                  ?e ?n ?a ?b ?amt ?r (Build_State ?t ?se ?db ?c)] =>
      destruct (process_worker_payment_frame e n a b amt r t se db c)
        as (success & message & reference & cs' & Hrun)
  end.
  rewrite Hrun. run_eff. right.
  destruct success.
  - unfold close_success, calculate_next_payment_date. run_eff.
    destruct (calculate_next_payment_date_from _ _) as [next|] eqn:Hnext; run_eff.
    + eexists. split; [rewrite !alter_snoc; reflexivity|].
      split; [reflexivity|]. right; left.
      split; [reflexivity|]. split.
      { cbn. do 2 f_equal. lia. }
      exists w, next. split; [reflexivity|]. split.
      { rewrite <- Hnext. do 3 f_equal. lia. }
      replace (tk + 2)%nat with (S (S tk)) by lia. reflexivity.
    + eexists. split; [reflexivity|].
      split; [reflexivity|]. right; right.
      split; [reflexivity|]. exists w. split; [reflexivity|].
      rewrite <- Hnext. do 3 f_equal. lia.
  - unfold close_failed. run_eff.
    eexists. split; [rewrite alter_snoc; reflexivity|].
    split; [reflexivity|]. left. reflexivity.
Qed.

End ScheduledPayment.

(** ** The manual payment *)

Section ManualPayment.
Import PaymentRoutes.

(** The balance check sends one request and either passes or raises an
    [HTTPException]; it changes nothing else. *)
Lemma check_balance_frame (env : Env) (amount : float) (s : State) :
  exists o,
    check_balance env amount s = (o, set_calls (calls s ++ [GetBalance]) s) /\
    (o = Return tt \/ exists code detail, o = Raise (HTTPException code detail)).
Proof.
  destruct s as [tk se db cs].
  unfold check_balance, PaystackBalance.get_balance. run_eff.
  destruct (balance_reply env cs) as [e|bd]; run_eff; [eauto 6|].
  destruct (balance_status bd); run_eff; [|eauto].
  destruct (balance_has_data bd); run_eff; [|eauto].
  destruct (balance_first bd) as [e|b]; run_eff; [eauto|].
  destruct (PrimFloat.ltb _ amount); run_eff; eauto 6.
Qed.

Ltac failed_row :=
  eexists; split; [rewrite ?alter_snoc; reflexivity|];
  split; [reflexivity|left; reflexivity].

Lemma record_and_transfer_rows (env : Env) (user wid : Z) (w : Worker.t)
    (amount : float) (tk : nat) (ws : gmap Z Worker.t)
    (rows : list PaymentHistory.t) (logs : list AuditLog.t)
    (cs : list ProviderCall) :
  ws !! wid = Some w ->
  let t := Build_Tables ws rows logs in
  let s := Build_State tk t t cs in
  let s' := snd (record_and_transfer env user wid w amount s) in
  if is_nan amount then database s' = database s
  else
    exists row,
      added_row s s' row /\
      PaymentHistory.worker_id row = wid /\
      (PaymentHistory.status row = "failed" \/ closed_as_success env s s' wid row).
Proof.
  intros Hw. cbv zeta. unfold added_row, closed_as_success.
  unfold record_and_transfer, transfer_and_close,
    PaystackBalance.create_transfer_recipient,
    PaystackBalance.initiate_transfer, create_audit_log.
  run_eff.
  destruct (is_nan amount); run_eff; [reflexivity|].
  destruct (recipient_reply env cs _ _ _) as [e|rd]; run_eff; [failed_row|].
  destruct (recipient_status rd); run_eff; [|failed_row].
  destruct (recipient_code rd) as [e|code]; run_eff; [failed_row|].
  destruct (float_to_int _) as [e|kobo]; run_eff; [failed_row|].
  destruct (transfer_reply env _ code kobo _) as [e|td]; run_eff; [failed_row|].
  destruct (transfer_status td); run_eff; [|failed_row].
  destruct (transfer_reference td) as [e|reference]; run_eff; [failed_row|].
  destruct (transfer_code td) as [e|tcode]; run_eff; [failed_row|].
  unfold calculate_next_payment_date. run_eff.
  destruct (calculate_next_payment_date_from _ _) as [next|] eqn:Hnext; run_eff;
    [|failed_row].
  eexists; split; [rewrite ?alter_snoc; reflexivity|].
  split; [reflexivity|]. right.
  split; [reflexivity|]. split.
  { cbn. do 2 f_equal. lia. }
  exists w, next. split; [exact Hw|]. split.
  { rewrite <- Hnext. do 3 f_equal. lia. }
  replace (tk + 2)%nat with (S (S tk)) by lia. reflexivity.
Qed.

(** A manual payment adds at most one row, and leaves it failed or closed
    as success. *)
Lemma process_payment_rows (env : Env) (req : PaymentProcessRequest.t)
    (user : Z) (s : State) :
  let s' := snd (process_payment env req user s) in
  payment_history (database s') = payment_history (database s) \/
  exists row,
    added_row s s' row /\
    PaymentHistory.worker_id row = PaymentProcessRequest.worker_id req /\
    (PaymentHistory.status row = "failed" \/
     closed_as_success env s s' (PaymentProcessRequest.worker_id req) row).
Proof.
  destruct s as [tk se [ws rows logs] cs]. destruct req as [wid amt].
  cbv zeta. unfold process_payment. run_eff.
  cbn [PaymentProcessRequest.worker_id].
  destruct (ws !! wid) as [w|] eqn:Hw; run_eff;
    [|destruct (sqlite_integer wid); left; reflexivity].
  destruct (Worker.is_active w) eqn:Ha; run_eff; [|left; reflexivity].
  destruct (PrimFloat.leb _ 0%float) eqn:Hpos; run_eff; [left; reflexivity|].
  set (amount := requested_amount _ w) in *.
  match goal with
  | |- context [check_balance env amount ?st] =>
      destruct (check_balance_frame env amount st) as (o & Hcb & Ho)
  end.
  rewrite Hcb. run_eff.
  destruct Ho as [->|(code & detail & ->)]; [|left; reflexivity].
  pose proof (record_and_transfer_rows env user wid w amount tk ws rows logs
                (cs ++ [GetBalance]) Hw) as Hrt.
  cbv zeta in Hrt.
  destruct (record_and_transfer env user wid w amount _) as [o1 [tk1 se1 db1 cs1]].
  cbn [tick database workers payment_history fst snd] in *.
  destruct (is_nan amount).
  - left. rewrite Hrt. reflexivity.
  - right. destruct Hrt as (row & Hrows & Hwid & Hst).
    exists row. unfold added_row, closed_as_success in *.
    cbn [tick database workers payment_history fst snd] in *. auto.
Qed.

End ManualPayment.

(** ** Closing a payment *)

Lemma added_row_unique (s s' : State) (row row' : PaymentHistory.t) :
  added_row s s' row -> added_row s s' row' -> row = row'.
Proof.
  unfold added_row. intros H H'. rewrite H in H'.
  apply app_inv_head in H'. congruence.
Qed.

Lemma added_row_not_unchanged (s s' : State) (row : PaymentHistory.t) :
  added_row s s' row ->
  payment_history (database s') <> payment_history (database s).
Proof.
  unfold added_row. intros H E. rewrite E in H.
  apply (f_equal length) in H. rewrite length_app in H. simpl in H. lia.
Qed.

Lemma closed_as_success_stamped (env : Env) (s s' : State) (wid : Z)
    (row : PaymentHistory.t) :
  closed_as_success env s s' wid row -> stamped_by_success env s s' wid row.
Proof.
  intros (_ & Hpaid & w & next & Hw & Hnext & Hws). split; [exact Hpaid|].
  exists w, (Worker.set_next_payment_date (Some next)
               (Worker.set_last_paid (Some (utcnow_at env (tick s + 2)%nat)) w)),
         next.
  split; [exact Hw|]. split.
  - rewrite Hws, !lookup_alter_eq, Hw. reflexivity.
  - split; [reflexivity|]. split; [exact Hnext|reflexivity].
Qed.

(** C4 (as amended).  When a scheduled or a manual payment closes the
    payment it created as success, [paid_at] is the UTC clock read that
    follows the one at the start of the call, the worker's [last_paid] is
    the next UTC clock read (not [paid_at]), and [next_payment_date] is
    [calculate_next_payment_date_from] the worker's frequency and the local
    date of the clock read after that (not [paid_at]), at midnight. *)
Theorem success_stamps_fresh_clock_reads (env : Env) (s : State) :
  (forall (wid : Z) (row : PaymentHistory.t),
     let s' := snd (PaymentScheduler.process_scheduled_payment env wid s) in
     added_row s s' row ->
     PaymentHistory.status row = "success" ->
     stamped_by_success env s s' wid row) /\
  (forall (req : PaymentProcessRequest.t) (user : Z) (row : PaymentHistory.t),
     let s' := snd (PaymentRoutes.process_payment env req user s) in
     added_row s s' row ->
     PaymentHistory.status row = "success" ->
     stamped_by_success env s s' (PaymentProcessRequest.worker_id req) row).
Proof.
  split.
  - intros wid row s' Hadd Hst.
    destruct (process_scheduled_payment_rows env wid s) as [Hsame|Hrow].
    + exfalso. exact (added_row_not_unchanged _ _ _ Hadd Hsame).
    + destruct Hrow as (row' & Hadd' & _ & Hcase).
      rewrite <- (added_row_unique _ _ _ _ Hadd Hadd') in Hcase.
      destruct Hcase as [Hf|[Hok|[Hp _]]].
      * rewrite Hst in Hf. discriminate.
      * apply closed_as_success_stamped, Hok.
      * rewrite Hst in Hp. discriminate.
  - intros req user row s' Hadd Hst.
    destruct (process_payment_rows env req user s) as [Hsame|Hrow].
    + exfalso. exact (added_row_not_unchanged _ _ _ Hadd Hsame).
    + destruct Hrow as (row' & Hadd' & _ & Hcase).
      rewrite <- (added_row_unique _ _ _ _ Hadd Hadd') in Hcase.
      destruct Hcase as [Hf|Hok].
      * rewrite Hst in Hf. discriminate.
      * apply closed_as_success_stamped, Hok.
Qed.

Lemma success_stamps_fresh_clock_reads_witness :
  stamped_by_success midnight_env (start only_bob)
    (snd (PaymentScheduler.process_scheduled_payment midnight_env 2 (start only_bob)))
    2 bob_paid.
Proof.
  apply (proj1 (success_stamps_fresh_clock_reads midnight_env (start only_bob)) 2 bob_paid).
  - vm_compute. reflexivity.
  - reflexivity.
Defined.

(** C4, counterexample.  At 23:30 UTC, 00:30 in Lagos, Bob's weekly payment
    is closed as success: [last_paid] is a microsecond later than [paid_at],
    and the next payment date is seven days after the local date, a day
    later than seven days after [paid_at]. *)
Lemma success_not_stamped_with_paid_at :
  let s := start only_bob in
  let s' := snd (PaymentScheduler.process_scheduled_payment midnight_env 2 s) in
  exists (row : PaymentHistory.t) (paid : datetime) (bob' : Worker.t),
    payment_history (database s') = [row] /\
    PaymentHistory.status row = "success" /\
    PaymentHistory.paid_at row = Some paid /\
    workers (database s') !! 2 = Some bob' /\
    Worker.last_paid bob' <> Some paid /\
    Worker.next_payment_date bob' <>
      calculate_next_payment_date_from (dt_date paid) (Worker.payment_frequency bob').
Proof.
  cbv zeta. 
  exists bob_paid, (midnight_utc 1).
  eexists. split; [vm_compute; reflexivity|].
  split; [reflexivity|]. split; [reflexivity|].
  split; [vm_compute; reflexivity|].
  split; vm_compute; discriminate.
Qed.

(** C5 (as amended).  No operation changes a payment row committed before
    it, so a closed row is never reopened or closed again.  The daily check
    only adds pending rows, which no operation closes.  A scheduled payment
    adds at most one row and leaves it success or failed (or pending, when
    the date computation raises after the transfer); a manual payment adds
    at most one row and leaves it success or failed. *)
Theorem committed_rows_never_touched (env : Env) (s : State) :
  (exists new,
     payment_history
       (database (snd (PaymentScheduler.check_pending_payments env s)))
     = payment_history (database s) ++ new /\
     Forall (fun p => PaymentHistory.status p = "pending") new) /\
  (forall wid : Z,
     let s' := snd (PaymentScheduler.process_scheduled_payment env wid s) in
     payment_history (database s') = payment_history (database s) \/
     exists row,
       payment_history (database s') = payment_history (database s) ++ [row] /\
       (PaymentHistory.status row = "success" \/
        PaymentHistory.status row = "failed" \/
        left_pending env s wid row)) /\
  (forall (req : PaymentProcessRequest.t) (user : Z),
     let s' := snd (PaymentRoutes.process_payment env req user s) in
     payment_history (database s') = payment_history (database s) \/
     exists row,
       payment_history (database s') = payment_history (database s) ++ [row] /\
       (PaymentHistory.status row = "success" \/
        PaymentHistory.status row = "failed")).
Proof.
  split; [|split].
  - destruct (check_pending_payments_run env s) as (new & Hrun & Hnew).
    exists new. cbv zeta in Hrun. rewrite Hrun.
    split; [destruct s as [tk se [ws rows logs] cs]; reflexivity|].
    clear Hrun. induction Hnew as [|kw p l new Hp _ IH]; constructor.
    + apply Hp.
    + exact IH.
  - intros wid s'.
    destruct (process_scheduled_payment_rows env wid s) as [Hsame|Hrow];
      [left; exact Hsame|right].
    destruct Hrow as (row & Hadd & _ & Hcase). exists row.
    split; [exact Hadd|].
    destruct Hcase as [Hf|[Hok|Hp]]; [auto | left; apply Hok | auto].
  - intros req user s'.
    destruct (process_payment_rows env req user s) as [Hsame|Hrow];
      [left; exact Hsame|right].
    destruct Hrow as (row & Hadd & _ & Hcase). exists row.
    split; [exact Hadd|].
    destruct Hcase as [Hf|Hok]; [auto | left; apply Hok].
Qed.

(** C5, counterexample.  The row the daily check opens for Alice is still
    pending after a scheduled and a manual payment of Alice; and the
    success branch, run on Bob's row that is already success, is not
    rejected: it returns and overwrites the reference and [paid_at]. *)
Lemma opened_row_stays_pending_and_closing_is_unguarded :
  (let s1 := snd (PaymentScheduler.check_pending_payments morning_env (start only_alice)) in
   let s2 := snd (PaymentScheduler.process_scheduled_payment morning_env 1 s1) in
   let s3 := snd (PaymentRoutes.process_payment morning_env
                    (PaymentProcessRequest.Make 1 None) 7 s2) in
   map PaymentHistory.status (payment_history (database s3))
   = ["pending"; "success"; "success"]) /\
  (let s := snd (PaymentScheduler.process_scheduled_payment morning_env 2 (start only_bob)) in
   let r := PaymentScheduler.close_success morning_env 0 2 bob (Some "TRX999") s in
   map PaymentHistory.status (payment_history (session s)) = ["success"] /\
   fst r = Return tt /\
   map PaymentHistory.transaction_reference (payment_history (session s))
     = [Some "TRX123"] /\
   map PaymentHistory.transaction_reference (payment_history (session (snd r)))
     = [Some "TRX999"] /\
   map PaymentHistory.paid_at (payment_history (session s))
     = [Some (morning_utc 1)] /\
   map PaymentHistory.paid_at (payment_history (session (snd r)))
     = [Some (morning_utc 4)]).
Proof. vm_compute. repeat split. Qed.

(** ** Admission of a manual payment *)

(** The daily check opens nothing for a worker who has a pending row of
    today. *)
Lemma daily_check_respects_pending (today : date) (t : Tables) (wid : Z)
    (w : Worker.t) (p : PaymentHistory.t) :
  In p (payment_history t) -> pending_today today wid p ->
  ~ In (wid, w) (PaymentScheduler.list_due today t).
Proof.
  intros Hin Hp Hdue. unfold PaymentScheduler.list_due in Hdue.
  apply List.filter_In in Hdue as [_ Hno].
  exact (proj1 (no_existing_spec today (payment_history t) (wid, w)) Hno p Hin Hp).
Qed.

(** The duplicate check of the daily check compares the UTC creation time
    of a row with the first instant of the local day.  Just after local
    midnight in Lagos, a row it has just opened is stamped with the day
    before, a second run does not see it, and the worker has two pending
    rows created on the same day. *)
Lemma daily_check_twice_after_midnight :
  let s1 := snd (PaymentScheduler.check_pending_payments midnight_env
                   (start only_alice)) in
  let s2 := snd (PaymentScheduler.check_pending_payments midnight_env s1) in
  map brief (payment_history (database s2))
  = [(1, "pending", Date 2024 1 30); (1, "pending", Date 2024 1 30)].
Proof. vm_compute. reflexivity. Qed.

(** A manual request that passes the checks on the worker, the amount and
    the balance, for an amount that is a number, adds a payment row,
    whatever rows the worker already has: nothing on this path reads
    [payment_history]. *)
Lemma manual_payment_records_regardless (env : Env)
    (req : PaymentProcessRequest.t) (user : Z) (s : State) (w : Worker.t) :
  let wid := PaymentProcessRequest.worker_id req in
  let s' := snd (PaymentRoutes.process_payment env req user s) in
  workers (database s) !! wid = Some w ->
  Worker.is_active w = true ->
  PrimFloat.leb (PaymentRoutes.requested_amount req w) 0%float = false ->
  is_nan (PaymentRoutes.requested_amount req w) = false ->
  fst (PaymentRoutes.check_balance env (PaymentRoutes.requested_amount req w)
         (Build_State (tick s) (database s) (database s) (calls s))) = Return tt ->
  exists row, added_row s s' row /\ PaymentHistory.worker_id row = wid.
Proof.
  destruct s as [tk se [ws rows logs] cs]. destruct req as [wid amt].
  cbv zeta. cbn [database tick calls workers PaymentProcessRequest.worker_id].
  intros Hw Ha Hpos Hnan Hbal.
  unfold PaymentRoutes.process_payment. run_eff. cbn [PaymentProcessRequest.worker_id].
  rewrite Hw. run_eff. rewrite Ha. run_eff. rewrite Hpos.
  set (amount := PaymentRoutes.requested_amount _ w) in *.
  destruct (check_balance_frame env amount
              (Build_State tk (Build_Tables ws rows logs) (Build_Tables ws rows logs) cs))
    as (o & Hcb & _).
  rewrite Hcb in Hbal |- *. cbn [fst] in Hbal. subst o. run_eff.
  pose proof (record_and_transfer_rows env user wid w amount tk ws rows logs
                (cs ++ [GetBalance]) Hw) as Hrt.
  cbv zeta in Hrt. fold amount in Hnan. rewrite Hnan in Hrt.
  destruct Hrt as (row & Hrows & Hwid & _).
  exists row. unfold added_row in *.
  destruct (PaymentRoutes.record_and_transfer env user wid w amount _) as [o1 [tk1 se1 db1 cs1]].
  cbn [tick database workers payment_history fst snd] in *. auto.
Qed.

(** C1, failing input.  The daily check has opened a pending row for Alice
    today, and a second daily check opens nothing more; the manual payment
    request for Alice on the same day is not refused: it succeeds and there
    is a second row of Alice for that day. *)
Theorem manual_payment_duplicates_pending :
  let s1 := snd (PaymentScheduler.check_pending_payments morning_env
                   (start only_alice)) in
  let r := PaymentRoutes.process_payment morning_env
             (PaymentProcessRequest.Make 1 None) 7 s1 in
  map brief (payment_history (database s1)) = [(1, "pending", Date 2024 1 31)] /\
  payment_history
    (database (snd (PaymentScheduler.check_pending_payments morning_env s1)))
  = payment_history (database s1) /\
  (exists resp, fst r = Return resp /\
                PaymentHistoryResponse.status resp = "success") /\
  map brief (payment_history (database (snd r)))
  = [(1, "pending", Date 2024 1 31); (1, "success", Date 2024 1 31)].
Proof.
  cbv zeta. split; [vm_compute; reflexivity|].
  split; [vm_compute; reflexivity|].
  split; [|vm_compute; reflexivity].
  eexists. split; [vm_compute; reflexivity|reflexivity].
Qed.

Lemma ltb_zero (a : float) :
  PrimFloat.ltb a 0%float = true ->
  PrimFloat.eqb a 0%float = false /\ PrimFloat.leb a 0%float = true.
Proof.
  rewrite FloatAxioms.ltb_spec, FloatAxioms.eqb_spec, FloatAxioms.leb_spec.
  unfold SFltb, SFeqb, SFleb.
  destruct (SFcompare _ _) as [[]|]; intuition discriminate.
Qed.

(** A request with the amount 0.0 or -0.0 is read as one without amount. *)
Lemma zero_amount_is_salary (wid : Z) (w : Worker.t) :
  PaymentRoutes.requested_amount (PaymentProcessRequest.Make wid (Some 0%float)) w
  = decimal_to_float (Worker.salary_amount w) /\
  PaymentRoutes.requested_amount
    (PaymentProcessRequest.Make wid (Some (PrimFloat.opp 0%float))) w
  = decimal_to_float (Worker.salary_amount w).
Proof. split; reflexivity. Qed.

(** Without an amount in the request, the salary is paid. *)
Lemma amount_defaults_to_salary (wid : Z) (w : Worker.t) :
  PaymentRoutes.requested_amount (PaymentProcessRequest.Make wid None) w
  = decimal_to_float (Worker.salary_amount w).
Proof. reflexivity. Qed.

(** A negative amount is refused, before any request to the provider and
    before any row is added. *)
Lemma negative_amount_rejected (env : Env) (wid : Z) (a : float) (user : Z)
    (s : State) (w : Worker.t) :
  workers (database s) !! wid = Some w ->
  Worker.is_active w = true ->
  PrimFloat.ltb a 0%float = true ->
  PaymentRoutes.process_payment env (PaymentProcessRequest.Make wid (Some a)) user s
  = (Raise (HTTPException 400 "Amount must be positive"),
     Build_State (tick s) (database s) (database s) (calls s)).
Proof.
  destruct s as [tk se [ws rows logs] cs]. cbn [database tick calls workers].
  intros Hw Ha Hneg. apply ltb_zero in Hneg as [Hne Hle].
  unfold PaymentRoutes.process_payment. run_eff.
  cbn [PaymentProcessRequest.worker_id]. rewrite Hw. run_eff. rewrite Ha.
  unfold PaymentRoutes.requested_amount, float_truthy.
  cbn [PaymentProcessRequest.amount]. rewrite Hne. run_eff. rewrite Hle.
  reflexivity.
Qed.

(** C7, failing input.  A request with the amount 0 is handled exactly as a
    request without amount; for Alice it is not refused: the amount is
    replaced by her salary, 50000.00, and that is what is transferred. *)
Theorem zero_amount_replaced_by_salary :
  let req := PaymentProcessRequest.Make 1 (Some 0%float) in
  let r := PaymentRoutes.process_payment morning_env req 7 (start only_alice) in
  (forall (env : Env) (wid user : Z),
     PaymentRoutes.process_payment env
       (PaymentProcessRequest.Make wid (Some 0%float)) user
     = PaymentRoutes.process_payment env
         (PaymentProcessRequest.Make wid None) user) /\
  PaymentRoutes.requested_amount req alice = 50000%float /\
  (exists resp, fst r = Return resp /\
                PaymentHistoryResponse.amount resp = 50000%float /\
                PaymentHistoryResponse.status resp = "success") /\
  calls (snd r) =
    [GetBalance; CreateTransferRecipient "Alice" "0123456789" "058";
     InitiateTransfer (Some "RCP_1") 5000000 "Salary payment for Alice"].
Proof.
  cbv zeta. split; [reflexivity|]. split; [vm_compute; reflexivity|].
  split; [|vm_compute; reflexivity].
  eexists. split; [vm_compute; reflexivity|]. split; reflexivity.
Qed.

(** C3 (as amended).  On a manual payment request, when the balance
    request is answered and the available balance is below the amount, the
    request is refused with status 400, "Insufficient balance", after the
    balance request and before any other request to the provider; this
    happens before the payment row is created, so no row is added (none is
    closed as failed) and the worker is unchanged. *)
Theorem insufficient_balance_rejected_before_record
    (env : Env) (req : PaymentProcessRequest.t) (user : Z) (s : State)
    (worker : Worker.t) (bd : BalanceData) (balance : float) :
  workers (database s) !! PaymentProcessRequest.worker_id req = Some worker ->
  Worker.is_active worker = true ->
  PrimFloat.leb (PaymentRoutes.requested_amount req worker) 0%float = false ->
  balance_reply env (calls s) = Json bd ->
  balance_status bd = true ->
  balance_has_data bd = true ->
  balance_first bd = inr balance ->
  PrimFloat.ltb (PrimFloat.div balance 100%float)
    (PaymentRoutes.requested_amount req worker) = true ->
  PaymentRoutes.process_payment env req user s =
    (Raise (HTTPException 400
              ("Insufficient balance. Available: "
               +:+ format_2f env (PrimFloat.div balance 100%float)
               +:+ ", Required: "
               +:+ format_2f env (PaymentRoutes.requested_amount req worker))),
     Build_State (tick s) (database s) (database s) (calls s ++ [GetBalance])).
Proof.
  destruct s as [tk se db cs]. destruct req as [wid amt].
  cbn [database tick calls PaymentProcessRequest.worker_id].
  intros Hw Ha Hpos Hbal Hst Hdata Hfirst Hlow.
  unfold PaymentRoutes.process_payment, PaymentRoutes.check_balance,
    PaystackBalance.get_balance.
  run_eff. cbn [PaymentProcessRequest.worker_id].
  destruct db as [ws rows logs]. cbn [workers] in Hw.
  rewrite Hw. run_eff. rewrite Ha. run_eff. rewrite Hpos. run_eff.
  rewrite Hbal. run_eff. rewrite Hst, Hdata. run_eff. rewrite Hfirst. run_eff.
  rewrite Hlow. run_eff. reflexivity.
Qed.

Lemma insufficient_balance_rejected_before_record_witness :
  PaymentRoutes.process_payment poor_env (PaymentProcessRequest.Make 1 None) 7
    (start only_alice) =
  (Raise (HTTPException 400
            "Insufficient balance. Available: #.##, Required: #.##"),
   Build_State 0 only_alice only_alice [GetBalance]).
Proof.
  exact (insufficient_balance_rejected_before_record poor_env
           (PaymentProcessRequest.Make 1 None) 7 (start only_alice) alice
           (Build_BalanceData true true (inr 100000%float)) 100000%float
           eq_refl eq_refl eq_refl eq_refl eq_refl eq_refl eq_refl eq_refl).
Defined.

(** C3, counterexample.  Balance 1000.00, salary 50000.00: the manual
    request is refused and leaves no payment row at all; the scheduled
    payment sends no balance request and transfers. *)
Lemma insufficient_balance_leaves_no_failed_record :
  let s := start only_alice in
  let manual := PaymentRoutes.process_payment poor_env
                  (PaymentProcessRequest.Make 1 None) 7 s in
  let scheduled := PaymentScheduler.process_scheduled_payment poor_env 1 s in
  (exists detail, fst manual = Raise (HTTPException 400 detail)) /\
  payment_history (database (snd manual)) = [] /\
  calls (snd manual) = [GetBalance] /\
  calls (snd scheduled) =
    [CreateTransferRecipient "Alice" "0123456789" "058";
     InitiateTransfer (Some "RCP_1") 5000000 "Automated salary payment for Alice"] /\
  map PaymentHistory.status (payment_history (database (snd scheduled))) = ["success"].
Proof.
  cbv zeta. split; [eexists; vm_compute; reflexivity|].
  vm_compute. repeat split.
Qed.

(** ** Further properties of the due-date calculator *)

Lemma month_cases (m : Z) :
  1 <= m <= 12 ->
  m = 1 \/ m = 2 \/ m = 3 \/ m = 4 \/ m = 5 \/ m = 6 \/
  m = 7 \/ m = 8 \/ m = 9 \/ m = 10 \/ m = 11 \/ m = 12.
Proof. lia. Qed.

Lemma days_before_next_month (y m : Z) :
  1 <= m <= 11 ->
  days_before_month y (m + 1) = days_before_month y m + days_in_month y m.
Proof.
  intros Hm. unfold days_before_month, days_in_month.
  destruct (is_leap y);
  destruct (month_cases m ltac:(lia)) as [H|[H|[H|[H|[H|[H|[H|[H|[H|[H|[H|H]]]]]]]]]]];
    subst m; try reflexivity; lia.
Qed.

Lemma days_before_next_year (y : Z) :
  days_before_year (y + 1) = days_before_year y + (if is_leap y then 366 else 365).
Proof.
  unfold days_before_year, is_leap.
  replace (y + 1 - 1) with y by lia.
  destruct (Z.eqb_spec (y mod 4) 0) as [H4|H4];
  destruct (Z.eqb_spec (y mod 100) 0) as [H100|H100];
  destruct (Z.eqb_spec (y mod 400) 0) as [H400|H400]; cbn;
  Z.div_mod_to_equations; lia.
Qed.

Lemma december_end (y : Z) :
  days_before_month y 12 + 31 = if is_leap y then 366 else 365.
Proof. unfold days_before_month. destruct (is_leap y); reflexivity. Qed.

Lemma next_day_spec (d d' : date) :
  valid_date d = true -> next_day d = Some d' ->
  valid_date d' = true /\ toordinal d' = toordinal d + 1.
Proof.
  intros Hv Hn. apply valid_date_spec in Hv as (Hy & Hm & Hd).
  unfold next_day in Hn. unfold MINYEAR, MAXYEAR in *.
  destruct (Z.ltb_spec (day d) (days_in_month (year d) (month d))) as [Hlt|Hge].
  - injection Hn as <-. split.
    + apply valid_date_spec; cbn. unfold MINYEAR, MAXYEAR. lia.
    + unfold toordinal; cbn. lia.
  - destruct (Z.ltb_spec (month d) 12) as [Hm12|Hm12].
    + injection Hn as <-. split.
      * apply first_of_month_valid; unfold MINYEAR, MAXYEAR; lia.
      * unfold toordinal; cbn. rewrite days_before_next_month by lia. lia.
    + destruct (Z.ltb_spec (year d) 9999) as [Hy9|Hy9]; [|discriminate].
      injection Hn as <-. split.
      * apply first_of_month_valid; unfold MINYEAR, MAXYEAR; lia.
      * unfold toordinal; cbn. rewrite days_before_next_year.
        assert (month d = 12) as Hm' by lia. rewrite Hm' in *.
        pose proof (december_end (year d)) as Hdec.
        assert (days_in_month (year d) 12 = 31) as H31 by reflexivity.
        change (days_before_month (year d + 1) 1) with 0. lia.
Qed.

Lemma next_day_defined (d : date) :
  valid_date d = true -> year d < MAXYEAR -> exists d', next_day d = Some d'.
Proof.
  intros _ Hy. unfold next_day.
  destruct (_ <? _); [eauto|]. destruct (_ <? _); [eauto|].
  destruct (Z.ltb_spec (year d) MAXYEAR); [eauto|lia].
Qed.

Lemma add_days_spec (n : nat) :
  forall d d', valid_date d = true -> add_days d n = Some d' ->
  valid_date d' = true /\ toordinal d' = toordinal d + Z.of_nat n.
Proof.
  unfold add_days. induction n as [|n IH]; intros d d' Hv Ha; cbn [iter_day] in Ha.
  - injection Ha as <-. split; [exact Hv|lia].
  - destruct (next_day d) as [d1|] eqn:Hn; [|discriminate].
    destruct (next_day_spec d d1 Hv Hn) as [Hv1 Ho1].
    destruct (IH d1 d' Hv1 Ha) as [Hv' Ho']. split; [exact Hv'|lia].
Qed.

Lemma date_compare_lt (a b : date) :
  date_compare a b = Lt <->
  year a < year b \/
  (year a = year b /\
   (month a < month b \/ (month a = month b /\ day a < day b))).
Proof.
  unfold date_compare.
  destruct (Z.compare_spec (year a) (year b));
  destruct (Z.compare_spec (month a) (month b));
  destruct (Z.compare_spec (day a) (day b));
  split; intros H'; try discriminate; try reflexivity; lia.
Qed.

Ltac month_arith :=
  cbv [Z.eqb Pos.eqb Z.ltb Z.compare Pos.compare Pos.compare_cont andb orb negb] in *.

Lemma within_year (y m d : Z) :
  1 <= m <= 12 -> 1 <= d <= days_in_month y m ->
  1 <= days_before_month y m + d <= if is_leap y then 366 else 365.
Proof.
  intros Hm Hd. unfold days_before_month, days_in_month in *.
  destruct (is_leap y);
  destruct (month_cases m Hm) as [H|[H|[H|[H|[H|[H|[H|[H|[H|[H|[H|H]]]]]]]]]]];
    subst m; month_arith; lia.
Qed.

Lemma days_before_year_bound (y : Z) :
  1 <= y <= 9999 -> 0 <= days_before_year y <= 3651694.
Proof.
  intros Hy. unfold days_before_year.
  replace ((y - 1) / 100) with ((y - 1) / 4 / 25)
    by (rewrite Z.div_div by lia; reflexivity).
  replace ((y - 1) / 400) with ((y - 1) / 4 / 25 / 4)
    by (rewrite !Z.div_div by lia; reflexivity).
  Z.div_mod_to_equations. lia.
Qed.

Lemma toordinal_before_last_year (d : date) :
  valid_date d = true -> year d < MAXYEAR -> toordinal d <= 3651694.
Proof.
  intros Hv Hlast. apply valid_date_spec in Hv as (Hy & Hm & Hd).
  unfold MINYEAR, MAXYEAR in *.
  pose proof (within_year _ _ _ Hm Hd) as Hw.
  pose proof (days_before_next_year (year d)) as Hn.
  pose proof (days_before_year_bound (year d + 1) ltac:(lia)) as Hb.
  unfold toordinal. destruct (is_leap (year d)); lia.
Qed.

Lemma next_day_none (d : date) :
  valid_date d = true -> next_day d = None -> toordinal d = max_ordinal.
Proof.
  intros Hv Hn. apply valid_date_spec in Hv as (Hy & Hm & Hd).
  unfold next_day, MINYEAR, MAXYEAR in *.
  destruct (Z.ltb_spec (day d) (days_in_month (year d) (month d))); [discriminate|].
  destruct (Z.ltb_spec (month d) 12); [discriminate|].
  destruct (Z.ltb_spec (year d) 9999); [discriminate|].
  destruct d as [y m dd]; cbn in *.
  assert (y = 9999) by lia. assert (m = 12) by lia. subst.
  change (days_in_month 9999 12) with 31 in *. assert (dd = 31) by lia. subst.
  reflexivity.
Qed.

Lemma add_days_defined (n : nat) :
  forall d, valid_date d = true -> toordinal d + Z.of_nat n <= max_ordinal ->
  exists d', add_days d n = Some d'.
Proof.
  unfold add_days. induction n as [|n IH]; intros d Hv Hb; cbn [iter_day].
  - eauto.
  - destruct (next_day d) as [d1|] eqn:Hn.
    + destruct (next_day_spec d d1 Hv Hn) as [Hv1 Ho1].
      apply IH; [exact Hv1|lia].
    + apply next_day_none in Hn; [lia|exact Hv].
Qed.

Lemma next_day_later (d d' : date) : next_day d = Some d' -> date_compare d d' = Lt.
Proof.
  unfold next_day. intros Hn. apply date_compare_lt.
  destruct (_ <? _); [injection Hn as <-; cbn; lia|].
  destruct (_ <? _); [injection Hn as <-; cbn; lia|].
  destruct (_ <? _); [injection Hn as <-; cbn; lia|discriminate].
Qed.

Lemma date_lt_trans (a b c : date) :
  date_compare a b = Lt -> date_compare b c = Lt -> date_compare a c = Lt.
Proof. rewrite !date_compare_lt. lia. Qed.

Lemma add_days_later (n : nat) :
  forall d d', add_days d (S n) = Some d' -> date_compare d d' = Lt.
Proof.
  unfold add_days. induction n as [|n IH]; intros d d' Ha; cbn [iter_day] in Ha.
  - destruct (next_day d) as [d1|] eqn:Hn; [|discriminate].
    injection Ha as <-. now apply next_day_later.
  - destruct (next_day d) as [d1|] eqn:Hn; [|discriminate].
    apply date_lt_trans with d1; [now apply next_day_later|].
    apply IH. exact Ha.
Qed.

(** The branch of every frequency other than weekly and bi-weekly. *)
Lemma monthly_branch (today : date) (frequency : string) :
  String.eqb frequency "weekly" = false ->
  String.eqb frequency "bi-weekly" = false ->
  valid_date today = true ->
  (month today = 12 -> year today < MAXYEAR) ->
  let y' := following_year today in
  let m' := following_month today in
  calculate_next_payment_date_from today frequency =
    Some (combine
            (Date y' m' (if days_in_month y' m' <? day today
                         then days_in_month y' m' else day today))
            min_time).
Proof.
  intros Hw Hb Hv Hdec y' m'.
  unfold calculate_next_payment_date_from. rewrite Hw, Hb.
  rewrite (monthly_next_month today Hv Hdec). fold y' m'.
  destruct (following_valid today Hv Hdec) as [Hy' Hm']. fold y' m' in Hy', Hm'.
  pose proof Hv as Hv'. apply valid_date_spec in Hv' as (Hy & Hm & Hd).
  simpl. unfold replace; simpl.
  destruct (Z.ltb_spec (days_in_month y' m') (day today)) as [Hshort|Hfits].
  - rewrite new_date_invalid.
    2:{ apply not_true_is_false. rewrite valid_date_spec; simpl. lia. }
    assert (Hne : m' <> 12).
    { intros E. rewrite E in Hshort. unfold days_in_month in Hshort; simpl in Hshort.
      pose proof (days_in_month_bounds (year today) (month today)). lia. }
    destruct (Z.eqb_spec m' 12) as [E|_]; [contradiction|].
    rewrite new_date_valid.
    2:{ apply first_of_month_valid; lia. }
    unfold sub_days, iter_day, mbind, option_bind.
    rewrite prev_day_first_of_month by lia.
    replace (m' + 1 - 1) with m' by lia. reflexivity.
  - rewrite new_date_valid; [reflexivity|].
    apply valid_date_spec; simpl. lia.
Qed.

Lemma monthly_branch_overflow (today : date) (frequency : string) :
  String.eqb frequency "weekly" = false ->
  String.eqb frequency "bi-weekly" = false ->
  month today = 12 -> year today = MAXYEAR ->
  calculate_next_payment_date_from today frequency = None.
Proof.
  intros Hw Hb Hm Hy.
  unfold calculate_next_payment_date_from. rewrite Hw, Hb, Hm.
  unfold replace. rewrite Hy. reflexivity.
Qed.

Lemma date_compare_gt (a b : date) :
  date_compare a b = Gt <->
  year b < year a \/
  (year a = year b /\
   (month b < month a \/ (month a = month b /\ day b < day a))).
Proof.
  unfold date_compare.
  destruct (Z.compare_spec (year a) (year b));
  destruct (Z.compare_spec (month a) (month b));
  destruct (Z.compare_spec (day a) (day b));
  split; intros H'; try discriminate; try reflexivity; lia.
Qed.

(** Whatever the frequency, a computed date is a calendar date, at
    midnight, after [today]. *)
Lemma next_payment_date_from_later (today : date) (frequency : string)
    (next : datetime) :
  valid_date today = true ->
  calculate_next_payment_date_from today frequency = Some next ->
  valid_date (dt_date next) = true /\
  dt_time next = 0 /\
  date_compare today (dt_date next) = Lt.
Proof.
  intros Hv Hn.
  pose proof Hv as Hv'. apply valid_date_spec in Hv' as (Hy & Hm & Hd).
  destruct (String.eqb frequency "weekly") eqn:Hw;
    [|destruct (String.eqb frequency "bi-weekly") eqn:Hb].
  - unfold calculate_next_payment_date_from in Hn. rewrite Hw in Hn.
    destruct (add_days today 7) as [d'|] eqn:Ha; [|discriminate].
    cbn in Hn. injection Hn as <-. cbn.
    split; [apply (add_days_spec 7 today d' Hv Ha)|].
    split; [reflexivity|apply (add_days_later 6 today d' Ha)].
  - unfold calculate_next_payment_date_from in Hn. rewrite Hw, Hb in Hn.
    destruct (add_days today 14) as [d'|] eqn:Ha; [|discriminate].
    cbn in Hn. injection Hn as <-. cbn.
    split; [apply (add_days_spec 14 today d' Hv Ha)|].
    split; [reflexivity|apply (add_days_later 13 today d' Ha)].
  - assert (Hcases : (month today = 12 -> year today < MAXYEAR) \/
                     (month today = 12 /\ year today = MAXYEAR)).
    { unfold MAXYEAR in *. lia. }
    destruct Hcases as [Hdec|[Hm12 Hy9]].
    + pose proof (monthly_branch today frequency Hw Hb Hv Hdec) as Hrun.
      cbv zeta in Hrun. rewrite Hrun in Hn. injection Hn as <-.
      destruct (following_valid today Hv Hdec) as [Hy' Hm'].
      pose proof (days_in_month_bounds (following_year today) (following_month today)).
      cbn. split; [|split; [reflexivity|]].
      * apply valid_date_spec; cbn.
        destruct (Z.ltb_spec (days_in_month (following_year today) (following_month today))
                    (day today)); lia.
      * apply date_compare_lt; cbn. unfold following_year, following_month.
        destruct (Z.eqb_spec (month today) 12); lia.
    + rewrite (monthly_branch_overflow today frequency Hw Hb Hm12 Hy9) in Hn.
      discriminate.
Qed.

(** Before the last year of the calendar the computation does not raise. *)
Lemma next_payment_date_from_defined (today : date) (frequency : string) :
  valid_date today = true -> year today < MAXYEAR ->
  exists next, calculate_next_payment_date_from today frequency = Some next.
Proof.
  intros Hv Hlast.
  pose proof (toordinal_before_last_year today Hv Hlast) as Hord.
  destruct (String.eqb frequency "weekly") eqn:Hw;
    [|destruct (String.eqb frequency "bi-weekly") eqn:Hb].
  - unfold calculate_next_payment_date_from. rewrite Hw.
    destruct (add_days_defined 7 today Hv) as (d' & ->); [|cbn; eauto].
    unfold max_ordinal. lia.
  - unfold calculate_next_payment_date_from. rewrite Hw, Hb.
    destruct (add_days_defined 14 today Hv) as (d' & ->); [|cbn; eauto].
    unfold max_ordinal. lia.
  - pose proof (monthly_branch today frequency Hw Hb Hv (fun _ => Hlast)) as Hrun.
    cbv zeta in Hrun. rewrite Hrun. eauto.
Qed.

(** X1.  [calculate_next_payment_date], for every frequency string: when
    the local clock reads a calendar date before the year 9999, the call
    returns, after one clock read; whenever it returns, the result is a
    calendar date, at midnight, strictly after the local date of the call;
    and it raises only in the year 9999. *)
Theorem next_payment_date_is_a_later_day (env : Env) (frequency : string)
    (s : State) :
  let today := dt_date (now_at env (tick s)) in
  valid_date today = true ->
  (year today < MAXYEAR ->
   exists next,
     calculate_next_payment_date env frequency s
     = (Return next, set_tick (S (tick s)) s)) /\
  (forall next s',
     calculate_next_payment_date env frequency s = (Return next, s') ->
     valid_date (dt_date next) = true /\
     dt_time next = min_time /\
     date_compare today (dt_date next) = Lt) /\
  (forall e s',
     calculate_next_payment_date env frequency s = (Raise e, s') ->
     year today = MAXYEAR).
Proof.
  intros today Hv. rewrite calculate_next_payment_date_run. fold today.
  split; [|split].
  - intros Hlast.
    destruct (next_payment_date_from_defined today frequency Hv Hlast) as (next & ->).
    eauto.
  - intros next s' Hrun.
    destruct (calculate_next_payment_date_from today frequency) as [d|] eqn:Hd;
      [|discriminate].
    injection Hrun as <- _.
    exact (next_payment_date_from_later today frequency d Hv Hd).
  - intros e s' Hrun.
    destruct (calculate_next_payment_date_from today frequency) as [d|] eqn:Hd;
      [discriminate|].
    clear Hrun.
    pose proof Hv as Hv'. apply valid_date_spec in Hv' as (Hy & _).
    destruct (Z.eq_dec (year today) MAXYEAR) as [E|E]; [exact E|].
    destruct (next_payment_date_from_defined today frequency Hv) as (next & Hn);
      [lia|congruence].
Qed.

(** X1, witness.  On 31 January 2024 the weekly date is 7 February. *)
Lemma next_payment_date_is_a_later_day_witness :
  fst (calculate_next_payment_date morning_env "weekly" (start only_bob))
    = Return (combine (Date 2024 2 7) min_time) /\
  date_compare (Date 2024 1 31) (Date 2024 2 7) = Lt.
Proof.
  destruct (next_payment_date_is_a_later_day morning_env "weekly" (start only_bob)
              eq_refl) as (_ & Hlater & _).
  split; [reflexivity|].
  exact (proj2 (proj2 (Hlater (combine (Date 2024 2 7) min_time) _ eq_refl))).
Defined.

(** X2.  The number of days from today to the next payment date is 7 for
    "weekly", 14 for "bi-weekly", and between 28 and 31 for every other
    frequency string, whichever way the month branch ends. *)
Theorem next_payment_date_day_count (today : date) (frequency : string)
    (next : datetime) :
  valid_date today = true ->
  calculate_next_payment_date_from today frequency = Some next ->
  let days := toordinal (dt_date next) - toordinal today in
  if String.eqb frequency "weekly" then days = 7
  else if String.eqb frequency "bi-weekly" then days = 14
  else 28 <= days <= 31.
Proof.
  intros Hv Hn. cbv zeta.
  pose proof Hv as Hv'. apply valid_date_spec in Hv' as (Hy & Hm & Hd).
  destruct (String.eqb frequency "weekly") eqn:Hw;
    [|destruct (String.eqb frequency "bi-weekly") eqn:Hb].
  - unfold calculate_next_payment_date_from in Hn. rewrite Hw in Hn.
    destruct (add_days today 7) as [d'|] eqn:Ha; [|discriminate].
    cbn in Hn. injection Hn as <-. cbn [dt_date combine].
    pose proof (proj2 (add_days_spec 7 today d' Hv Ha)). lia.
  - unfold calculate_next_payment_date_from in Hn. rewrite Hw, Hb in Hn.
    destruct (add_days today 14) as [d'|] eqn:Ha; [|discriminate].
    cbn in Hn. injection Hn as <-. cbn [dt_date combine].
    pose proof (proj2 (add_days_spec 14 today d' Hv Ha)). lia.
  - assert (Hcases : (month today = 12 -> year today < MAXYEAR) \/
                     (month today = 12 /\ year today = MAXYEAR)).
    { unfold MAXYEAR in *. lia. }
    destruct Hcases as [Hdec|[Hm12 Hy9]].
    2:{ rewrite (monthly_branch_overflow today frequency Hw Hb Hm12 Hy9) in Hn.
        discriminate. }
    pose proof (monthly_branch today frequency Hw Hb Hv Hdec) as Hrun.
    cbv zeta in Hrun. rewrite Hrun in Hn. injection Hn as <-.
    cbn [dt_date combine]. unfold toordinal; cbn [year month day].
    unfold following_year, following_month.
    destruct (Z.eqb_spec (month today) 12) as [E|E].
    + rewrite E in *.
      change (days_in_month (year today + 1) 1) with 31.
      change (days_in_month (year today) 12) with 31 in Hd.
      destruct (Z.ltb_spec 31 (day today)); [lia|].
      rewrite days_before_next_year.
      pose proof (december_end (year today)).
      change (days_before_month (year today + 1) 1) with 0.
      destruct (is_leap (year today)); lia.
    + rewrite days_before_next_month by lia.
      pose proof (days_in_month_bounds (year today) (month today)).
      pose proof (days_in_month_bounds (year today) (month today + 1)).
      destruct (Z.ltb_spec (days_in_month (year today) (month today + 1)) (day today)); lia.
Qed.

(** X2, witness.  From 31 January 2024 the monthly date is 29 February. *)
Lemma next_payment_date_day_count_witness :
  28 <= toordinal (Date 2024 2 29) - toordinal (Date 2024 1 31) <= 31.
Proof.
  exact (next_payment_date_day_count (Date 2024 1 31) "monthly"
           (combine (Date 2024 2 29) min_time) eq_refl eq_refl).
Defined.

(** ** Further properties of the fees *)

Lemma digits2_pos_lower (m : positive) : 2 ^ (Z.pos (digits2_pos m) - 1) <= Z.pos m.
Proof.
  induction m as [m IH|m IH|]; cbn [digits2_pos].
  - rewrite Pos2Z.inj_succ. replace (Z.succ (Z.pos (digits2_pos m)) - 1)
      with (Z.succ (Z.pos (digits2_pos m) - 1)) by lia.
    rewrite Z.pow_succ_r by lia. lia.
  - rewrite Pos2Z.inj_succ. replace (Z.succ (Z.pos (digits2_pos m)) - 1)
      with (Z.succ (Z.pos (digits2_pos m) - 1)) by lia.
    rewrite Z.pow_succ_r by lia. lia.
  - reflexivity.
Qed.

(** Above the least exponent a valid mantissa has all its [prec] digits. *)
Lemma valid_normal (s : bool) (m : positive) (e : Z) :
  valid_binary (S754_finite s m e) = true -> emin < e -> 2 ^ 52 <= Z.pos m.
Proof.
  cbn [SpecFloat.valid_binary]. unfold bounded, canonical_mantissa, fexp. fold emin.
  rewrite andb_true_iff, Z.eqb_eq. intros [Hc _] He.
  pose proof (digits2_pos_lower m) as Hm. unfold prec in *.
  replace (Z.pos (digits2_pos m) - 1) with 52 in Hm by lia. exact Hm.
Qed.

(** Aligning a mantissa to a lower exponent at least doubles it. *)
Lemma shl_align_lower (m : positive) (e e' : Z) :
  e' < e -> 2 * Z.pos m <= Z.pos (fst (shl_align m e e')).
Proof.
  intros He. unfold shl_align.
  destruct (e' - e) as [|k|k] eqn:Hk; [lia|lia|].
  cbn [fst]. apply iter_xO_ge.
Qed.

Lemma shl_align_same (m : positive) (e : Z) : fst (shl_align m e e) = m.
Proof. unfold shl_align. rewrite Z.sub_diag. reflexivity. Qed.

(** The order of two valid positive numbers is the order of their aligned
    mantissas. *)
Lemma aligned_order (mx my : positive) (ex ey : Z) :
  valid_binary (S754_finite false mx ex) = true ->
  valid_binary (S754_finite false my ey) = true ->
  let ez := Z.min ex ey in
  let d := Z.pos (fst (shl_align mx ex ez)) - Z.pos (fst (shl_align my ey ez)) in
  match SFcompare (S754_finite false mx ex) (S754_finite false my ey) with
  | Some Lt => d < 0
  | _ => 0 <= d
  end.
Proof.
  intros Hx Hy. cbv zeta.
  pose proof (valid_finite_bounds _ _ _ Hx) as [Hmx Hex].
  pose proof (valid_finite_bounds _ _ _ Hy) as [Hmy Hey].
  change (2 ^ 53) with 9007199254740992 in *.
  unfold SFcompare.
  destruct (Z.compare_spec ex ey) as [->|Hlt|Hgt].
  - rewrite Z.min_id, !shl_align_same.
    rewrite Pos.compare_cont_spec.
    destruct (Pos.compare_spec mx my) as [->|Hc|Hc]; cbn [Pos.switch_Eq]; lia.
  - replace (Z.min ex ey) with ex by lia. rewrite shl_align_same.
    pose proof (shl_align_lower my ey ex Hlt).
    pose proof (valid_normal _ _ _ Hy ltac:(lia)) as Hn.
    change (2 ^ 52) with 4503599627370496 in Hn. lia.
  - replace (Z.min ex ey) with ey by lia. rewrite shl_align_same.
    pose proof (shl_align_lower mx ex ey Hgt).
    pose proof (valid_normal _ _ _ Hx ltac:(lia)) as Hn.
    change (2 ^ 52) with 4503599627370496 in Hn. lia.
Qed.

(** Rounding keeps the sign of an integer mantissa. *)
Lemma binary_normalize_sign (m e : Z) :
  emin <= e ->
  SFltb (binary_normalize prec emax m e false) (S754_zero false) = (m <? 0).
Proof.
  intros He. destruct m as [|p|p]; cbn [binary_normalize].
  - reflexivity.
  - destruct (binary_round_sign false p e He) as [(m' & e' & ->)| ->]; reflexivity.
  - destruct (binary_round_sign true p e He) as [(m' & e' & ->)| ->]; reflexivity.
Qed.

(** For a positive finite [y], [x - y] is negative exactly when [x < y];
    a NaN is neither. *)
Lemma sub_negative_iff (x y : float) (my : positive) (ey : Z) :
  Prim2SF y = S754_finite false my ey ->
  PrimFloat.ltb (PrimFloat.sub x y) 0%float = PrimFloat.ltb x y.
Proof.
  intros Hy.
  pose proof (Prim2SF_valid x) as Hvx. pose proof (Prim2SF_valid y) as Hvy.
  rewrite !FloatAxioms.ltb_spec, FloatAxioms.sub_spec, Hy in *.
  replace (Prim2SF 0%float) with (S754_zero false) by (vm_compute; reflexivity).
  destruct (Prim2SF x) as [s|s| |s mx ex].
  - reflexivity.
  - destruct s; reflexivity.
  - reflexivity.
  - pose proof (valid_finite_bounds _ _ _ Hvx) as [_ Hex].
    pose proof (valid_finite_bounds _ _ _ Hvy) as [_ Hey].
    unfold SF64sub, SFsub.
    rewrite binary_normalize_sign by lia.
    destruct s; cbn [cond_Zopp].
    + unfold SFltb, SFcompare.
      destruct (Z.ltb_spec (- Z.pos (fst (shl_align mx ex (Z.min ex ey)))
                            - Z.pos (fst (shl_align my ey (Z.min ex ey)))) 0);
        [reflexivity|lia].
    + pose proof (aligned_order mx my ex ey Hvx Hvy) as Hord. cbv zeta in Hord.
      unfold SFltb.
      destruct (SFcompare (S754_finite false mx ex) (S754_finite false my ey))
        as [[| |]|];
        destruct (Z.ltb_spec (Z.pos (fst (shl_align mx ex (Z.min ex ey)))
                              - Z.pos (fst (shl_align my ey (Z.min ex ey)))) 0);
        try reflexivity; lia.
Qed.

(** An amount that is not below 5000 is not below a smaller fee either. *)
Lemma not_below_5000 (g c : float) (mc : positive) (ec : Z) :
  Prim2SF c = S754_finite false mc ec -> ec < -40 ->
  PrimFloat.ltb g 5000%float = false -> PrimFloat.ltb g c = false.
Proof.
  intros Hc Hec. rewrite !FloatAxioms.ltb_spec, Hc.
  replace (Prim2SF 5000%float) with (S754_finite false 5497558138880000 (-40))
    by (vm_compute; reflexivity).
  destruct (Prim2SF g) as [s|s| |s m e]; try reflexivity.
  - discriminate.
  - destruct s; [discriminate|reflexivity].
  - destruct s; [discriminate|].
    unfold SFltb, SFcompare.
    destruct (Z.compare_spec e (-40)); destruct (Z.compare_spec e ec);
      try reflexivity; try discriminate; lia.
Qed.

(** X3.  For every float, NaN and the infinities included, the net amount
    of [calculate_net_amount] compares below zero exactly when the gross
    amount compares below 10: from the lowest fee upwards no tier yields a
    negative net amount, and below it every amount does. *)
Theorem net_amount_negative_iff_below_ten (gross : float) :
  PrimFloat.ltb (fst (PaystackService.calculate_net_amount gross)) 0%float
  = PrimFloat.ltb gross 10%float.
Proof.
  unfold PaystackService.calculate_net_amount, PaystackService.get_transaction_fee.
  cbn [fst].
  destruct (PrimFloat.ltb gross 5000%float) eqn:H5000.
  - apply (sub_negative_iff gross 10%float 5629499534213120 (-49)).
    vm_compute. reflexivity.
  - rewrite (not_below_5000 gross 10%float 5629499534213120 (-49)
               ltac:(vm_compute; reflexivity) ltac:(lia) H5000).
    destruct (PrimFloat.leb gross 50000%float).
    + rewrite (sub_negative_iff gross 25%float 7036874417766400 (-48))
        by (vm_compute; reflexivity).
      apply (not_below_5000 gross 25%float 7036874417766400 (-48));
        [vm_compute; reflexivity|lia|exact H5000].
    + rewrite (sub_negative_iff gross 50%float 7036874417766400 (-47))
        by (vm_compute; reflexivity).
      apply (not_below_5000 gross 50%float 7036874417766400 (-47));
        [vm_compute; reflexivity|lia|exact H5000].
Qed.

(** ** Requests, rows and audit entries of a scheduled payment *)

Lemma pipeline_run (env : Env) (n a b : string) (amt : float) (r : string)
    (tk : nat) (se db : Tables) (cs : list ProviderCall) :
  exists success message reference sent,
    PaystackService.process_worker_payment env n a b amt r (Build_State tk se db cs)
    = (Return (success, message, reference), Build_State tk se db (cs ++ sent)) /\
    pipeline_requests env cs n a b amt r success sent.
Proof.
  unfold pipeline_requests.
  cbv [PaystackService.process_worker_payment
       PaystackService.create_transfer_recipient
       PaystackService.initiate_transfer].
  run_eff.
  destruct (recipient_reply env cs n a b) as [e|rd] eqn:Hr; run_eff;
    [do 4 eexists; split; [reflexivity|left; split; reflexivity]|].
  destruct (recipient_status rd) eqn:Hs; run_eff;
    [|do 4 eexists; split; [reflexivity|left; split; reflexivity]].
  destruct (recipient_code rd) as [e|code] eqn:Hc; run_eff;
    [do 4 eexists; split; [reflexivity|left; split; reflexivity]|].
  destruct (float_to_int (PrimFloat.mul amt 100%float)) as [e|kobo] eqn:Hk; run_eff;
    [do 4 eexists; split; [reflexivity|left; split; reflexivity]|].
  assert (Hsent : exists rd0 code0 kobo0,
             Json rd = Json rd0 /\ recipient_status rd0 = true /\
             recipient_code rd0 = inr code0 /\
             @inr string Z kobo = inr kobo0 /\
             [CreateTransferRecipient n a b; InitiateTransfer code kobo r]
             = [CreateTransferRecipient n a b; InitiateTransfer code0 kobo0 r])
    by (exists rd, code, kobo; auto).
  destruct (transfer_reply env _ code kobo r) as [e|td]; run_eff;
    [do 4 eexists; split; [rewrite <- app_assoc; reflexivity|right; exact Hsent]|].
  destruct (transfer_status td); run_eff;
    [|do 4 eexists; split; [rewrite <- app_assoc; reflexivity|right; exact Hsent]].
  destruct (transfer_reference td) as [e|reference]; run_eff;
    do 4 eexists; (split; [rewrite <- app_assoc; reflexivity|right; exact Hsent]).
Qed.

(** X4.  [process_worker_payment] returns, changes nothing but the list
    of requests sent, never asks for the balance, and sends either the
    recipient request alone, reporting a failure, or the recipient
    request followed by exactly one transfer request, to the recipient
    code the provider answered with and for [int(amount * 100)] kobo; a
    success is reported only in the second case. *)
Theorem transfer_pipeline_requests (env : Env)
    (name account_number bank_code : string) (amount : float) (reason : string)
    (s : State) :
  exists success message reference sent,
    PaystackService.process_worker_payment env name account_number bank_code
      amount reason s
    = (Return (success, message, reference), set_calls (calls s ++ sent) s) /\
    pipeline_requests env (calls s) name account_number bank_code amount reason
      success sent /\
    (success = true -> length sent = 2%nat) /\
    ~ In GetBalance sent.
Proof.
  destruct s as [tk se db cs].
  destruct (pipeline_run env name account_number bank_code amount reason tk se db cs)
    as (success & message & reference & sent & Hrun & Hsent).
  exists success, message, reference, sent.
  split; [exact Hrun|]. split; [exact Hsent|].
  destruct Hsent as [[-> ->]|(rd & code & kobo & _ & _ & _ & _ & ->)].
  - split; [discriminate|]. intros [H|[]]. discriminate.
  - split; [reflexivity|]. intros [H|[H|[]]]; discriminate.
Qed.

Lemma process_scheduled_payment_skip (env : Env) (wid : Z) (s : State) :
  (forall w, workers (database s) !! wid = Some w -> Worker.is_active w = false) ->
  PaymentScheduler.process_scheduled_payment env wid s
  = (Return tt, set_session (database s) s).
Proof.
  destruct s as [tk se [ws rows logs] cs]. cbn [database workers]. intros Hskip.
  unfold PaymentScheduler.process_scheduled_payment. run_eff.
  destruct (ws !! wid) as [w|] eqn:Hw; run_eff;
    [|destruct (sqlite_integer wid); reflexivity].
  rewrite (Hskip w eq_refl). reflexivity.
Qed.

(** The scheduled payment of an active worker, in terms of what its call of
    the pipeline returns. *)
Lemma process_scheduled_payment_run (env : Env) (wid : Z) (w : Worker.t)
    (tk : nat) (se : Tables) (ws : gmap Z Worker.t)
    (rows : list PaymentHistory.t) (logs : list AuditLog.t)
    (cs : list ProviderCall) :
  ws !! wid = Some w -> Worker.is_active w = true ->
  let s := Build_State tk se (Build_Tables ws rows logs) cs in
  let pending := scheduled_row env s wid w in
  exists success message reference sent,
    scheduled_pipeline env w (opened env s wid w)
    = (Return (success, message, reference),
       set_calls (cs ++ sent) (opened env s wid w)) /\
    pipeline_requests env cs (Worker.name w) (Worker.account_number w)
      (Worker.bank_code w) (decimal_to_float (Worker.salary_amount w))
      ("Automated salary payment for " +:+ Worker.name w) success sent /\
    PaymentScheduler.process_scheduled_payment env wid s =
    (Return tt,
     if success then
       match calculate_next_payment_date_from (dt_date (now_at env (tk + 3)%nat))
               (Worker.payment_frequency w) with
       | Some next =>
           let t' :=
             Build_Tables
               (alter (Worker.set_next_payment_date (Some next)) wid
                  (alter (Worker.set_last_paid (Some (utcnow_at env (tk + 2)%nat)))
                     wid ws))
               (rows ++
                [PaymentHistory.set_paid_at (Some (utcnow_at env (tk + 1)%nat))
                   (PaymentHistory.set_transaction_reference reference
                      (PaymentHistory.set_status "success" pending))])
               (logs ++ [scheduled_audit w true message]) in
           Build_State (tk + 4) t' t' (cs ++ sent)
       | None =>
           let t' := Build_Tables ws (rows ++ [pending]) logs in
           Build_State (tk + 4) t' t' (cs ++ sent)
       end
     else
       let t' :=
         Build_Tables ws (rows ++ [PaymentHistory.set_status "failed" pending])
           (logs ++ [scheduled_audit w false message]) in
       Build_State (tk + 1) t' t' (cs ++ sent)).
Proof.
  intros Hw Ha. cbv zeta.
  unfold scheduled_pipeline, opened, scheduled_row, scheduled_audit.
  cbn [database payment_history tick calls set_payment_history workers audit_logs
       set_calls session].
  destruct (pipeline_run env (Worker.name w) (Worker.account_number w)
              (Worker.bank_code w) (decimal_to_float (Worker.salary_amount w))
              ("Automated salary payment for " +:+ Worker.name w) (S tk)
              (Build_Tables ws
                 (rows ++ [PaymentHistory.Make (next_id rows) wid
                             (AmountDecimal (Worker.salary_amount w)) "pending"
                             None None None None (utcnow_at env tk)]) logs)
              (Build_Tables ws
                 (rows ++ [PaymentHistory.Make (next_id rows) wid
                             (AmountDecimal (Worker.salary_amount w)) "pending"
                             None None None None (utcnow_at env tk)]) logs)
              cs)
    as (success & message & reference & sent & Hrun & Hsent).
  exists success, message, reference, sent.
  split; [exact Hrun|]. split; [exact Hsent|].
  unfold PaymentScheduler.process_scheduled_payment. run_eff.
  rewrite Hw. run_eff. rewrite Ha. run_eff.
  rewrite Hrun. run_eff.
  destruct success.
  - unfold PaymentScheduler.close_success, calculate_next_payment_date. run_eff.
    replace (tk + 3)%nat with (S (S (S tk))) by lia.
    destruct (calculate_next_payment_date_from _ _) as [next|] eqn:Hnext; run_eff.
    + rewrite !alter_snoc.
      replace (tk + 4)%nat with (S (S (S (S tk)))) by lia.
      replace (tk + 2)%nat with (S (S tk)) by lia.
      replace (tk + 1)%nat with (S tk) by lia.
      reflexivity.
    + replace (tk + 4)%nat with (S (S (S (S tk)))) by lia. reflexivity.
  - unfold PaymentScheduler.close_failed. run_eff.
    rewrite alter_snoc. replace (tk + 1)%nat with (S tk) by lia. reflexivity.
Qed.

(** X6.  [process_scheduled_payment] always returns.  For a worker who is
    missing or inactive it leaves the database and the provider untouched.
    For an active worker it commits one row, for the salary, without an
    approver, created at the UTC clock read of the call, and then calls
    the transfer pipeline once, for [float(salary)] and the reason
    "Automated salary payment for <name>"; the requests sent are those of
    that call.  The row is left failed when the call reports a failure;
    when the call reports success it is closed as success, with the
    reference the call returned, or left pending when the date computation
    raises: the row is success only if the pipeline reported success. *)
Theorem scheduled_payment_pays_active_workers_only (env : Env) (wid : Z)
    (s : State) :
  let r := PaymentScheduler.process_scheduled_payment env wid s in
  fst r = Return tt /\
  ((forall w, workers (database s) !! wid = Some w -> Worker.is_active w = false) ->
   snd r = set_session (database s) s) /\
  (forall w,
     workers (database s) !! wid = Some w -> Worker.is_active w = true ->
     exists row success message reference,
       scheduled_pipeline env w (opened env s wid w)
       = (Return (success, message, reference),
          set_calls (calls (snd r)) (opened env s wid w)) /\
       added_row s (snd r) row /\
       same_payment row (scheduled_row env s wid w) /\
       PaymentHistory.paystack_reference row = None /\
       PaymentHistory.status row =
         (if success then
            match calculate_next_payment_date_from
                    (dt_date (now_at env (tick s + 3)%nat))
                    (Worker.payment_frequency w) with
            | Some _ => "success"
            | None => "pending"
            end
          else "failed") /\
       (PaymentHistory.status row = "success" ->
        success = true /\ PaymentHistory.transaction_reference row = reference)).
Proof.
  cbv zeta. split; [|split].
  - destruct (workers (database s) !! wid) as [w|] eqn:Hw.
    2:{ rewrite process_scheduled_payment_skip by (intros w; congruence).
        reflexivity. }
    destruct (Worker.is_active w) eqn:Ha.
    2:{ rewrite process_scheduled_payment_skip by (intros w'; congruence).
        reflexivity. }
    destruct s as [tk se [ws rows logs] cs]. cbn [database workers] in Hw.
    destruct (process_scheduled_payment_run env wid w tk se ws rows logs cs Hw Ha)
      as (success & message & reference & sent & _ & _ & Hrun).
    cbv zeta in Hrun. rewrite Hrun. reflexivity.
  - intros Hskip. now rewrite process_scheduled_payment_skip.
  - destruct s as [tk se [ws rows logs] cs]. cbn [database workers]. intros w Hw Ha.
    destruct (process_scheduled_payment_run env wid w tk se ws rows logs cs Hw Ha)
      as (success & message & reference & sent & Hpipe & _ & Hrun).
    cbv zeta in Hrun, Hpipe. rewrite Hrun.
    unfold added_row, same_payment, scheduled_row.
    cbn [snd calls database payment_history tick].
    destruct success.
    + destruct (calculate_next_payment_date_from _ _);
        eexists; exists true, message, reference;
        (split; [exact Hpipe|]); cbn;
        repeat first [reflexivity | split | intro]; discriminate.
    + eexists; exists false, message, reference.
      split; [exact Hpipe|]. cbn.
      repeat first [reflexivity | split | intro]; discriminate.
Qed.

(** X7.  A scheduled payment writes one audit entry exactly when it closes
    its row as success or failed: the entry is of user 0 and action
    "scheduled_payment_processed", and its details name the outcome and
    the message that the payment's call of the transfer pipeline returned.
    When it adds no row, or leaves its row pending, the audit log is
    unchanged. *)
Theorem scheduled_payment_audit_trail (env : Env) (wid : Z) (s : State) :
  let s' := snd (PaymentScheduler.process_scheduled_payment env wid s) in
  (audit_logs (database s') = audit_logs (database s) /\
   forall row, added_row s s' row -> PaymentHistory.status row = "pending") \/
  exists row w success message reference,
    added_row s s' row /\
    workers (database s) !! wid = Some w /\
    fst (scheduled_pipeline env w (opened env s wid w))
      = Return (success, message, reference) /\
    PaymentHistory.status row = (if success then "success" else "failed") /\
    audit_logs (database s') =
      audit_logs (database s) ++ [scheduled_audit w success message].
Proof.
  cbv zeta.
  destruct (workers (database s) !! wid) as [w|] eqn:Hw.
  2:{ left. rewrite process_scheduled_payment_skip by (intros w; congruence).
      destruct s as [tk se db cs]. split; [reflexivity|].
      intros row Hadd. exfalso.
      exact (added_row_not_unchanged _ _ _ Hadd eq_refl). }
  destruct (Worker.is_active w) eqn:Ha.
  2:{ left. rewrite process_scheduled_payment_skip by (intros w'; congruence).
      destruct s as [tk se db cs]. split; [reflexivity|].
      intros row Hadd. exfalso.
      exact (added_row_not_unchanged _ _ _ Hadd eq_refl). }
  destruct s as [tk se [ws rows logs] cs]. cbn [database workers] in Hw.
  destruct (process_scheduled_payment_run env wid w tk se ws rows logs cs Hw Ha)
    as (success & message & reference & sent & Hpipe & _ & Hrun).
  cbv zeta in Hrun, Hpipe. rewrite Hrun. unfold added_row.
  cbn [snd database payment_history audit_logs workers].
  destruct success.
  - destruct (calculate_next_payment_date_from _ _).
    + right. eexists; exists w, true, message, reference. rewrite Hpipe. cbn. auto.
    + left. cbn. split; [reflexivity|]. intros row Hadd.
      apply app_inv_head in Hadd. injection Hadd as <-. reflexivity.
  - right. eexists; exists w, false, message, reference. rewrite Hpipe. cbn. auto.
Qed.

(** X8.  A scheduled payment neither adds nor removes a worker, changes
    no worker other than the one paid, and on that one leaves name, bank
    details, salary, frequency and the active flag as they were; unless
    its row is closed as success it leaves the whole table of workers
    unchanged. *)
Theorem scheduled_payment_keeps_profiles (env : Env) (wid : Z) (s : State) :
  let s' := snd (PaymentScheduler.process_scheduled_payment env wid s) in
  (forall k, profile <$> workers (database s') !! k
             = profile <$> workers (database s) !! k) /\
  (forall k, k <> wid ->
             workers (database s') !! k = workers (database s) !! k) /\
  ((forall row, added_row s s' row -> PaymentHistory.status row <> "success") ->
   workers (database s') = workers (database s)).
Proof.
  cbv zeta.
  destruct (workers (database s) !! wid) as [w|] eqn:Hw.
  2:{ rewrite process_scheduled_payment_skip by (intros w; congruence).
      destruct s as [tk se db cs]. auto. }
  destruct (Worker.is_active w) eqn:Ha.
  2:{ rewrite process_scheduled_payment_skip by (intros w'; congruence).
      destruct s as [tk se db cs]. auto. }
  destruct s as [tk se [ws rows logs] cs]. cbn [database workers] in Hw.
  destruct (process_scheduled_payment_run env wid w tk se ws rows logs cs Hw Ha)
    as (success & message & reference & sent & _ & Hsent & Hrun).
  cbv zeta in Hrun. rewrite Hrun. unfold added_row.
  cbn [snd database payment_history audit_logs workers].
  destruct success; [destruct (calculate_next_payment_date_from _ _) as [next|]|];
    cbn [snd database payment_history audit_logs workers]; auto.
  split; [|split].
  - intros k. destruct (decide (k = wid)) as [->|Hk].
    + rewrite !lookup_alter_eq, Hw. reflexivity.
    + rewrite !lookup_alter_ne by congruence. reflexivity.
  - intros k Hk. rewrite !lookup_alter_ne by congruence. reflexivity.
  - intros Hno. exfalso. eapply Hno; reflexivity.
Qed.

Lemma closed_as_success_not_due (env : Env) (s s' : State) (wid : Z)
    (row : PaymentHistory.t) (today : date) (w : Worker.t) :
  closed_as_success env s s' wid row ->
  valid_date (dt_date (now_at env (tick s + 3)%nat)) = true ->
  date_compare today (dt_date (now_at env (tick s + 3)%nat)) <> Gt ->
  ~ In (wid, w) (PaymentScheduler.workers_due today (database s')).
Proof.
  intros (_ & _ & w0 & next & Hw0 & Hnext & Hws) Hv Hle Hin.
  apply workers_due_spec in Hin as (Hw & _ & d & Hd & Hdue).
  rewrite Hws, !lookup_alter_eq, Hw0 in Hw. cbn in Hw. injection Hw as <-.
  cbn in Hd. injection Hd as <-.
  destruct (next_payment_date_from_later _ _ _ Hv Hnext) as (_ & _ & Hlt).
  unfold datetime_leb, datetime_compare in Hdue. cbn [dt_date combine] in Hdue.
  assert (Hgt : date_compare (dt_date next) today = Gt).
  { apply date_compare_gt. apply date_compare_lt in Hlt.
    assert (Hle' : ~ (year (dt_date (now_at env (tick s + 3)%nat)) < year today \/
                      (year today = year (dt_date (now_at env (tick s + 3)%nat)) /\
                       (month (dt_date (now_at env (tick s + 3)%nat)) < month today \/
                        (month today = month (dt_date (now_at env (tick s + 3)%nat)) /\
                         day (dt_date (now_at env (tick s + 3)%nat)) < day today)))))
      by (intros H; apply Hle; apply date_compare_gt; exact H).
    lia. }
  rewrite Hgt in Hdue. discriminate.
Qed.

(** X9.  When a scheduled or a manual payment has closed its row as
    success, the query of the daily check does not select the worker on the
    local day of the payment or on any earlier day: the next payment date
    lies on a later day.  The local clock is assumed to read a calendar
    date. *)
Theorem paid_worker_not_due_again (env : Env) (s : State) (today : date) :
  valid_date (dt_date (now_at env (tick s + 3)%nat)) = true ->
  date_compare today (dt_date (now_at env (tick s + 3)%nat)) <> Gt ->
  (forall (wid : Z) (row : PaymentHistory.t) (w : Worker.t),
     let s' := snd (PaymentScheduler.process_scheduled_payment env wid s) in
     added_row s s' row ->
     PaymentHistory.status row = "success" ->
     ~ In (wid, w) (PaymentScheduler.workers_due today (database s'))) /\
  (forall (req : PaymentProcessRequest.t) (user : Z) (row : PaymentHistory.t)
          (w : Worker.t),
     let s' := snd (PaymentRoutes.process_payment env req user s) in
     added_row s s' row ->
     PaymentHistory.status row = "success" ->
     ~ In (PaymentProcessRequest.worker_id req, w)
          (PaymentScheduler.workers_due today (database s'))).
Proof.
  intros Hv Hle. split.
  - intros wid row w s' Hadd Hst.
    destruct (process_scheduled_payment_rows env wid s) as [Hsame|Hrow].
    + exfalso. exact (added_row_not_unchanged _ _ _ Hadd Hsame).
    + destruct Hrow as (row' & Hadd' & _ & Hcase).
      rewrite <- (added_row_unique _ _ _ _ Hadd Hadd') in Hcase.
      destruct Hcase as [Hf|[Hok|[Hp _]]].
      * rewrite Hst in Hf. discriminate.
      * exact (closed_as_success_not_due env s s' wid row today w Hok Hv Hle).
      * rewrite Hst in Hp. discriminate.
  - intros req user row w s' Hadd Hst.
    destruct (process_payment_rows env req user s) as [Hsame|Hrow].
    + exfalso. exact (added_row_not_unchanged _ _ _ Hadd Hsame).
    + destruct Hrow as (row' & Hadd' & _ & Hcase).
      rewrite <- (added_row_unique _ _ _ _ Hadd Hadd') in Hcase.
      destruct Hcase as [Hf|Hok].
      * rewrite Hst in Hf. discriminate.
      * exact (closed_as_success_not_due env s s' _ row today w Hok Hv Hle).
Qed.

(** X9, witness.  Alice is due on 31 January 2024 and, once paid, is not. *)
Lemma paid_worker_not_due_again_witness :
  PaymentScheduler.workers_due (Date 2024 1 31) (database (start only_alice))
    = [(1, alice)] /\
  ~ In (1, alice)
      (PaymentScheduler.workers_due (Date 2024 1 31)
         (database (snd (PaymentScheduler.process_scheduled_payment morning_env 1
                           (start only_alice))))).
Proof.
  split; [vm_compute; reflexivity|].
  eapply (proj1 (paid_worker_not_due_again morning_env (start only_alice)
                   (Date 2024 1 31) eq_refl ltac:(vm_compute; discriminate))
            1 _ alice).
  - vm_compute. reflexivity.
  - reflexivity.
Defined.

(** The rows the loop of the daily check adds are pending rows of the
    workers of the list, stamped with clock reads of the loop. *)
Lemma sweep_loop_created (env : Env) (today : date) (l : list (Z * Worker.t)) :
  forall tk se db cs,
  exists new,
    for_each l (PaymentScheduler.open_if_none env today) (Build_State tk se db cs) =
      (Return tt,
       Build_State (tk + length new)%nat
         (set_payment_history (payment_history se ++ new) se) db cs) /\
    Forall2 (fun kw p =>
               PaymentHistory.worker_id p = fst kw /\
               PaymentHistory.status p = "pending" /\
               exists k, (tk <= k)%nat /\
                         PaymentHistory.created_at p = utcnow_at env k)
      (List.filter (PaymentScheduler.no_existing today (payment_history db)) l) new.
Proof.
  induction l as [|kw rest IH]; intros tk se db cs.
  - exists []. split; [|constructor].
    cbn [for_each]. unfold ret. rewrite app_nil_r, Nat.add_0_r.
    destruct se; reflexivity.
  - rewrite for_each_cons, open_if_none_run. cbn [List.filter].
    destruct (PaymentScheduler.no_existing today (payment_history db) kw) eqn:Hex.
    + edestruct IH as (new & Hrun & Hnew). rewrite Hrun.
      eexists (_ :: new). split.
      * cbn [length]. rewrite Nat.add_succ_r. simpl.
        rewrite <- app_assoc. reflexivity.
      * constructor.
        -- cbn. split; [reflexivity|]. split; [reflexivity|]. exists tk. auto.
        -- eapply Forall2_impl; [exact Hnew|].
           intros kw' p (Hw & Hs & k & Hk & Hc). repeat split; try assumption.
           exists k. split; [lia|exact Hc].
    + apply IH.
Qed.

Lemma check_pending_payments_created (env : Env) (s : State) :
  exists new,
    let t' :=
      set_payment_history (payment_history (database s) ++ new) (database s) in
    PaymentScheduler.check_pending_payments env s =
      (Return tt, Build_State (S (tick s) + length new)%nat t' t' (calls s)) /\
    Forall2 (fun kw p =>
               PaymentHistory.worker_id p = fst kw /\
               PaymentHistory.status p = "pending" /\
               exists k, (tick s < k)%nat /\
                         PaymentHistory.created_at p = utcnow_at env k)
      (PaymentScheduler.list_due (dt_date (now_at env (tick s))) (database s)) new.
Proof.
  destruct s as [tk se db cs]. cbn [tick database calls].
  destruct (sweep_loop_created env (dt_date (now_at env tk))
              (PaymentScheduler.workers_due (dt_date (now_at env tk)) db) (S tk) db db cs)
    as (new & Hrun & Hnew).
  exists new. split.
  - unfold PaymentScheduler.check_pending_payments. run_eff. rewrite Hrun. reflexivity.
  - eapply Forall2_impl; [exact Hnew|].
    intros kw' p (Hw & Hs & k & Hk & Hc). repeat split; try assumption.
    exists k. split; [lia|exact Hc].
Qed.

Lemma Forall2_In_l {A B} (R : A -> B -> Prop) (l : list A) (l' : list B) (x : A) :
  Forall2 R l l' -> In x l -> exists y, In y l' /\ R x y.
Proof.
  induction 1 as [|a b l l' Hab _ IH]; intros Hin; [destruct Hin|].
  destruct Hin as [->|Hin].
  - exists b. split; [left; reflexivity|exact Hab].
  - destruct (IH Hin) as (y & Hy & Hr). exists y. split; [right; exact Hy|exact Hr].
Qed.

Lemma filter_none {A} (f : A -> bool) (l : list A) :
  (forall x, In x l -> f x = false) -> List.filter f l = [].
Proof.
  induction l as [|a l IH]; intros Hall; [reflexivity|].
  cbn [List.filter]. rewrite (Hall a (or_introl eq_refl)).
  apply IH. intros x Hx. apply Hall. right. exact Hx.
Qed.

(** X5.  A second daily check on the same local day writes nothing,
    provided no UTC clock read after the start of the first run lies
    before the first instant of that local day: every due worker then has
    a pending row of today. *)
Theorem daily_check_again_opens_nothing (env : Env) (s : State) :
  let s1 := snd (PaymentScheduler.check_pending_payments env s) in
  let s2 := snd (PaymentScheduler.check_pending_payments env s1) in
  let today := dt_date (now_at env (tick s)) in
  dt_date (now_at env (tick s1)) = today ->
  (forall k, (tick s < k)%nat ->
             datetime_leb (combine today min_time) (utcnow_at env k) = true) ->
  database s2 = database s1.
Proof.
  intros s1 s2 today Hday Hclock.
  destruct (check_pending_payments_created env s) as (new & Hrun & Hnew).
  destruct (check_pending_payments_run env s1) as (new2 & Hrun2 & Hnew2).
  cbv zeta in Hrun, Hrun2. fold today in Hnew. rewrite Hday in Hnew2.
  assert (Hs1 : database s1 =
                set_payment_history (payment_history (database s) ++ new) (database s)).
  { subst s1. rewrite Hrun. reflexivity. }
  assert (Hdue : PaymentScheduler.list_due today (database s1) = []).
  { unfold PaymentScheduler.list_due.
    apply filter_none. intros kw Hin.
    destruct (PaymentScheduler.no_existing today (payment_history (database s1)) kw)
      eqn:Hno; [exfalso|reflexivity].
    pose proof (proj1 (no_existing_spec _ _ _) Hno) as Hnone.
    rewrite Hs1 in Hin, Hnone.
    assert (Hin0 : In kw (PaymentScheduler.workers_due today (database s))).
    { destruct (database s); exact Hin. }
    assert (Hrows : payment_history
                      (set_payment_history (payment_history (database s) ++ new)
                         (database s))
                    = payment_history (database s) ++ new) by reflexivity.
    rewrite Hrows in Hnone.
    destruct (PaymentScheduler.no_existing today (payment_history (database s)) kw)
      eqn:Hno0.
    - assert (Hlist : In kw (PaymentScheduler.list_due today (database s))).
      { unfold PaymentScheduler.list_due. apply List.filter_In. auto. }
      destruct (Forall2_In_l _ _ _ kw Hnew Hlist) as (p & Hp & Hw & Hst & k & Hk & Hc).
      apply (Hnone p); [apply in_or_app; right; exact Hp|].
      split; [exact Hw|]. split; [exact Hst|].
      rewrite Hc. apply Hclock, Hk.
    - unfold PaymentScheduler.no_existing in Hno0.
      destruct (PaymentScheduler.existing_payment today (fst kw)
                  (payment_history (database s))) as [p|] eqn:Hfind; [|discriminate].
      unfold PaymentScheduler.existing_payment in Hfind.
      apply List.find_some in Hfind as [Hp Hq].
      rewrite !andb_true_iff in Hq. destruct Hq as [[Hw Hst] Hc].
      apply (Hnone p); [apply in_or_app; left; exact Hp|].
      split; [now apply Z.eqb_eq|]. split; [now apply String.eqb_eq|exact Hc]. }
  rewrite Hdue in Hnew2. inversion Hnew2; subst new2.
  subst s2. rewrite Hrun2. cbn [snd database].
  rewrite app_nil_r. destruct (database s1); reflexivity.
Qed.

(** X5, witness.  The morning setting: the first run opens Alice's row, the
    second changes nothing. *)
Lemma daily_check_again_opens_nothing_witness :
  let s1 := snd (PaymentScheduler.check_pending_payments morning_env (start only_alice)) in
  map PaymentHistory.status (payment_history (database s1)) = ["pending"] /\
  database (snd (PaymentScheduler.check_pending_payments morning_env s1)) = database s1.
Proof.
  split; [vm_compute; reflexivity|].
  apply (daily_check_again_opens_nothing morning_env (start only_alice)).
  - reflexivity.
  - intros k _.
    change (datetime_leb (DateTime (Date 2024 1 31) 0)
              (DateTime (Date 2024 1 31) (28800000000 + Z.of_nat k)) = true).
    unfold datetime_leb, datetime_compare. cbn [dt_date dt_time].
    change (date_compare (Date 2024 1 31) (Date 2024 1 31)) with Eq. cbv iota.
    destruct (Z.compare_spec 0 (28800000000 + Z.of_nat k)); [reflexivity|reflexivity|lia].
Defined.

(** ** Outcomes of a manual payment *)

Lemma check_balance_run (env : Env) (amount : float) (s : State) :
  PaymentRoutes.check_balance env amount s =
  (match balance_reply env (calls s) with
   | RequestException e =>
       Raise (HTTPException 503 ("Paystack API error: " +:+ e))
   | Json bd =>
       if balance_status bd && balance_has_data bd then
         match balance_first bd with
         | inl _ => Return tt
         | inr balance =>
             if PrimFloat.ltb (PrimFloat.div balance 100%float) amount then
               Raise (HTTPException 400
                        ("Insufficient balance. Available: "
                         +:+ format_2f env (PrimFloat.div balance 100%float)
                         +:+ ", Required: " +:+ format_2f env amount))
             else Return tt
         end
       else Return tt
   end,
   set_calls (calls s ++ [GetBalance]) s).
Proof.
  destruct s as [tk se db cs].
  unfold PaymentRoutes.check_balance, PaystackBalance.get_balance. run_eff.
  destruct (balance_reply env cs) as [e|bd]; run_eff; [reflexivity|].
  destruct (balance_status bd); run_eff; [|reflexivity].
  destruct (balance_has_data bd); run_eff; [|reflexivity].
  destruct (balance_first bd) as [e|b]; run_eff; [reflexivity|].
  destruct (PrimFloat.ltb _ amount); run_eff; reflexivity.
Qed.

(** A request for a worker who is missing or inactive, or for an amount
    that is not positive, is refused before anything is sent or written;
    so is one whose worker id is no SQLite integer, with the
    [OverflowError] of the query. *)
Lemma process_payment_refused (env : Env) (req : PaymentProcessRequest.t)
    (user : Z) (s : State) :
  let wid := PaymentProcessRequest.worker_id req in
  PaymentRoutes.process_payment env req user s =
  match workers (database s) !! wid with
  | None =>
      (if sqlite_integer wid
       then Raise (HTTPException 404 "Worker not found")
       else Raise (PyException "Python int too large to convert to SQLite INTEGER"),
       set_session (database s) s)
  | Some w =>
      if negb (Worker.is_active w) then
        (Raise (HTTPException 400 "Worker is not active"), set_session (database s) s)
      else if PrimFloat.leb (PaymentRoutes.requested_amount req w) 0%float then
        (Raise (HTTPException 400 "Amount must be positive"),
         set_session (database s) s)
      else
        let amount := PaymentRoutes.requested_amount req w in
        let s0 := set_session (database s) s in
        match PaymentRoutes.check_balance env amount s0 with
        | (Raise e, s1) => (Raise e, s1)
        | (Return _, s1) =>
            let r := PaymentRoutes.record_and_transfer env user wid w amount s1 in
            (fst r, set_session (database (snd r)) (snd r))
        end
  end.
Proof.
  destruct s as [tk se [ws rows logs] cs]. destruct req as [wid amt].
  cbv zeta. unfold PaymentRoutes.process_payment. run_eff.
  cbn [PaymentProcessRequest.worker_id].
  destruct (ws !! wid) as [w|] eqn:Hw; run_eff;
    [|destruct (sqlite_integer wid); reflexivity].
  destruct (Worker.is_active w) eqn:Ha; run_eff; [|reflexivity].
  destruct (PrimFloat.leb _ 0%float) eqn:Hpos; run_eff; [reflexivity|].
  set (amount := PaymentRoutes.requested_amount _ w) in *.
  rewrite !check_balance_run. cbn [calls].
  destruct (match balance_reply env cs with RequestException _ => _ | Json _ => _ end)
    as [[]|e]; run_eff; [|reflexivity].
  destruct (PaymentRoutes.record_and_transfer env user wid w amount _) as [o [tk1 se1 db1 cs1]].
  reflexivity.
Qed.

Ltac closes_failed_503 :=
  do 4 eexists;
  split; [rewrite ?alter_snoc; reflexivity|];
  split; [symmetry; apply app_nil_r|];
  split; [rewrite <- ?app_assoc; reflexivity|];
  split; [unfold pipeline_requests; eauto 12|];
  split; [reflexivity|];
  split; [repeat split|];
  left; repeat split.

Ltac closes_failed_500 :=
  do 4 eexists;
  split; [rewrite ?alter_snoc; reflexivity|];
  split; [reflexivity|];
  split; [rewrite <- ?app_assoc; reflexivity|];
  split; [unfold pipeline_requests; eauto 12|];
  split; [reflexivity|];
  split; [repeat split|];
  right; eexists; split; [reflexivity|];
  split; [reflexivity|]; split; [reflexivity|];
  left; reflexivity.

(** A NaN cannot be stored as an amount: the insert raises and nothing is
    committed. *)
Lemma record_and_transfer_nan (env : Env) (user wid : Z) (w : Worker.t)
    (amount : float) (s : State) :
  is_nan amount = true ->
  let r := PaymentRoutes.record_and_transfer env user wid w amount s in
  (exists text, fst r = Raise (PyException text)) /\
  database (snd r) = database s /\
  calls (snd r) = calls s.
Proof.
  intros Hnan. cbv zeta. destruct s as [tk se db cs].
  unfold PaymentRoutes.record_and_transfer. run_eff. rewrite Hnan. run_eff.
  eauto.
Qed.

Lemma record_and_transfer_run (env : Env) (user wid : Z) (w : Worker.t)
    (amount : float) (tk : nat) (ws : gmap Z Worker.t)
    (rows : list PaymentHistory.t) (logs : list AuditLog.t)
    (cs : list ProviderCall) :
  ws !! wid = Some w ->
  is_nan amount = false ->
  let t := Build_Tables ws rows logs in
  let s := Build_State tk t t cs in
  let r := PaymentRoutes.record_and_transfer env user wid w amount s in
  exists row entries sent ok,
    payment_history (database (snd r)) = rows ++ [row] /\
    audit_logs (database (snd r)) = logs ++ entries /\
    calls (snd r) = cs ++ sent /\
    pipeline_requests env cs (Worker.name w) (Worker.account_number w)
      (Worker.bank_code w) amount ("Salary payment for " +:+ Worker.name w)
      ok sent /\
    match fst r with
    | Return resp =>
        ok = true /\
        exists reference code next,
          row = PaymentHistory.Make (next_id rows) wid (numeric_2 amount)
                  "success" reference code (Some user)
                  (Some (utcnow_at env (tk + 1)%nat)) (db_now_at env tk) /\
          resp = PaymentHistoryResponse.Make (next_id rows) wid (Worker.name w)
                   amount "success" reference code
                   (Some (utcnow_at env (tk + 1)%nat)) (db_now_at env tk) /\
          entries = [processed_audit env user w amount reference] /\
          calculate_next_payment_date_from (dt_date (now_at env (tk + 3)%nat))
            (Worker.payment_frequency w) = Some next /\
          workers (database (snd r)) =
            alter (Worker.set_next_payment_date (Some next)) wid
              (alter (Worker.set_last_paid (Some (utcnow_at env (tk + 2)%nat)))
                 wid ws)
    | Raise (HTTPException code detail) =>
        PaymentHistory.status row = "failed" /\
        same_payment row (manual_row env s user wid amount) /\
        ((code = 503 /\ entries = [] /\ workers (database (snd r)) = ws) \/
         exists text,
           code = 500 /\
           detail = "Payment processing failed: " +:+ text /\
           entries = [failed_audit user w text] /\
           (workers (database (snd r)) = ws \/
            (length sent = 2%nat /\
             calculate_next_payment_date_from (dt_date (now_at env (tk + 3)%nat))
               (Worker.payment_frequency w) = None /\
             PaymentHistory.paid_at row = Some (utcnow_at env (tk + 1)%nat) /\
             workers (database (snd r)) =
               alter (Worker.set_last_paid (Some (utcnow_at env (tk + 2)%nat)))
                 wid ws)))
    | Raise (PyException _) => False
    end.
Proof.
  intros Hw Hnan. cbv zeta.
  unfold manual_row, same_payment, processed_audit, failed_audit.
  cbn [database payment_history tick].
  unfold PaymentRoutes.record_and_transfer, PaymentRoutes.transfer_and_close,
    PaystackBalance.create_transfer_recipient,
    PaystackBalance.initiate_transfer, PaymentRoutes.create_audit_log.
  run_eff. rewrite Hnan. run_eff.
  destruct (recipient_reply env cs _ _ _) as [e|rd] eqn:Hr; run_eff;
    [closes_failed_503|].
  destruct (recipient_status rd) eqn:Hrs; run_eff; [|closes_failed_500].
  destruct (recipient_code rd) as [e|code] eqn:Hrc; run_eff; [closes_failed_500|].
  destruct (float_to_int _) as [e|kobo] eqn:Hk; run_eff; [closes_failed_500|].
  destruct (transfer_reply env _ code kobo _) as [e|td] eqn:Ht; run_eff;
    [closes_failed_503|].
  destruct (transfer_status td) eqn:Hts; run_eff; [|closes_failed_500].
  destruct (transfer_reference td) as [e|reference] eqn:Href; run_eff;
    [closes_failed_500|].
  destruct (transfer_code td) as [e|tcode] eqn:Hcode; run_eff; [closes_failed_500|].
  unfold calculate_next_payment_date. run_eff.
  replace (S (S (S tk))) with (tk + 3)%nat by lia.
  destruct (calculate_next_payment_date_from _ _) as [next|] eqn:Hnext; run_eff.
  - do 3 eexists. exists true.
    split; [rewrite ?alter_snoc; reflexivity|].
    split; [reflexivity|].
    split; [rewrite <- ?app_assoc; reflexivity|].
    split; [unfold pipeline_requests; eauto 12|].
    split; [reflexivity|].
    exists reference, tcode, next.
    replace (tk + 1)%nat with (S tk) by lia.
    replace (tk + 2)%nat with (S (S tk)) by lia.
    repeat split.
  - do 4 eexists.
    split; [rewrite ?alter_snoc; reflexivity|].
    split; [reflexivity|].
    split; [rewrite <- ?app_assoc; reflexivity|].
    split; [unfold pipeline_requests; eauto 12|].
    split; [reflexivity|].
    split; [repeat split|].
    right; eexists; split; [reflexivity|].
    split; [reflexivity|]. split; [reflexivity|].
    right. 
    replace (tk + 1)%nat with (S tk) by lia.
    replace (tk + 2)%nat with (S (S tk)) by lia.
    repeat split.
Unshelve. all: exact false.
Qed.

(** The ways a manual payment ends: refused at admission, refused by the
    balance check, or passed on to the recording of the payment. *)
Lemma process_payment_run (env : Env) (req : PaymentProcessRequest.t)
    (user : Z) (s : State) :
  let wid := PaymentProcessRequest.worker_id req in
  let r := PaymentRoutes.process_payment env req user s in
  (snd r = set_session (database s) s /\
   ((workers (database s) !! wid = None /\
     fst r = (if sqlite_integer wid
              then Raise (HTTPException 404 "Worker not found")
              else Raise (PyException
                            "Python int too large to convert to SQLite INTEGER"))) \/
    (exists w, workers (database s) !! wid = Some w /\
               Worker.is_active w = false /\
               fst r = Raise (HTTPException 400 "Worker is not active")) \/
    (exists w, workers (database s) !! wid = Some w /\
               Worker.is_active w = true /\
               PrimFloat.leb (PaymentRoutes.requested_amount req w) 0%float = true /\
               fst r = Raise (HTTPException 400 "Amount must be positive")))) \/
  (exists w,
     workers (database s) !! wid = Some w /\ Worker.is_active w = true /\
     PrimFloat.leb (PaymentRoutes.requested_amount req w) 0%float = false /\
     let amount := PaymentRoutes.requested_amount req w in
     let s0 := set_session (database s) s in
     ((exists e, PaymentRoutes.check_balance env amount s0
                 = (Raise e, set_calls (calls s ++ [GetBalance]) s0) /\
                 r = (Raise e, set_calls (calls s ++ [GetBalance]) s0)) \/
      (PaymentRoutes.check_balance env amount s0
       = (Return tt, set_calls (calls s ++ [GetBalance]) s0) /\
       let r1 := PaymentRoutes.record_and_transfer env user wid w amount
                   (set_calls (calls s ++ [GetBalance]) s0) in
       r = (fst r1, set_session (database (snd r1)) (snd r1))))).
Proof.
  cbv zeta. rewrite process_payment_refused. cbv zeta.
  destruct (workers (database s) !! _) as [w|] eqn:Hw; [|left; auto].
  destruct (Worker.is_active w) eqn:Ha; cbn [negb]; [|left; eauto 8].
  destruct (PrimFloat.leb _ 0%float) eqn:Hpos; [left; eauto 10|].
  right. exists w. split; [reflexivity|]. split; [exact Ha|]. split; [exact Hpos|].
  rewrite check_balance_run.
  destruct (match balance_reply env _ with RequestException _ => _ | Json _ => _ end)
    as [[]|e]; [right|left; eauto].
  split; reflexivity.
Qed.

(** What the balance check can raise. *)
Lemma check_balance_raises (env : Env) (amount : float) (s : State)
    (e : exn) (s1 : State) :
  PaymentRoutes.check_balance env amount s = (Raise e, s1) ->
  exists code detail, e = HTTPException code detail /\ (code = 503 \/ code = 400).
Proof.
  rewrite check_balance_run.
  destruct (balance_reply env (calls s)) as [text|bd].
  - intros [= <- _]. eauto.
  - destruct (balance_status bd && balance_has_data bd); [|discriminate].
    destruct (balance_first bd) as [?|b]; [discriminate|].
    destruct (PrimFloat.ltb _ amount); [|discriminate].
    intros [= <- _]. eauto.
Qed.

(** The recorded case, with the facts of [record_and_transfer_run] read on
    the state the request started from. *)
Lemma process_payment_recorded (env : Env) (req : PaymentProcessRequest.t)
    (user : Z) (s : State) (w : Worker.t) :
  let wid := PaymentProcessRequest.worker_id req in
  let amount := PaymentRoutes.requested_amount req w in
  let s0 := set_calls (calls s ++ [GetBalance]) (set_session (database s) s) in
  let r1 := PaymentRoutes.record_and_transfer env user wid w amount s0 in
  let r := (fst r1, set_session (database (snd r1)) (snd r1)) in
  workers (database s) !! wid = Some w ->
  is_nan amount = false ->
  exists row entries sent ok,
    payment_history (database (snd r)) = payment_history (database s) ++ [row] /\
    audit_logs (database (snd r)) = audit_logs (database s) ++ entries /\
    calls (snd r) = calls s ++ GetBalance :: sent /\
    pipeline_requests env (calls s ++ [GetBalance]) (Worker.name w)
      (Worker.account_number w) (Worker.bank_code w) amount
      ("Salary payment for " +:+ Worker.name w) ok sent /\
    match fst r with
    | Return resp =>
        ok = true /\
        exists reference code next,
          row = PaymentHistory.Make (next_id (payment_history (database s))) wid
                  (numeric_2 amount) "success" reference code (Some user)
                  (Some (utcnow_at env (tick s + 1)%nat)) (db_now_at env (tick s)) /\
          resp = PaymentHistoryResponse.Make
                   (next_id (payment_history (database s))) wid (Worker.name w)
                   amount "success" reference code
                   (Some (utcnow_at env (tick s + 1)%nat)) (db_now_at env (tick s)) /\
          entries = [processed_audit env user w amount reference] /\
          calculate_next_payment_date_from
            (dt_date (now_at env (tick s + 3)%nat))
            (Worker.payment_frequency w) = Some next /\
          workers (database (snd r)) =
            alter (Worker.set_next_payment_date (Some next)) wid
              (alter (Worker.set_last_paid (Some (utcnow_at env (tick s + 2)%nat)))
                 wid (workers (database s)))
    | Raise (HTTPException code detail) =>
        PaymentHistory.status row = "failed" /\
        same_payment row (manual_row env s user wid amount) /\
        ((code = 503 /\ entries = [] /\
          workers (database (snd r)) = workers (database s)) \/
         exists text,
           code = 500 /\
           detail = "Payment processing failed: " +:+ text /\
           entries = [failed_audit user w text] /\
           (workers (database (snd r)) = workers (database s) \/
            (length sent = 2%nat /\
             calculate_next_payment_date_from
               (dt_date (now_at env (tick s + 3)%nat))
               (Worker.payment_frequency w) = None /\
             PaymentHistory.paid_at row = Some (utcnow_at env (tick s + 1)%nat) /\
             workers (database (snd r)) =
               alter (Worker.set_last_paid (Some (utcnow_at env (tick s + 2)%nat)))
                 wid (workers (database s)))))
    | Raise (PyException _) => False
    end.
Proof.
  destruct s as [tk se [ws rows logs] cs]. cbv zeta.
  cbn [database workers calls tick payment_history audit_logs
       set_calls set_session session]. intros Hw Hnan.
  pose proof (record_and_transfer_run env user
                (PaymentProcessRequest.worker_id req) w
                (PaymentRoutes.requested_amount req w) tk ws rows logs
                (cs ++ [GetBalance]) Hw Hnan) as Hrun.
  cbv zeta in Hrun.
  destruct Hrun as (row & entries & sent & ok & Hrows & Hlogs & Hcalls & Hsent & Hout).
  exists row, entries, sent, ok.
  destruct (PaymentRoutes.record_and_transfer env user _ w _ _)
    as [o [tk1 se1 db1 cs1]].
  cbn [fst snd database calls set_session] in *.
  split; [exact Hrows|]. split; [exact Hlogs|].
  split; [rewrite Hcalls, <- app_assoc; reflexivity|].
  split; [exact Hsent|]. exact Hout.
Qed.

(** The same for an amount that is a NaN: the insert raises, and what the
    request leaves is the balance request. *)
Lemma process_payment_nan (env : Env) (req : PaymentProcessRequest.t)
    (user : Z) (s : State) (w : Worker.t) :
  let wid := PaymentProcessRequest.worker_id req in
  let amount := PaymentRoutes.requested_amount req w in
  let s0 := set_calls (calls s ++ [GetBalance]) (set_session (database s) s) in
  let r1 := PaymentRoutes.record_and_transfer env user wid w amount s0 in
  let r := (fst r1, set_session (database (snd r1)) (snd r1)) in
  is_nan amount = true ->
  (exists text, fst r = Raise (PyException text)) /\
  database (snd r) = database s /\
  calls (snd r) = calls s ++ [GetBalance].
Proof.
  cbv zeta. intros Hnan.
  destruct (record_and_transfer_nan env user (PaymentProcessRequest.worker_id req)
              w _ (set_calls (calls s ++ [GetBalance]) (set_session (database s) s))
              Hnan) as (Hraise & Hdb & Hcalls).
  cbv zeta in *.
  destruct (PaymentRoutes.record_and_transfer env user _ w _ _)
    as [o [tk1 se1 db1 cs1]].
  destruct s as [tk se db cs]. cbn [fst snd database calls set_session set_calls] in *.
  auto.
Qed.

(** X10.  How [process_payment] ends.  It returns only with a row added
    and closed as success.  An [HTTPException] has status 404 or 400, and
    the database is as it was; or status 500, and a row is added as
    failed; or status 503, and the database is as it was or a row is added
    as failed.  Any other exception leaves the database as it was and
    comes from one of two places: the worker query, for a worker id that
    is no SQLite integer, before anything is sent; or the insert of the
    payment row, for an active worker and an amount that is a NaN, after
    the balance request.  A worker id that is no SQLite integer always
    ends in such an exception. *)
Theorem manual_payment_outcomes (env : Env)
    (req : PaymentProcessRequest.t) (user : Z) (s : State) :
  let wid := PaymentProcessRequest.worker_id req in
  let r := PaymentRoutes.process_payment env req user s in
  let s' := snd r in
  match fst r with
  | Return resp =>
      exists row, added_row s s' row /\ PaymentHistory.status row = "success"
  | Raise (HTTPException code detail) =>
      ((code = 404 \/ code = 400) /\ database s' = database s) \/
      (code = 503 /\
       (database s' = database s \/
        exists row, added_row s s' row /\ PaymentHistory.status row = "failed")) \/
      (code = 500 /\
       exists row, added_row s s' row /\ PaymentHistory.status row = "failed")
  | Raise (PyException _) =>
      database s' = database s /\
      ((workers (database s) !! wid = None /\ sqlite_integer wid = false /\
        calls s' = calls s) \/
       (exists w,
          workers (database s) !! wid = Some w /\ Worker.is_active w = true /\
          is_nan (PaymentRoutes.requested_amount req w) = true /\
          calls s' = calls s ++ [GetBalance]))
  end /\
  (workers (database s) !! wid = None -> sqlite_integer wid = false ->
   exists text, fst r = Raise (PyException text)).
Proof.
  cbv zeta.
  destruct (process_payment_run env req user s) as [[Hs Hcase]|Hrec]; cbv zeta in *.
  - rewrite Hs.
    destruct Hcase as [[Hnone ->]|[(w & Hw & _ & ->)|(w & Hw & _ & _ & ->)]].
    + destruct (sqlite_integer (PaymentProcessRequest.worker_id req)) eqn:Hint.
      * split; [|discriminate].
        left. split; [auto|destruct s; reflexivity].
      * split; [|eauto]. split; [destruct s; reflexivity|].
        left. split; [exact Hnone|]. split; [reflexivity|destruct s; reflexivity].
    + split; [|congruence]. left. split; [auto|destruct s; reflexivity].
    + split; [|congruence]. left. split; [auto|destruct s; reflexivity].
  - destruct Hrec as (w & Hw & Ha & Hpos & [(e & Hcb & ->)|[Hcb ->]]);
      (split; [|congruence]).
    + destruct (check_balance_raises _ _ _ _ _ Hcb) as (code & detail & -> & Hcode).
      cbn [fst snd].
      destruct Hcode as [->| ->].
      * right; left. split; [reflexivity|]. left. destruct s; reflexivity.
      * left. split; [auto|destruct s; reflexivity].
    + destruct (is_nan (PaymentRoutes.requested_amount req w)) eqn:Hnan.
      * destruct (process_payment_nan env req user s w Hnan)
          as ((text & Hraise) & Hdb & Hcalls).
        cbv zeta in *. cbn [fst snd] in *. rewrite Hraise.
        split; [exact Hdb|]. right. exists w. auto.
      * destruct (process_payment_recorded env req user s w Hw Hnan)
          as (row & entries & sent & ok & Hrows & Hlogs & Hcalls & Hsent & Hout).
        cbv zeta in *. unfold added_row.
        destruct (fst (PaymentRoutes.record_and_transfer env user _ w _ _))
          as [resp|[code detail|text]]; cbn [fst snd] in *.
        -- destruct Hout as (_ & reference & tcode & next & -> & _).
           eexists. split; [exact Hrows|reflexivity].
        -- destruct Hout as (Hst & _ & [(-> & _)|(text & -> & _)]).
           ++ right; left. split; [reflexivity|]. right. eauto.
           ++ right; right. split; [reflexivity|]. eauto.
        -- destruct Hout.
Qed.

(** X11.  The response of [process_payment] describes the row it has
    committed: same id, worker, status, references, payment time and
    creation time, approved by the current user; the worker exists, the
    name is the worker's and the status is success.  The amount of the
    response is the requested amount as a float; the amount of the row is
    what the [Numeric(10, 2)] column yields for that float, the amount
    rounded to two places. *)
Theorem manual_response_matches_row (env : Env)
    (req : PaymentProcessRequest.t) (user : Z) (s : State)
    (resp : PaymentHistoryResponse.t) :
  let r := PaymentRoutes.process_payment env req user s in
  fst r = Return resp ->
  exists w,
    workers (database s) !! PaymentProcessRequest.worker_id req = Some w /\
    PaymentHistoryResponse.worker_id resp = PaymentProcessRequest.worker_id req /\
    PaymentHistoryResponse.worker_name resp = Worker.name w /\
    PaymentHistoryResponse.amount resp = PaymentRoutes.requested_amount req w /\
    PaymentHistoryResponse.status resp = "success" /\
    added_row s (snd r)
      (PaymentHistory.Make
         (PaymentHistoryResponse.id resp)
         (PaymentHistoryResponse.worker_id resp)
         (numeric_2 (PaymentHistoryResponse.amount resp))
         (PaymentHistoryResponse.status resp)
         (PaymentHistoryResponse.transaction_reference resp)
         (PaymentHistoryResponse.paystack_reference resp)
         (Some user)
         (PaymentHistoryResponse.paid_at resp)
         (PaymentHistoryResponse.created_at resp)).
Proof.
  cbv zeta. intros Hret.
  destruct (process_payment_run env req user s) as [[Hs Hcase]|Hrec]; cbv zeta in *.
  - destruct Hcase as [[_ H]|[(w & _ & _ & H)|(w & _ & _ & _ & H)]];
      rewrite H in Hret; try discriminate.
    destruct (sqlite_integer _); discriminate.
  - destruct Hrec as (w & Hw & Ha & Hpos & [(e & Hcb & Hr)|[Hcb Hr]]).
    + rewrite Hr in Hret. discriminate.
    + destruct (is_nan (PaymentRoutes.requested_amount req w)) eqn:Hnan.
      { destruct (process_payment_nan env req user s w Hnan)
          as ((text & Hraise) & _).
        cbv zeta in *. rewrite Hr in Hret. cbn [fst] in *. congruence. }
      destruct (process_payment_recorded env req user s w Hw Hnan)
        as (row & entries & sent & ok & Hrows & Hlogs & Hcalls & Hsent & Hout).
      cbv zeta in *. rewrite Hr in Hret |- *. cbn [fst snd] in *.
      rewrite Hret in Hout.
      destruct Hout as (_ & reference & tcode & next & -> & -> & _).
      exists w. cbn. unfold added_row. auto 10.
Qed.

(** X11, witness.  User 7 pays Alice 20.125 in the morning setting: the
    response says 20.125 and the row 20.12. *)
Lemma manual_response_matches_row_witness :
  let r := PaymentRoutes.process_payment morning_env
             (PaymentProcessRequest.Make 1 (Some 20.125%float)) 7
             (start only_alice) in
  map PaymentHistory.amount (payment_history (database (snd r)))
    = [AmountDecimal 2012] /\
  map PaymentHistory.approved_by (payment_history (database (snd r))) = [Some 7].
Proof.
  cbv zeta.
  destruct (manual_response_matches_row morning_env
              (PaymentProcessRequest.Make 1 (Some 20.125%float)) 7
              (start only_alice) _ eq_refl)
    as (w & _ & _ & _ & _ & _ & Hrow).
  unfold added_row in Hrow. rewrite Hrow. split; vm_compute; reflexivity.
Defined.

(** X12.  A manual payment appends to the audit log: one entry
    "payment_processed" by the current user, with the amount and the
    reference of the response, when it returns; one entry "payment_failed"
    with the text that the detail of the error carries, when it raises
    status 500; and nothing when it raises any other status. *)
Theorem manual_payment_audit_trail (env : Env)
    (req : PaymentProcessRequest.t) (user : Z) (s : State) :
  let r := PaymentRoutes.process_payment env req user s in
  exists entries,
    audit_logs (database (snd r)) = audit_logs (database s) ++ entries /\
    match fst r with
    | Return resp =>
        exists w,
          workers (database s) !! PaymentProcessRequest.worker_id req = Some w /\
          entries = [processed_audit env user w
                       (PaymentHistoryResponse.amount resp)
                       (PaymentHistoryResponse.transaction_reference resp)]
    | Raise (HTTPException code detail) =>
        if code =? 500 then
          exists w text,
            workers (database s) !! PaymentProcessRequest.worker_id req = Some w /\
            detail = "Payment processing failed: " +:+ text /\
            entries = [failed_audit user w text]
        else entries = []
    | Raise (PyException _) => True
    end.
Proof.
  cbv zeta.
  destruct (process_payment_run env req user s) as [[Hs Hcase]|Hrec]; cbv zeta in *.
  - exists []. rewrite Hs, app_nil_r. split; [destruct s; reflexivity|].
    destruct Hcase as [[_ ->]|[(w & _ & _ & ->)|(w & _ & _ & _ & ->)]];
      try reflexivity.
    destruct (sqlite_integer _); reflexivity.
  - destruct Hrec as (w & Hw & Ha & Hpos & [(e & Hcb & ->)|[Hcb ->]]).
    + exists []. rewrite app_nil_r. split; [destruct s; reflexivity|].
      destruct (check_balance_raises _ _ _ _ _ Hcb) as (code & detail & -> & Hcode).
      cbn [fst]. destruct Hcode as [->| ->]; reflexivity.
    + destruct (is_nan (PaymentRoutes.requested_amount req w)) eqn:Hnan.
      { destruct (process_payment_nan env req user s w Hnan)
          as ((text & Hraise) & Hdb & _).
        cbv zeta in *. cbn [fst snd] in *. exists [].
        rewrite Hdb, app_nil_r, Hraise. auto. }
      destruct (process_payment_recorded env req user s w Hw Hnan)
        as (row & entries & sent & ok & Hrows & Hlogs & Hcalls & Hsent & Hout).
      cbv zeta in *. exists entries. split; [exact Hlogs|].
      destruct (fst (PaymentRoutes.record_and_transfer env user _ w _ _))
        as [resp|[code detail|text]]; cbn [fst snd] in *.
      * destruct Hout as (_ & reference & tcode & next & _ & -> & -> & _).
        exists w. split; [exact Hw|reflexivity].
      * destruct Hout as (_ & _ & [(-> & -> & _)|(text & -> & -> & -> & _)]).
        -- reflexivity.
        -- exists w, text. auto.
      * exact I.
Qed.

(** X13.  The requests of a manual payment.  A request refused for the
    worker or the amount sends nothing, writes nothing and returns
    nothing.  Any other request first asks for the balance.  It then stops
    with nothing written, on an [HTTPException] of status 503 or 400 from
    the balance check or, for an amount that is a NaN, on the exception of
    the insert; or, for an amount that is a number, it runs one transfer
    pipeline for the requested amount under the reason "Salary payment for
    <name>": the recipient request alone, and then no response is
    returned, or the recipient request followed by one transfer request
    for [int(amount * 100)] kobo. *)
Theorem manual_payment_requests (env : Env)
    (req : PaymentProcessRequest.t) (user : Z) (s : State) :
  let wid := PaymentProcessRequest.worker_id req in
  let r := PaymentRoutes.process_payment env req user s in
  let returned := match fst r with Return _ => true | Raise _ => false end in
  (calls (snd r) = calls s /\ database (snd r) = database s /\
   returned = false /\
   forall w, workers (database s) !! wid = Some w ->
             Worker.is_active w = false \/
             PrimFloat.leb (PaymentRoutes.requested_amount req w) 0%float = true) \/
  exists w,
    workers (database s) !! wid = Some w /\ Worker.is_active w = true /\
    PrimFloat.leb (PaymentRoutes.requested_amount req w) 0%float = false /\
    ((calls (snd r) = calls s ++ [GetBalance] /\ database (snd r) = database s /\
      ((exists code detail,
          fst r = Raise (HTTPException code detail) /\ (code = 503 \/ code = 400)) \/
       (is_nan (PaymentRoutes.requested_amount req w) = true /\
        exists text, fst r = Raise (PyException text)))) \/
     (is_nan (PaymentRoutes.requested_amount req w) = false /\
      exists sent,
        calls (snd r) = calls s ++ GetBalance :: sent /\
        pipeline_requests env (calls s ++ [GetBalance]) (Worker.name w)
          (Worker.account_number w) (Worker.bank_code w)
          (PaymentRoutes.requested_amount req w)
          ("Salary payment for " +:+ Worker.name w) returned sent)).
Proof.
  cbv zeta.
  destruct (process_payment_run env req user s) as [[Hs Hcase]|Hrec]; cbv zeta in *.
  - left. rewrite Hs. split; [destruct s; reflexivity|].
    split; [destruct s; reflexivity|]. split.
    + destruct Hcase as [[_ ->]|[(w & _ & _ & ->)|(w & _ & _ & _ & ->)]];
        try reflexivity.
      destruct (sqlite_integer _); reflexivity.
    + intros w Hw.
      destruct Hcase as [[Hn _]|[(w' & Hw' & Ha & _)|(w' & Hw' & _ & Hpos & _)]];
        [congruence|left|right]; congruence.
  - right. destruct Hrec as (w & Hw & Ha & Hpos & [(e & Hcb & ->)|[Hcb ->]]);
      exists w; (split; [exact Hw|]); (split; [exact Ha|]); (split; [exact Hpos|]).
    + left.
      destruct (check_balance_raises _ _ _ _ _ Hcb) as (code & detail & -> & Hcode).
      cbn [fst snd]. split; [destruct s; reflexivity|].
      split; [destruct s; reflexivity|eauto 6].
    + destruct (is_nan (PaymentRoutes.requested_amount req w)) eqn:Hnan.
      * left.
        destruct (process_payment_nan env req user s w Hnan)
          as ((text & Hraise) & Hdb & Hcalls).
        cbv zeta in *. cbn [fst snd] in *. eauto 8.
      * right. split; [reflexivity|].
        destruct (process_payment_recorded env req user s w Hw Hnan)
          as (row & entries & sent & ok & Hrows & Hlogs & Hcalls & Hsent & Hout).
        cbv zeta in *. exists sent. split; [exact Hcalls|].
        cbn [fst] in *.
        destruct Hsent as [[-> Hok]|Htwo].
        -- left. split; [reflexivity|].
           destruct (fst (PaymentRoutes.record_and_transfer env user _ w _ _))
             as [resp|e]; [|reflexivity].
           destruct Hout as (Hok' & _). congruence.
        -- right. exact Htwo.
Qed.

(** X15.  A manual payment neither adds nor removes a worker, changes no
    worker other than the one requested, and on that one leaves name, bank
    details, salary, frequency and the active flag as they were.  The table
    of workers is unchanged unless a response is returned, or the date
    computation raises after the transfer: then the request fails with
    status 500 and the row is failed, although the row carries a payment
    time and the worker's [last_paid] has been committed. *)
Theorem manual_payment_keeps_profiles (env : Env)
    (req : PaymentProcessRequest.t) (user : Z) (s : State) :
  let wid := PaymentProcessRequest.worker_id req in
  let r := PaymentRoutes.process_payment env req user s in
  let s' := snd r in
  (forall k, profile <$> workers (database s') !! k
             = profile <$> workers (database s) !! k) /\
  (forall k, k <> wid ->
             workers (database s') !! k = workers (database s) !! k) /\
  (workers (database s') = workers (database s) \/
   (exists resp, fst r = Return resp) \/
   (exists w row detail,
      workers (database s) !! wid = Some w /\
      fst r = Raise (HTTPException 500 detail) /\
      added_row s s' row /\
      PaymentHistory.status row = "failed" /\
      PaymentHistory.paid_at row = Some (utcnow_at env (tick s + 1)%nat) /\
      calculate_next_payment_date_from (dt_date (now_at env (tick s + 3)%nat))
        (Worker.payment_frequency w) = None /\
      workers (database s') =
        alter (Worker.set_last_paid (Some (utcnow_at env (tick s + 2)%nat)))
          wid (workers (database s)))).
Proof.
  cbv zeta.
  destruct (process_payment_run env req user s) as [[Hs Hcase]|Hrec]; cbv zeta in *.
  - rewrite Hs. destruct s as [tk se db cs]. cbn. auto.
  - destruct Hrec as (w & Hw & Ha & Hpos & [(e & Hcb & ->)|[Hcb ->]]).
    + destruct s as [tk se db cs]. cbn. auto.
    + destruct (is_nan (PaymentRoutes.requested_amount req w)) eqn:Hnan.
      { destruct (process_payment_nan env req user s w Hnan) as (_ & Hdb & _).
        cbv zeta in *. cbn [fst snd] in *. rewrite Hdb. auto. }
      destruct (process_payment_recorded env req user s w Hw Hnan)
        as (row & entries & sent & ok & Hrows & Hlogs & Hcalls & Hsent & Hout).
      cbv zeta in *.
      assert (Halter : forall (f g : Worker.t -> Worker.t) (ws' : gmap Z Worker.t),
                (forall x, profile (f x) = profile x) ->
                (forall x, profile (g x) = profile x) ->
                (ws' = alter f (PaymentProcessRequest.worker_id req)
                         (workers (database s)) \/
                 ws' = alter g (PaymentProcessRequest.worker_id req)
                         (alter f (PaymentProcessRequest.worker_id req)
                            (workers (database s)))) ->
                (forall k, profile <$> ws' !! k
                           = profile <$> workers (database s) !! k) /\
                (forall k, k <> PaymentProcessRequest.worker_id req ->
                           ws' !! k = workers (database s) !! k)).
      { intros f g ws' Hf Hg Hws'. split.
        - intros k. destruct (decide (k = PaymentProcessRequest.worker_id req)) as [->|Hk].
          + destruct Hws' as [-> | ->]; rewrite !lookup_alter_eq, Hw; cbn;
              rewrite ?Hg, ?Hf; reflexivity.
          + destruct Hws' as [-> | ->]; rewrite !lookup_alter_ne by congruence;
              reflexivity.
        - intros k Hk.
          destruct Hws' as [-> | ->]; rewrite !lookup_alter_ne by congruence;
            reflexivity. }
      destruct (fst (PaymentRoutes.record_and_transfer env user _ w _ _))
        as [resp|[code detail|text]]; cbn [fst snd] in *.
      * destruct Hout as (_ & reference & tcode & next & _ & _ & _ & _ & Hws).
        pose proof (fun Hf Hg => Halter _ _ _ Hf Hg (or_intror Hws)) as Hkeep.
        destruct Hkeep as [H1 H2]; [reflexivity|reflexivity|].
        split; [exact H1|]. split; [exact H2|]. right; left. eauto.
      * destruct Hout as (Hst & _ & [(-> & _ & Hws)|(text & -> & -> & _ & [Hws|Hq])]).
        -- rewrite Hws. auto.
        -- rewrite Hws. auto.
        -- destruct Hq as (_ & Hnone & Hpaid & Hws).
           pose proof (fun Hf => Halter _ (fun x => x) _ Hf (fun _ => eq_refl)
                                   (or_introl Hws)) as Hkeep.
           destruct Hkeep as [H1 H2]; [reflexivity|].
           split; [exact H1|]. split; [exact H2|]. right; right.
           exists w, row, ("Payment processing failed: " +:+ text).
           unfold added_row. auto 10.
      * destruct Hout.
Qed.

(** X14.  For an active worker and an amount that is not zero or
    negative, the balance check stops the payment in two cases only: the
    balance request fails (status 503) or the reply shows a balance below
    the amount (status 400); in both nothing is written.  In every other
    case (a reply without status or data, a reply whose balance cannot be
    read, a balance that is not below the amount) the payment goes on to be
    recorded: a row is added, for the amount rounded to two places and
    approved by the current user, unless the amount is a NaN, for which
    the insert raises and nothing is written. *)
Theorem balance_check_blocks_only_shortfall_and_outage (env : Env)
    (req : PaymentProcessRequest.t) (user : Z) (s : State) (w : Worker.t) :
  let wid := PaymentProcessRequest.worker_id req in
  let amount := PaymentRoutes.requested_amount req w in
  let r := PaymentRoutes.process_payment env req user s in
  workers (database s) !! wid = Some w ->
  Worker.is_active w = true ->
  PrimFloat.leb amount 0%float = false ->
  match balance_reply env (calls s) with
  | RequestException text =>
      fst r = Raise (HTTPException 503 ("Paystack API error: " +:+ text)) /\
      database (snd r) = database s /\
      calls (snd r) = calls s ++ [GetBalance]
  | Json bd =>
      if balance_status bd && balance_has_data bd &&
         match balance_first bd with
         | inr balance => PrimFloat.ltb (PrimFloat.div balance 100%float) amount
         | inl _ => false
         end
      then
        (exists detail, fst r = Raise (HTTPException 400 detail)) /\
        database (snd r) = database s /\
        calls (snd r) = calls s ++ [GetBalance]
      else if is_nan amount then
        (exists text, fst r = Raise (PyException text)) /\
        database (snd r) = database s /\
        calls (snd r) = calls s ++ [GetBalance]
      else
        exists row,
          added_row s (snd r) row /\
          same_payment row (manual_row env s user wid amount)
  end.
Proof.
  cbv zeta. intros Hw Ha Hpos.
  pose proof (process_payment_refused env req user s) as Hrun. cbv zeta in Hrun.
  rewrite Hw, Ha, Hpos in Hrun. cbn [negb] in Hrun.
  rewrite check_balance_run in Hrun.
  assert (Hcalls : calls (set_session (database s) s) = calls s)
    by (destruct s; reflexivity).
  rewrite Hcalls in Hrun.
  assert (Hrec :
    PaymentRoutes.process_payment env req user s =
    (let r1 := PaymentRoutes.record_and_transfer env user
                 (PaymentProcessRequest.worker_id req) w
                 (PaymentRoutes.requested_amount req w)
                 (set_calls (calls s ++ [GetBalance]) (set_session (database s) s)) in
     (fst r1, set_session (database (snd r1)) (snd r1))) ->
    if is_nan (PaymentRoutes.requested_amount req w) then
      (exists text,
         fst (PaymentRoutes.process_payment env req user s)
         = Raise (PyException text)) /\
      database (snd (PaymentRoutes.process_payment env req user s)) = database s /\
      calls (snd (PaymentRoutes.process_payment env req user s))
      = calls s ++ [GetBalance]
    else
      exists row,
        added_row s (snd (PaymentRoutes.process_payment env req user s)) row /\
        same_payment row
          (manual_row env s user (PaymentProcessRequest.worker_id req)
             (PaymentRoutes.requested_amount req w))).
  { intros ->.
    destruct (is_nan (PaymentRoutes.requested_amount req w)) eqn:Hnan.
    { exact (process_payment_nan env req user s w Hnan). }
    destruct (process_payment_recorded env req user s w Hw Hnan)
      as (row & entries & sent & ok & Hrows & Hlogs & _ & _ & Hout).
    cbv zeta in *. exists row. split; [exact Hrows|].
    destruct (fst (PaymentRoutes.record_and_transfer env user _ w _ _))
      as [resp|[code detail|text]]; cbn [fst snd] in *.
    - destruct Hout as (_ & reference & tcode & next & -> & _).
      repeat split.
    - apply Hout.
    - destruct Hout. }
  destruct (balance_reply env (calls s)) as [text|bd].
  - rewrite Hrun. cbn [fst snd]. destruct s; repeat split.
  - destruct (balance_status bd && balance_has_data bd); cbn [andb];
      [|apply Hrec, Hrun].
    destruct (balance_first bd) as [e|balance]; [apply Hrec, Hrun|].
    destruct (PrimFloat.ltb _ _); [|apply Hrec, Hrun].
    rewrite Hrun. cbn [fst snd]. destruct s; repeat split. eauto.
Qed.

(** X14, witness.  The balance reply has no balance; Alice's payment is
    recorded. *)
Lemma balance_check_blocks_only_shortfall_and_outage_witness :
  let r := PaymentRoutes.process_payment unreadable_balance_env
             (PaymentProcessRequest.Make 1 None) 7 (start only_alice) in
  calls (snd r) <> [] /\
  exists row, added_row (start only_alice) (snd r) row /\
              PaymentHistory.amount row = AmountDecimal 5000000.
Proof.
  cbv zeta. split; [vm_compute; discriminate|].
  destruct (balance_check_blocks_only_shortfall_and_outage unreadable_balance_env
              (PaymentProcessRequest.Make 1 None) 7 (start only_alice) alice
              eq_refl eq_refl eq_refl)
    as (row & Hrow & _ & _ & Hamount & _).
  exists row. split; [exact Hrow|]. rewrite Hamount. vm_compute. reflexivity.
Defined.

(** ** The list of pending payments *)

Lemma collect_cons {A B} (x : A) (l : list A) (f : A -> M B) (s : State) :
  collect (x :: l) f s =
  match f x s with
  | (Return y, s') =>
      match collect l f s' with
      | (Return ys, s'') => (Return (y :: ys), s'')
      | (Raise e, s'') => (Raise e, s'')
      end
  | (Raise e, s') => (Raise e, s')
  end.
Proof.
  cbn [collect]. unfold bind, ret. destruct (f x s) as [[y|e] s']; [|reflexivity].
  destruct (collect l f s') as [[ys|e] s'']; reflexivity.
Qed.

Lemma collect_pending (l : list (Z * Worker.t)) (s : State) :
  Forall (fun kw => Worker.next_payment_date (snd kw) <> None) l ->
  exists out,
    collect l PaymentRoutes.pending_payment s = (Return out, s) /\
    Forall2 (fun kw e =>
               exists due, Worker.next_payment_date (snd kw) = Some due /\
                           e = pending_entry (fst kw) (snd kw) due) l out.
Proof.
  induction 1 as [|kw l Hkw _ IH].
  - exists []. split; [reflexivity|constructor].
  - destruct IH as (out & Hrun & Hout).
    destruct (Worker.next_payment_date (snd kw)) as [due|] eqn:Hd; [|congruence].
    exists (pending_entry (fst kw) (snd kw) due :: out). split.
    + assert (Hone : PaymentRoutes.pending_payment kw s
                     = (Return (pending_entry (fst kw) (snd kw) due), s)).
      { unfold PaymentRoutes.pending_payment. rewrite Hd. reflexivity. }
      rewrite collect_cons, Hone, Hrun. reflexivity.
    + constructor; [eauto|exact Hout].
Qed.

Lemma pending_workers_due_spec (now : datetime) (t : Tables) (wid : Z)
    (w : Worker.t) :
  In (wid, w) (PaymentRoutes.workers_due now t) <->
  workers t !! wid = Some w /\ Worker.is_active w = true /\
  exists d, Worker.next_payment_date w = Some d /\ datetime_leb d now = true.
Proof.
  unfold PaymentRoutes.workers_due. rewrite List.filter_In, <- list_elem_of_In,
    elem_of_map_to_list, andb_true_iff. cbn [fst snd].
  split.
  - intros (Hw & Ha & Hd). repeat split; try assumption.
    destruct (Worker.next_payment_date w) as [d|]; [eauto|discriminate].
  - intros (Hw & Ha & d & Hd & Hle). rewrite Hd. auto.
Qed.

Lemma Forall2_In_r {A B} (R : A -> B -> Prop) (l : list A) (l' : list B) (y : B) :
  Forall2 R l l' -> In y l' -> exists x, In x l /\ R x y.
Proof.
  induction 1 as [|a b l l' Hab _ IH]; intros Hin; [destruct Hin|].
  destruct Hin as [->|Hin].
  - exists a. split; [left; reflexivity|exact Hab].
  - destruct (IH Hin) as (x & Hx & Hr). exists x. split; [right; exact Hx|exact Hr].
Qed.

Lemma get_pending_payments_run (env : Env) (s : State) :
  exists out,
    PaymentRoutes.get_pending_payments env s
    = (Return out, set_tick (S (tick s)) (set_session (database s) s)) /\
    Forall2 (fun kw e =>
               exists due, Worker.next_payment_date (snd kw) = Some due /\
                           e = pending_entry (fst kw) (snd kw) due)
      (PaymentRoutes.workers_due (utcnow_at env (tick s)) (database s)) out.
Proof.
  destruct s as [tk se db cs]. cbn [tick database].
  set (l := PaymentRoutes.workers_due (utcnow_at env tk) db).
  assert (Hall : Forall (fun kw => Worker.next_payment_date (snd kw) <> None) l).
  { apply List.Forall_forall. intros [wid w] Hin.
    apply pending_workers_due_spec in Hin as (_ & _ & d & Hd & _).
    cbn. congruence. }
  destruct (collect_pending l (Build_State (S tk) db db cs) Hall)
    as (out & Hrun & Hout).
  exists out. split; [|exact Hout].
  unfold PaymentRoutes.get_pending_payments. run_eff. fold l. rewrite Hrun.
  reflexivity.
Qed.

(** X16.  [get_pending_payments] returns, reads the UTC clock once,
    writes nothing and sends nothing.  It lists, once each, exactly the
    active workers whose next payment date is at most that clock read,
    with id 0, the salary as amount and status "pending_approval";
    payment rows play no part. *)
Theorem pending_list_is_exactly_the_overdue_workers (env : Env) (s : State) :
  exists out,
    PaymentRoutes.get_pending_payments env s
    = (Return out, set_tick (S (tick s)) (set_session (database s) s)) /\
    NoDup (map PendingPayment.worker_id out) /\
    forall e,
      In e out <->
      exists wid w due,
        workers (database s) !! wid = Some w /\
        Worker.is_active w = true /\
        Worker.next_payment_date w = Some due /\
        datetime_leb due (utcnow_at env (tick s)) = true /\
        e = pending_entry wid w due.
Proof.
  destruct (get_pending_payments_run env s) as (out & Hrun & Hout).
  set (l := PaymentRoutes.workers_due (utcnow_at env (tick s)) (database s)) in *.
  exists out. split; [exact Hrun|split].
  - assert (Hmap : map PendingPayment.worker_id out = map fst l).
    { clear Hrun. induction Hout as [|kw e l0 out0 (due & _ & ->) _ IH];
        [reflexivity|]. cbn. f_equal. exact IH. }
    rewrite Hmap. unfold l, PaymentRoutes.workers_due.
    apply NoDup_fmap_fst.
    + intros k x y Hx Hy.
      apply list_elem_of_In, List.filter_In in Hx as [Hx _].
      apply list_elem_of_In, List.filter_In in Hy as [Hy _].
      apply list_elem_of_In, elem_of_map_to_list in Hx, Hy. congruence.
    + apply base.NoDup_ListNoDup, List.NoDup_filter, base.NoDup_ListNoDup,
        NoDup_map_to_list.
  - intros e. split.
    + intros Hin.
      destruct (Forall2_In_r _ _ _ e Hout Hin) as ([wid w] & Hkw & due & Hd & ->).
      apply pending_workers_due_spec in Hkw as (Hw & Ha & d & Hd' & Hle).
      cbn [fst snd] in *. exists wid, w, due.
      assert (d = due) by congruence. subst d. auto.
    + intros (wid & w & due & Hw & Ha & Hd & Hle & ->).
      assert (Hkw : In (wid, w) l).
      { apply pending_workers_due_spec. eauto 6. }
      destruct (Forall2_In_l _ _ _ _ Hout Hkw) as (e' & He' & due' & Hd' & ->).
      cbn [fst snd] in *. assert (due' = due) by congruence. subst due'.
      exact He'.
Qed.

(** X17.  Every worker [get_pending_payments] lists is selected by the
    query of the daily check for the UTC date of the call, with the
    listed due date.  The clock is assumed to read a time of day. *)
Theorem pending_list_within_daily_check (env : Env) (s : State)
    (out : list PendingPayment.t) (e : PendingPayment.t) :
  let now := utcnow_at env (tick s) in
  dt_time now <= max_time ->
  fst (PaymentRoutes.get_pending_payments env s) = Return out ->
  In e out ->
  exists w,
    In (PendingPayment.worker_id e, w)
       (PaymentScheduler.workers_due (dt_date now) (database s)) /\
    Worker.next_payment_date w = Some (PendingPayment.due_date e).
Proof.
  cbv zeta. intros Htime Hret Hin.
  destruct (get_pending_payments_run env s) as (out' & Hrun & Hout).
  rewrite Hrun in Hret. injection Hret as ->.
  destruct (Forall2_In_r _ _ _ e Hout Hin) as ([wid w] & Hkw & due & Hd & ->).
  apply pending_workers_due_spec in Hkw as (Hw & Ha & d & Hd' & Hle).
  cbn [fst snd] in *. assert (d = due) by congruence. subst d.
  exists w. cbn. split; [|exact Hd].
  apply workers_due_spec. split; [exact Hw|]. split; [exact Ha|].
  exists due. split; [exact Hd|].
  unfold datetime_leb, datetime_compare in *. cbn [dt_date dt_time combine].
  destruct (date_compare (dt_date due) (dt_date (utcnow_at env (tick s))));
    try reflexivity; try discriminate.
  destruct (Z.compare_spec (dt_time due) (dt_time (utcnow_at env (tick s))));
    destruct (Z.compare_spec (dt_time due) max_time);
    try reflexivity; try discriminate; lia.
Qed.

(** X17, witness.  Alice, due on 31 January 2024, is listed that morning. *)
Lemma pending_list_within_daily_check_witness :
  fst (PaymentRoutes.get_pending_payments morning_env (start only_alice))
    = Return [pending_entry 1 alice due_date] /\
  In (1, alice) (PaymentScheduler.workers_due (Date 2024 1 31) only_alice).
Proof.
  split; [vm_compute; reflexivity|].
  destruct (pending_list_within_daily_check morning_env (start only_alice)
              [pending_entry 1 alice due_date] (pending_entry 1 alice due_date))
    as (w & Hin & Hd).
  - vm_compute. discriminate.
  - vm_compute. reflexivity.
  - left. reflexivity.
  - vm_compute. left. reflexivity.
Defined.
